(** * otelkit: the instrumentation facade and its HTTP middleware

    A shallow embedding of [otelkit.go] and [middleware.go].

    The facade is glue around the OpenTelemetry SDK, [log/slog] and
    [net/http].  Those libraries are not part of the repository; they are
    represented here by a _capturing_ double: every call the facade makes on
    a span, an instrument, a logger, a provider or a response writer is
    appended to a log kept in the [World], so that theorems speak about the
    calls the facade issues and about nothing the SDK may decide afterwards
    (sampling, batching, export).  A measurement is logged with the
    attribute set [metric.WithAttributes] makes of its arguments.

    Go features and how they appear below:
    - a nil pointer or nil interface is [None]; calling a method through it
      panics, which is the [Panicked] result of the monad [M];
    - [defer] is the combinator [defer], which runs the deferred call on the
      normal and on the panicking path;
    - a callback supplied by the application ([fn], the wrapped handler) is
      observed through the calls it makes and the value it returns ([Run]);
    - [time.Now] reads the monotonic [clock] of the [World]. *)

From Stdlib Require Import ZArith NArith String List Bool Lia OrdersEx.
From stdpp Require Import base list strings pretty.

Open Scope Z_scope.

(** ** Errors *)

(** A Go [error] value: either a plain message ([errors.New], an SDK error,
    [fmt.Errorf] without [%w]) or [fmt.Errorf("<prefix>%w", cause)]. *)
Inductive GoError : Type :=
| errorString (msg : string)
| wrapError (prefix : string) (cause : GoError).

(** The interface type [error]; [None] is the nil interface. *)
Definition error : Type := option GoError.

(** [err.Error()] on a non-nil error. *)
Fixpoint Error (e : GoError) : string :=
  match e with
  | errorString msg => msg
  | wrapError prefix cause => prefix +:+ Error cause
  end.

(** ** Attribute values *)

(** A [float64] that the source computes as [float64(num) / den], or writes
    as a decimal literal; kept as the exact quotient it approximates. *)
Record float64 : Type := Float64 { f_num : Z; f_den : Z }.

(** The value of an [attribute.KeyValue], a [slog.Attr] or an
    [otellog.KeyValue].  [attribute.Int] and [slog.Int] both store an int64. *)
Inductive Value : Type :=
| VString (s : string)
| VInt64 (z : Z)
| VFloat64 (f : float64)
| VBool (b : bool)
| VAny (e : error).

Definition KeyValue : Type := (string * Value)%type.

(** ** Spans *)

(** [codes.Code] *)
Inductive Code : Type := codes_Unset | codes_Error | codes_Ok.

(** The methods of [trace.Span] the facade calls. *)
Inductive SpanOp : Type :=
| OpSetAttributes (attrs : list KeyValue)
| OpAddEvent (name : string) (attrs : list KeyValue)
| OpRecordError (err : error)
| OpSetStatus (code : Code) (description : string)
| OpEnd.

(** A span created by the tracer: what it was started with, and every call
    it has received since, oldest first. *)
Record Span : Type := mkSpan {
  span_name : string;
  span_parent : option nat;
  span_trace : nat;
  span_start_attrs : list KeyValue;
  span_start_time : Z;
  span_ops : list SpanOp
}.

(** [trace.Span]: a span of the SDK, or the no-op span that
    [trace.SpanFromContext] returns when the context carries none. *)
Inductive trace_Span : Type :=
| sdkSpan (id : nat)
| noopSpan.

(** [context.Context], as far as the facade looks into it. *)
Record Context : Type := mkContext { ctx_span : option nat }.

Definition context_Background : Context := {| ctx_span := None |}.

(** [trace.SpanFromContext] *)
Definition SpanFromContext (ctx : Context) : trace_Span :=
  match ctx_span ctx with
  | Some id => sdkSpan id
  | None => noopSpan
  end.

(** The status a span carries: the last [SetStatus] call, [Unset] before. *)
Definition status_of_ops (ops : list SpanOp) : Code * string :=
  fold_left (fun st op => match op with
                          | OpSetStatus c d => (c, d)
                          | _ => st
                          end) ops (codes_Unset, EmptyString).

Definition span_status (s : Span) : Code * string := status_of_ops (span_ops s).

Definition is_OpEnd (op : SpanOp) : bool :=
  match op with OpEnd => true | _ => false end.

Definition is_OpSetStatus (op : SpanOp) : bool :=
  match op with OpSetStatus _ _ => true | _ => false end.

Definition span_ended (s : Span) : bool := existsb is_OpEnd (span_ops s).

(** Errors recorded on the span by [RecordError], oldest first. *)
Definition span_errors (s : Span) : list error :=
  flat_map (fun op => match op with OpRecordError e => [e] | _ => [] end) (span_ops s).

(** Attributes of the span: those given at start, then those set later. *)
Definition span_attributes (s : Span) : list KeyValue :=
  span_start_attrs s ++
  flat_map (fun op => match op with OpSetAttributes a => a | _ => [] end) (span_ops s).

Definition has_key (k : string) (attrs : list KeyValue) : bool :=
  existsb (fun kv => String.eqb (fst kv) k) attrs.

(** ** Metrics and logs *)

Inductive MetricValue : Type :=
| MInt64 (z : Z)
| MFloat64 (f : float64).

(** A registered instrument ([metric.Int64Counter] and the like). *)
Record Instrument : Type := mkInstrument { inst_name : string }.

(** One [Add] or [Record] call on an instrument, with the attribute set it
    was given. *)
Record MetricPoint : Type := mkMetricPoint {
  mp_instrument : string;
  mp_value : MetricValue;
  mp_attrs : list KeyValue
}.

(** [slog.Level] *)
Definition slog_LevelDebug : Z := -4.
Definition slog_LevelInfo : Z := 0.
Definition slog_LevelWarn : Z := 4.
Definition slog_LevelError : Z := 8.

(** [*slog.Logger] over the JSON handler built by [initLogging]; the handler
    drops records below its level. *)
Record slog_Logger : Type := mkLogger { lg_level : Z; lg_path : string }.

Record SlogRecord : Type := mkSlogRecord {
  sr_time : Z;
  sr_level : Z;
  sr_msg : string;
  sr_attrs : list KeyValue
}.

(** [otellog.Severity] *)
Inductive Severity : Type := SeverityDebug | SeverityInfo | SeverityWarn | SeverityError.

(** [otellog.Logger] *)
Record otel_Logger : Type := mkOtelLogger { ol_name : string; ol_version : string }.

Record OtelRecord : Type := mkOtelRecord {
  or_time : Z;
  or_severity : Severity;
  or_body : string;
  or_attrs : list KeyValue
}.

(** ** Providers *)

Inductive ProviderKind : Type := TracerProviderK | MeterProviderK | LoggerProviderK.

Inductive Sampler : Type :=
| TraceIDRatioBased (rate : float64)
| NeverSample.

Record Exporter : Type := mkExporter { exp_backend : string; exp_endpoint : string }.

(** A provider of the SDK.  [pv_fault] is what its [Shutdown] returns. *)
Record Provider : Type := mkProvider {
  pv_kind : ProviderKind;
  pv_exporter : option Exporter;
  pv_sampler : option Sampler;
  pv_fault : error
}.

(** [trace.Tracer] *)
Record Tracer : Type := mkTracer { tr_name : string; tr_version : string }.

(** ** The world *)

Record World : Type := mkWorld {
  spans : list Span;
  metric_points : list MetricPoint;
  slog_records : list SlogRecord;
  otel_records : list OtelRecord;
  shutdown_log : list ProviderKind;
  clock : Z;
  sdk_latency : N
}.

Definition empty_world : World :=
  {| spans := []; metric_points := []; slog_records := []; otel_records := [];
     shutdown_log := []; clock := 0; sdk_latency := 0 |}.

Definition set_spans (f : list Span -> list Span) (w : World) : World :=
  {| spans := f (spans w); metric_points := metric_points w;
     slog_records := slog_records w; otel_records := otel_records w;
     shutdown_log := shutdown_log w; clock := clock w; sdk_latency := sdk_latency w |}.

Definition add_metric_point (p : MetricPoint) (w : World) : World :=
  {| spans := spans w; metric_points := metric_points w ++ [p];
     slog_records := slog_records w; otel_records := otel_records w;
     shutdown_log := shutdown_log w; clock := clock w; sdk_latency := sdk_latency w |}.

Definition add_slog_record (r : SlogRecord) (w : World) : World :=
  {| spans := spans w; metric_points := metric_points w;
     slog_records := slog_records w ++ [r]; otel_records := otel_records w;
     shutdown_log := shutdown_log w; clock := clock w; sdk_latency := sdk_latency w |}.

Definition add_otel_record (r : OtelRecord) (w : World) : World :=
  {| spans := spans w; metric_points := metric_points w;
     slog_records := slog_records w; otel_records := otel_records w ++ [r];
     shutdown_log := shutdown_log w; clock := clock w; sdk_latency := sdk_latency w |}.

Definition add_shutdown (k : ProviderKind) (w : World) : World :=
  {| spans := spans w; metric_points := metric_points w;
     slog_records := slog_records w; otel_records := otel_records w;
     shutdown_log := shutdown_log w ++ [k]; clock := clock w; sdk_latency := sdk_latency w |}.

Definition advance_clock (d : N) (w : World) : World :=
  {| spans := spans w; metric_points := metric_points w;
     slog_records := slog_records w; otel_records := otel_records w;
     shutdown_log := shutdown_log w; clock := clock w + Z.of_N d; sdk_latency := sdk_latency w |}.

(** ** Computations that may panic *)

Inductive Result (A : Type) : Type :=
| Normal (a : A)
| Panicked (reason : string).
Arguments Normal {A} a.
Arguments Panicked {A} reason.

Definition M (A : Type) : Type := World -> Result A * World.

#[global] Instance M_ret : MRet M := fun A a w => (Normal a, w).

#[global] Instance M_bind : MBind M := fun A B f m w =>
  match m w with
  | (Normal a, w') => f a w'
  | (Panicked p, w') => (Panicked p, w')
  end.

Definition panic {A : Type} (reason : string) : M A := fun w => (Panicked reason, w).

Definition nil_dereference : string := "invalid memory address or nil pointer dereference".

(** [defer d] placed before the statements [m]: [d] runs when [m] returns
    and when [m] panics; a panic of [m] goes on after [d]. *)
Definition defer {A : Type} (d : M unit) (m : M A) : M A := fun w =>
  match m w with
  | (r, w1) =>
      match d w1 with
      | (Normal _, w2) => (r, w2)
      | (Panicked p, w2) => (Panicked p, w2)
      end
  end.

Definition is_Normal {A : Type} (r : Result A) : bool :=
  match r with Normal _ => true | Panicked _ => false end.

(** ** The SDK double *)

Definition new_span (ctx : Context) (name : string) (attrs : list KeyValue) (w : World) : Span :=
  {| span_name := name;
     span_parent := ctx_span ctx;
     span_trace := match ctx_span ctx with
                   | Some p => match spans w !! p with
                               | Some ps => span_trace ps
                               | None => length (spans w)
                               end
                   | None => length (spans w)
                   end;
     span_start_attrs := attrs;
     span_start_time := clock w + Z.of_N (sdk_latency w);
     span_ops := [] |}.

Definition start_span (ctx : Context) (name : string) (attrs : list KeyValue) (w : World) : World :=
  set_spans (fun l => l ++ [new_span ctx name attrs w]) (advance_clock (sdk_latency w) w).

Definition push_op (op : SpanOp) (s : Span) : Span :=
  {| span_name := span_name s; span_parent := span_parent s; span_trace := span_trace s;
     span_start_attrs := span_start_attrs s; span_start_time := span_start_time s;
     span_ops := span_ops s ++ [op] |}.

Definition span_call (s : trace_Span) (op : SpanOp) (w : World) : World :=
  match s with
  | sdkSpan id => set_spans (alter (push_op op) id) w
  | noopSpan => w
  end.

(** [tracer.Start(ctx, name, trace.WithAttributes(attrs...))] *)
Definition tracer_Start (t : Tracer) (ctx : Context) (name : string) (attrs : list KeyValue)
  : M (Context * trace_Span) := fun w =>
  let id := length (spans w) in
  (Normal ({| ctx_span := Some id |}, sdkSpan id), start_span ctx name attrs w).

Definition span_do (s : trace_Span) (op : SpanOp) : M unit := fun w =>
  (Normal tt, span_call s op w).

Definition span_SetAttributes (s : trace_Span) (attrs : list KeyValue) : M unit :=
  span_do s (OpSetAttributes attrs).
Definition span_AddEvent (s : trace_Span) (name : string) (attrs : list KeyValue) : M unit :=
  span_do s (OpAddEvent name attrs).
Definition span_RecordError (s : trace_Span) (err : error) : M unit :=
  span_do s (OpRecordError err).
Definition span_SetStatus (s : trace_Span) (code : Code) (description : string) : M unit :=
  span_do s (OpSetStatus code description).
Definition span_End (s : trace_Span) : M unit := fun w =>
  (Normal tt, advance_clock (sdk_latency w) (span_call s OpEnd w)).

(** [err.Error()]: a method call through the interface, which panics on nil. *)
Definition err_Error (err : error) : M string :=
  match err with
  | Some e => mret (Error e)
  | None => panic nil_dereference
  end.

Definition time_Now : M Z := fun w => (Normal (clock w), w).
Definition time_Since (start : Z) : M Z := fun w => (Normal (clock w - start), w).

(** ** Application callbacks *)

(** What a callback does to the telemetry world. *)
Inductive Effect : Type :=
| EStart (ctx : Context) (name : string) (attrs : list KeyValue)
| ESpan (s : trace_Span) (op : SpanOp)
| ESleep (d : N)
| EMetric (p : MetricPoint)
| ESlog (r : SlogRecord)
| EOtelLog (r : OtelRecord).

Definition apply_effect (w : World) (e : Effect) : World :=
  match e with
  | EStart ctx name attrs => start_span ctx name attrs w
  | ESpan s op => span_call s op w
  | ESleep d => advance_clock d w
  | EMetric p => add_metric_point p w
  | ESlog r => add_slog_record r w
  | EOtelLog r => add_otel_record r w
  end.

Definition apply_effects (es : list Effect) (w : World) : World := fold_left apply_effect es w.

(** One execution of a callback: the calls it made, in order, and how it
    finished. *)
Record Run (A : Type) : Type := mkRun { run_effects : list Effect; run_result : Result A }.
Arguments mkRun {A} _ _.
Arguments run_effects {A} _.
Arguments run_result {A} _.

(** [func(ctx context.Context) error] *)
Definition Body : Type := Context -> World -> Run error.

Definition call {A : Type} (f : World -> Run A) : M A := fun w =>
  (run_result (f w), apply_effects (run_effects (f w)) w).

(** The calls a list of effects makes on the span [id]. *)
Definition ops_on (id : nat) (es : list Effect) : list SpanOp :=
  flat_map (fun e => match e with
                     | ESpan (sdkSpan j) op => if Nat.eqb j id then [op] else []
                     | _ => []
                     end) es.

(** ** Configuration *)

(** [type ExporterType string] *)
Definition ExporterType : Type := string.

Definition ExporterJaeger : ExporterType := "jaeger".
Definition ExporterOTLP : ExporterType := "otlp".
Definition ExporterStdout : ExporterType := "stdout".
Definition ExporterPrometheus : ExporterType := "prometheus".
Definition ExporterNone : ExporterType := "none".

Record Config : Type := mkConfig {
  ServiceName : string;
  ServiceVersion : string;
  Environment : string;
  ExporterType_ : ExporterType;
  JaegerURL : string;
  OTLPEndpoint : string;
  SampleRate : float64;
  Debug : bool;
  EnableMetrics : bool;
  EnableLogs : bool;
  MetricsExporterType : ExporterType;
  LogsExporterType : ExporterType;
  PrometheusPort : Z;
  LogLevel : Z;
  LogFilePath : string
}.

(** The process environment: [os.Getenv], which yields the empty string for
    a variable that is not set. *)
Definition Env : Type := string -> string.

Definition empty_env : Env := fun _ => EmptyString.

Definition getEnvOrDefault (env : Env) (key defaultValue : string) : string :=
  let value := env key in
  if negb (String.eqb value EmptyString) then value else defaultValue.

Definition DefaultConfig (env : Env) : Config :=
  let logLevel := slog_LevelInfo in
  let logLevel :=
    let s := getEnvOrDefault env "OTEL_LOG_LEVEL" "info" in
    if String.eqb s "debug" then slog_LevelDebug
    else if String.eqb s "warn" then slog_LevelWarn
    else if String.eqb s "error" then slog_LevelError
    else logLevel in
  {| ServiceName := getEnvOrDefault env "OTEL_SERVICE_NAME" "unknown-service";
     ServiceVersion := getEnvOrDefault env "OTEL_SERVICE_VERSION" "1.0.0";
     Environment := getEnvOrDefault env "OTEL_ENVIRONMENT" "development";
     ExporterType_ := getEnvOrDefault env "OTEL_EXPORTER_TYPE" ExporterStdout;
     JaegerURL := getEnvOrDefault env "JAEGER_URL" "http://localhost:14268/api/traces";
     OTLPEndpoint := getEnvOrDefault env "OTEL_EXPORTER_OTLP_ENDPOINT" "http://localhost:4318";
     SampleRate := Float64 1 10;
     Debug := String.eqb (getEnvOrDefault env "OTEL_DEBUG" "false") "true";
     EnableMetrics := String.eqb (getEnvOrDefault env "OTEL_ENABLE_METRICS" "true") "true";
     EnableLogs := String.eqb (getEnvOrDefault env "OTEL_ENABLE_LOGS" "true") "true";
     MetricsExporterType := getEnvOrDefault env "OTEL_METRICS_EXPORTER" ExporterPrometheus;
     LogsExporterType := getEnvOrDefault env "OTEL_LOGS_EXPORTER" ExporterStdout;
     PrometheusPort := 9090;
     LogLevel := logLevel;
     LogFilePath := getEnvOrDefault env "OTEL_LOG_FILE_PATH" EmptyString |}.

(** The zero value of [Config], the value of every field a composite
    literal leaves out. *)
Definition zero_Config : Config :=
  {| ServiceName := EmptyString; ServiceVersion := EmptyString; Environment := EmptyString; ExporterType_ := EmptyString;
     JaegerURL := EmptyString; OTLPEndpoint := EmptyString; SampleRate := Float64 0 1; Debug := false;
     EnableMetrics := false; EnableLogs := false; MetricsExporterType := EmptyString;
     LogsExporterType := EmptyString; PrometheusPort := 0; LogLevel := 0; LogFilePath := EmptyString |}.

(** ** The kit *)

Record OTelKit : Type := mkOTelKit {
  tracer : option Tracer;
  tracerProvider : option Provider;
  meter : option string;
  meterProvider : option Provider;
  loggerProvider : option Provider;
  otelLogger : option otel_Logger;
  logger : option slog_Logger;
  config : Config;
  httpRequestDuration : option Instrument;
  httpRequestsTotal : option Instrument;
  activeSpansGauge : option Instrument;
  businessOpsCounter : option Instrument
}.

(** [&OTelKit{config: config}] *)
Definition kit_of_config (c : Config) : OTelKit :=
  {| tracer := None; tracerProvider := None; meter := None; meterProvider := None;
     loggerProvider := None; otelLogger := None; logger := None; config := c;
     httpRequestDuration := None; httpRequestsTotal := None;
     activeSpansGauge := None; businessOpsCounter := None |}.

(** ** Tracing operations of the facade *)

Definition StartSpan (o : OTelKit) (ctx : Context) (spanName : string) (opts : list KeyValue)
  : M (Context * trace_Span) :=
  match tracer o with
  | Some t => tracer_Start t ctx spanName opts
  | None => panic nil_dereference
  end.

Definition TraceFunction (o : OTelKit) (ctx : Context) (functionName : string)
    (fn : Body) (attrs : list KeyValue) : M error :=
  '(ctx, span) ← StartSpan o ctx functionName [];
  defer (span_End span)
    (span_SetAttributes span attrs;;
     err ← call (fn ctx);
     match err with
     | Some _ =>
         span_RecordError span err;;
         description ← err_Error err;
         span_SetStatus span codes_Error description
     | None => mret tt
     end;;
     mret err).

Definition AddEvent (o : OTelKit) (ctx : Context) (name : string) (attrs : list KeyValue) : M unit :=
  let span := SpanFromContext ctx in
  span_AddEvent span name attrs.

Definition SetAttributes (o : OTelKit) (ctx : Context) (attrs : list KeyValue) : M unit :=
  let span := SpanFromContext ctx in
  span_SetAttributes span attrs.

Definition RecordError (o : OTelKit) (ctx : Context) (err : error) : M unit :=
  let span := SpanFromContext ctx in
  span_RecordError span err;;
  description ← err_Error err;
  span_SetStatus span codes_Error description.

(** [time.Duration.Milliseconds]: integer division of the nanoseconds. *)
Definition Milliseconds (d : Z) : Z := Z.quot d 1000000.

Definition TimedOperation (o : OTelKit) (ctx : Context) (operationName : string) (fn : Body)
  : M (Z * error) :=
  start ← time_Now;
  err ← TraceFunction o ctx operationName (fun ctx => fn ctx) [];
  duration ← time_Since start;
  let span := SpanFromContext ctx in
  span_SetAttributes span [("operation.duration_ms", VInt64 (Milliseconds duration))];;
  mret (duration, err).

Definition ConditionalTrace (o : OTelKit) (ctx : Context) (condition : bool)
    (spanName : string) (fn : Body) : M error :=
  if condition then TraceFunction o ctx spanName fn []
  else call (fn ctx).

(** ** Logging and metrics operations of the facade *)

(** [LogAttrs] of a [*slog.Logger]: through a nil logger it panics. *)
Definition Logger_LogAttrs (l : option slog_Logger) (ctx : Context) (level : Z)
    (msg : string) (attrs : list KeyValue) : M unit :=
  match l with
  | None => panic nil_dereference
  | Some lg => fun w =>
      (Normal tt,
       if lg_level lg <=? level
       then add_slog_record {| sr_time := clock w; sr_level := level;
                               sr_msg := msg; sr_attrs := attrs |} w
       else w)
  end.

Definition convertSlogAttr (attr : KeyValue) : KeyValue :=
  match snd attr with
  | VString s => (fst attr, VString s)
  | VInt64 z => (fst attr, VInt64 z)
  | VFloat64 f => (fst attr, VFloat64 f)
  | VBool b => (fst attr, VBool b)
  | VAny (Some e) => (fst attr, VString (Error e))
  | VAny None => (fst attr, VString "<nil>")
  end.

Definition emitOTelLog (o : OTelKit) (ctx : Context) (severity : Severity)
    (msg : string) (attrs : list KeyValue) : M unit :=
  match otelLogger o with
  | None => mret tt
  | Some _ => fun w =>
      let record := map convertSlogAttr attrs in
      let span := SpanFromContext ctx in
      let record :=
        match span with
        | sdkSpan id =>
            match spans w !! id with
            | Some s => record ++ [("trace_id", VString (pretty (span_trace s)));
                                   ("span_id", VString (pretty id))]
            | None => record
            end
        | noopSpan => record
        end in
      (Normal tt,
       add_otel_record {| or_time := clock w; or_severity := severity;
                          or_body := msg; or_attrs := record |} w)
  end.

Definition LogInfo (o : OTelKit) (ctx : Context) (msg : string) (attrs : list KeyValue) : M unit :=
  match logger o with
  | Some _ => Logger_LogAttrs (logger o) ctx slog_LevelInfo msg attrs
  | None => mret tt
  end;;
  emitOTelLog o ctx SeverityInfo msg attrs.

Definition LogError (o : OTelKit) (ctx : Context) (msg : string) (err : error)
    (attrs : list KeyValue) : M unit :=
  let allAttrs := attrs ++ [("error", VAny err)] in
  match logger o with
  | Some _ => Logger_LogAttrs (logger o) ctx slog_LevelError msg allAttrs
  | None => mret tt
  end;;
  emitOTelLog o ctx SeverityError msg allAttrs.

Definition LogDebug (o : OTelKit) (ctx : Context) (msg : string) (attrs : list KeyValue) : M unit :=
  match logger o with
  | Some _ => Logger_LogAttrs (logger o) ctx slog_LevelDebug msg attrs
  | None => mret tt
  end;;
  emitOTelLog o ctx SeverityDebug msg attrs.

Definition LogWarn (o : OTelKit) (ctx : Context) (msg : string) (attrs : list KeyValue) : M unit :=
  match logger o with
  | Some _ => Logger_LogAttrs (logger o) ctx slog_LevelWarn msg attrs
  | None => mret tt
  end;;
  emitOTelLog o ctx SeverityWarn msg attrs.

(** [instrument.Add] and [instrument.Record] *)
Definition instrument_record (i : Instrument) (v : MetricValue) (attrs : list KeyValue) : M unit :=
  fun w => (Normal tt, add_metric_point {| mp_instrument := inst_name i; mp_value := v;
                                           mp_attrs := attrs |} w).

(** An [attribute.Set] is kept ordered by key, one entry per key.
    [set_insert] puts an attribute into such a set: an entry that already
    has the key gives way to the new one. *)
Fixpoint set_insert (kv : KeyValue) (s : list KeyValue) : list KeyValue :=
  match s with
  | [] => [kv]
  | kv' :: s' =>
      match String.compare (fst kv) (fst kv') with
      | Lt => kv :: s
      | Eq => kv :: s'
      | Gt => kv' :: set_insert kv s'
      end
  end.

(** [attribute.NewSet]: the attributes in the order of their keys; of the
    attributes given with the same key the last one stays. *)
Definition attribute_NewSet (kvs : list KeyValue) : list KeyValue :=
  fold_left (fun s kv => set_insert kv s) kvs [].

(** [metric.WithAttributes(attrs...)]: the measurement carries the attribute
    set, not the argument list. *)
Definition metric_WithAttributes (attrs : list KeyValue) : list KeyValue :=
  attribute_NewSet attrs.

Definition RecordMetric (o : OTelKit) (ctx : Context) (operation : string) (value : Z)
    (attrs : list KeyValue) : M unit :=
  match businessOpsCounter o with
  | Some c =>
      let allAttrs := attrs ++ [("operation_type", VString operation)] in
      instrument_record c (MInt64 value) (metric_WithAttributes allAttrs)
  | None => mret tt
  end.

(** [time.Duration.Seconds] *)
Definition Seconds (d : Z) : float64 := Float64 d 1000000000.

Definition RecordHTTPMetrics (o : OTelKit) (ctx : Context) (method statusCode : string)
    (duration : Z) : M unit :=
  match httpRequestsTotal o with
  | Some c => instrument_record c (MInt64 1)
                (metric_WithAttributes
                   [("method", VString method); ("status_code", VString statusCode)])
  | None => mret tt
  end;;
  match httpRequestDuration o with
  | Some h => instrument_record h (MFloat64 (Seconds duration))
                (metric_WithAttributes
                   [("method", VString method); ("status_code", VString statusCode)])
  | None => mret tt
  end.

Definition IncrementActiveSpans (o : OTelKit) (ctx : Context) : M unit :=
  match activeSpansGauge o with
  | Some g => instrument_record g (MInt64 1) []
  | None => mret tt
  end.

Definition DecrementActiveSpans (o : OTelKit) (ctx : Context) : M unit :=
  match activeSpansGauge o with
  | Some g => instrument_record g (MInt64 (-1)) []
  | None => mret tt
  end.

(** ** HTTP middleware *)

(** [http.StatusText] *)
Definition http_StatusText (code : Z) : string :=
  match code with
  | 100 => "Continue"
  | 101 => "Switching Protocols"
  | 102 => "Processing"
  | 103 => "Early Hints"
  | 200 => "OK"
  | 201 => "Created"
  | 202 => "Accepted"
  | 203 => "Non-Authoritative Information"
  | 204 => "No Content"
  | 205 => "Reset Content"
  | 206 => "Partial Content"
  | 207 => "Multi-Status"
  | 208 => "Already Reported"
  | 226 => "IM Used"
  | 300 => "Multiple Choices"
  | 301 => "Moved Permanently"
  | 302 => "Found"
  | 303 => "See Other"
  | 304 => "Not Modified"
  | 305 => "Use Proxy"
  | 307 => "Temporary Redirect"
  | 308 => "Permanent Redirect"
  | 400 => "Bad Request"
  | 401 => "Unauthorized"
  | 402 => "Payment Required"
  | 403 => "Forbidden"
  | 404 => "Not Found"
  | 405 => "Method Not Allowed"
  | 406 => "Not Acceptable"
  | 407 => "Proxy Authentication Required"
  | 408 => "Request Timeout"
  | 409 => "Conflict"
  | 410 => "Gone"
  | 411 => "Length Required"
  | 412 => "Precondition Failed"
  | 413 => "Request Entity Too Large"
  | 414 => "Request URI Too Long"
  | 415 => "Unsupported Media Type"
  | 416 => "Requested Range Not Satisfiable"
  | 417 => "Expectation Failed"
  | 418 => "I'm a teapot"
  | 421 => "Misdirected Request"
  | 422 => "Unprocessable Entity"
  | 423 => "Locked"
  | 424 => "Failed Dependency"
  | 425 => "Too Early"
  | 426 => "Upgrade Required"
  | 428 => "Precondition Required"
  | 429 => "Too Many Requests"
  | 431 => "Request Header Fields Too Large"
  | 451 => "Unavailable For Legal Reasons"
  | 500 => "Internal Server Error"
  | 501 => "Not Implemented"
  | 502 => "Bad Gateway"
  | 503 => "Service Unavailable"
  | 504 => "Gateway Timeout"
  | 505 => "HTTP Version Not Supported"
  | 506 => "Variant Also Negotiates"
  | 507 => "Insufficient Storage"
  | 508 => "Loop Detected"
  | 510 => "Not Extended"
  | 511 => "Network Authentication Required"
  | _ => EmptyString
  end.

(** [strconv.Itoa] *)
Definition strconv_Itoa (n : Z) : string := pretty n.

(** [*http.Request], the fields the middleware reads. *)
Record Request : Type := mkRequest {
  Method : string;
  URL_Path : string;
  URL_String : string;
  UserAgent : string;
  RemoteAddr : string;
  req_Context : Context
}.

(** [r.WithContext(ctx)] *)
Definition WithContext (r : Request) (ctx : Context) : Request :=
  {| Method := Method r; URL_Path := URL_Path r; URL_String := URL_String r;
     UserAgent := UserAgent r; RemoteAddr := RemoteAddr r; req_Context := ctx |}.

(** A call on an [http.ResponseWriter]. *)
Inductive ResponseCall : Type :=
| RWriteHeader (statusCode : Z)
| RWrite (body : string).

(** The [http.ResponseWriter] handed to the middleware: the calls it has
    received. *)
Definition http_ResponseWriter : Type := list ResponseCall.

Record responseWriter : Type := mkResponseWriter {
  ResponseWriter : http_ResponseWriter;
  statusCode : Z
}.

Definition WriteHeader (w : responseWriter) (code : Z) : responseWriter :=
  {| statusCode := code;
     ResponseWriter := ResponseWriter w ++ [RWriteHeader code] |}.

(** [Write] is promoted from the embedded [http.ResponseWriter]. *)
Definition Write (w : responseWriter) (body : string) : responseWriter :=
  {| statusCode := statusCode w;
     ResponseWriter := ResponseWriter w ++ [RWrite body] |}.

Definition response_call (w : responseWriter) (c : ResponseCall) : responseWriter :=
  match c with
  | RWriteHeader code => WriteHeader w code
  | RWrite body => Write w body
  end.

(** One execution of an [http.Handler]: its telemetry calls, its calls on
    the response writer it was given, and how it finished. *)
Record HandlerRun : Type := mkHandlerRun {
  h_effects : list Effect;
  h_response : list ResponseCall;
  h_result : Result unit
}.

Definition Handler : Type := Request -> World -> HandlerRun.

(** [next.ServeHTTP(wrapped, r)]; the result is [wrapped] afterwards. *)
Definition ServeHTTP (next : Handler) (wrapped : responseWriter) (r : Request) : M responseWriter :=
  fun w =>
    let run := next r w in
    let wrapped := fold_left response_call (h_response run) wrapped in
    (match h_result run with
     | Normal _ => Normal wrapped
     | Panicked p => Panicked p
     end, apply_effects (h_effects run) w).

(** [float64(duration.Nanoseconds())/1e6] *)
Definition duration_ms (d : Z) : float64 := Float64 d 1000000.

(** The attributes the span of a request is started with. *)
Definition request_span_attrs (r : Request) : list KeyValue :=
  [("http.method", VString (Method r));
   ("http.url", VString (URL_String r));
   ("http.route", VString (URL_Path r));
   ("http.user_agent", VString (UserAgent r));
   ("http.remote_addr", VString (RemoteAddr r))].

(** The attributes of the "HTTP request started" log. *)
Definition request_log_attrs (r : Request) : list KeyValue :=
  [("method", VString (Method r));
   ("path", VString (URL_Path r));
   ("user_agent", VString (UserAgent r));
   ("remote_addr", VString (RemoteAddr r))].

Definition HTTPMiddleware (o : OTelKit) (next : Handler) (w : http_ResponseWriter) (r : Request)
  : M http_ResponseWriter :=
  start ← time_Now;
  '(ctx, span) ← StartSpan o (req_Context r) (Method r +:+ " " +:+ URL_Path r)
      (request_span_attrs r);
  defer (span_End span)
    (IncrementActiveSpans o ctx;;
     defer (DecrementActiveSpans o ctx)
       (LogInfo o ctx "HTTP request started" (request_log_attrs r);;
        let wrapped := {| ResponseWriter := w; statusCode := 200 |} in
        wrapped ← ServeHTTP next wrapped (WithContext r ctx);
        duration ← time_Since start;
        let statusCode_ := strconv_Itoa (statusCode wrapped) in
        span_SetAttributes span
          [("http.status_code", VInt64 (statusCode wrapped));
           ("http.status_text", VString (http_StatusText (statusCode wrapped)));
           ("http.duration_ms", VFloat64 (duration_ms duration))];;
        (if 400 <=? statusCode wrapped
         then span_SetStatus span codes_Error (http_StatusText (statusCode wrapped))
         else mret tt);;
        RecordHTTPMetrics o ctx (Method r) statusCode_ duration;;
        let logLevel := slog_LevelInfo in
        let logLevel :=
          if 500 <=? statusCode wrapped then slog_LevelError
          else if 400 <=? statusCode wrapped then slog_LevelWarn
          else logLevel in
        Logger_LogAttrs (logger o) ctx logLevel "HTTP request completed"
          [("method", VString (Method r));
           ("path", VString (URL_Path r));
           ("status_code", VInt64 (statusCode wrapped));
           ("status_text", VString (http_StatusText (statusCode wrapped)));
           ("duration_ms", VFloat64 (duration_ms duration))];;
        (if 400 <=? statusCode wrapped
         then LogError o ctx "HTTP request failed" None
                [("status_code", VInt64 (statusCode wrapped));
                 ("path", VString (URL_Path r))]
         else mret tt);;
        mret (ResponseWriter wrapped))).

(** ** Shutdown *)

(** [provider.Shutdown(ctx)] *)
Definition Provider_Shutdown (p : Provider) (ctx : Context) : M error := fun w =>
  (Normal (pv_fault p), add_shutdown (pv_kind p) w).

(** [%v] of a [[]error]. *)
Definition fmt_errors (errs : list GoError) : string :=
  "[" +:+ String.concat " " (map Error errs) +:+ "]".

Definition shutdown_one (p : option Provider) (ctx : Context) (prefix : string)
    (errs : list GoError) : M (list GoError) :=
  match p with
  | Some p =>
      err ← Provider_Shutdown p ctx;
      match err with
      | Some e => mret (errs ++ [wrapError prefix e])
      | None => mret errs
      end
  | None => mret errs
  end.

Definition Shutdown (o : OTelKit) (ctx : Context) : M error :=
  let errs := [] in
  errs ← shutdown_one (tracerProvider o) ctx "tracer provider shutdown: " errs;
  errs ← shutdown_one (meterProvider o) ctx "meter provider shutdown: " errs;
  errs ← shutdown_one (loggerProvider o) ctx "logger provider shutdown: " errs;
  if (0 <? length errs)%nat
  then mret (Some (errorString ("shutdown errors: " +:+ fmt_errors errs)))
  else mret None.

(** ** Construction *)

(** What the constructors of the SDK, the exporters and the operating
    system answer: [None] for success, [Some e] for the error they return.
    [provider_fault] is the error a provider built here will return from
    [Shutdown]. *)
Record Externals : Type := mkExternals {
  resource_Merge : Config -> error;
  jaeger_New : string -> error;
  otlptracehttp_New : string -> error;
  stdouttrace_New : error;
  otlpmetrichttp_New : string -> error;
  prometheus_New : error;
  stdoutmetric_New : error;
  otlploghttp_New : string -> error;
  stdoutlog_New : error;
  meter_instrument : string -> error;
  os_OpenFile : string -> error;
  provider_fault : ProviderKind -> error
}.

(** [*resource.Resource]; [None] is the nil pointer. *)
Definition Resource : Type := option (list KeyValue).

Definition newResource (ext : Externals) (config : Config) : Resource * error :=
  match resource_Merge ext config with
  | Some e => (None, Some e)
  | None => (Some [("service.name", VString (ServiceName config));
                   ("service.version", VString (ServiceVersion config));
                   ("deployment.environment.name", VString (Environment config))], None)
  end.

(** The result [(exporter, err)] of an exporter constructor. *)
Definition constructed (backend endpoint : string) (err : error) : option Exporter * error :=
  match err with
  | Some e => (None, Some e)
  | None => (Some {| exp_backend := backend; exp_endpoint := endpoint |}, None)
  end.

Definition otlp_endpoint (config : Config) : string :=
  let endpoint := OTLPEndpoint config in
  if String.eqb endpoint EmptyString then "localhost:4318" else endpoint.

Definition createTraceExporter (ext : Externals) (config : Config) : option Exporter * error :=
  let t := ExporterType_ config in
  if String.eqb t ExporterJaeger then
    constructed "jaeger" (JaegerURL config) (jaeger_New ext (JaegerURL config))
  else if String.eqb t ExporterOTLP then
    let endpoint := otlp_endpoint config in
    constructed "otlp" (endpoint +:+ "/v1/traces") (otlptracehttp_New ext endpoint)
  else if String.eqb t ExporterStdout then
    constructed "stdout" EmptyString (stdouttrace_New ext)
  else if String.eqb t ExporterNone then
    (None, None)
  else
    (None, Some (errorString ("unsupported trace exporter type: " +:+ t))).

Definition createMetricsExporter (ext : Externals) (config : Config) : option Exporter * error :=
  let t := MetricsExporterType config in
  if String.eqb t ExporterOTLP then
    let endpoint := otlp_endpoint config in
    constructed "otlp" (endpoint +:+ "/v1/metrics") (otlpmetrichttp_New ext endpoint)
  else if String.eqb t ExporterPrometheus then
    constructed "prometheus" EmptyString (prometheus_New ext)
  else if String.eqb t ExporterStdout then
    constructed "stdout" EmptyString (stdoutmetric_New ext)
  else if String.eqb t ExporterNone then
    (None, None)
  else
    (None, Some (errorString ("unsupported metrics exporter type: " +:+ t))).

Definition createLogsExporter (ext : Externals) (config : Config) : option Exporter * error :=
  let t := LogsExporterType config in
  if String.eqb t ExporterOTLP then
    let endpoint := otlp_endpoint config in
    constructed "otlp" (endpoint +:+ "/v1/logs") (otlploghttp_New ext endpoint)
  else if String.eqb t ExporterStdout then
    constructed "stdout" EmptyString (stdoutlog_New ext)
  else if String.eqb t ExporterNone then
    (None, None)
  else
    (None, Some (errorString ("unsupported logs exporter type: " +:+ t))).

Definition set_tracing (o : OTelKit) (t : Tracer) (p : Provider) : OTelKit :=
  {| tracer := Some t; tracerProvider := Some p; meter := meter o;
     meterProvider := meterProvider o; loggerProvider := loggerProvider o;
     otelLogger := otelLogger o; logger := logger o; config := config o;
     httpRequestDuration := httpRequestDuration o; httpRequestsTotal := httpRequestsTotal o;
     activeSpansGauge := activeSpansGauge o; businessOpsCounter := businessOpsCounter o |}.

Definition set_metrics (o : OTelKit) (m : string) (p : Provider) : OTelKit :=
  {| tracer := tracer o; tracerProvider := tracerProvider o; meter := Some m;
     meterProvider := Some p; loggerProvider := loggerProvider o;
     otelLogger := otelLogger o; logger := logger o; config := config o;
     httpRequestDuration := httpRequestDuration o; httpRequestsTotal := httpRequestsTotal o;
     activeSpansGauge := activeSpansGauge o; businessOpsCounter := businessOpsCounter o |}.

Definition set_instruments (o : OTelKit) (d t g b : option Instrument) : OTelKit :=
  {| tracer := tracer o; tracerProvider := tracerProvider o; meter := meter o;
     meterProvider := meterProvider o; loggerProvider := loggerProvider o;
     otelLogger := otelLogger o; logger := logger o; config := config o;
     httpRequestDuration := d; httpRequestsTotal := t;
     activeSpansGauge := g; businessOpsCounter := b |}.

Definition set_logging (o : OTelKit) (p : Provider) (ol : otel_Logger) (l : slog_Logger) : OTelKit :=
  {| tracer := tracer o; tracerProvider := tracerProvider o; meter := meter o;
     meterProvider := meterProvider o; loggerProvider := Some p;
     otelLogger := Some ol; logger := Some l; config := config o;
     httpRequestDuration := httpRequestDuration o; httpRequestsTotal := httpRequestsTotal o;
     activeSpansGauge := activeSpansGauge o; businessOpsCounter := businessOpsCounter o |}.

Definition initTracing (ext : Externals) (o : OTelKit) (res : Resource) : OTelKit * error :=
  match createTraceExporter ext (config o) with
  | (_, Some err) => (o, Some (wrapError "failed to create trace exporter: " err))
  | (exporter, None) =>
      let tracerProvider :=
        match exporter with
        | Some _ => {| pv_kind := TracerProviderK; pv_exporter := exporter;
                       pv_sampler := Some (TraceIDRatioBased (SampleRate (config o)));
                       pv_fault := provider_fault ext TracerProviderK |}
        | None => {| pv_kind := TracerProviderK; pv_exporter := None;
                     pv_sampler := Some NeverSample;
                     pv_fault := provider_fault ext TracerProviderK |}
        end in
      let tracer := {| tr_name := ServiceName (config o);
                       tr_version := ServiceVersion (config o) |} in
      (set_tracing o tracer tracerProvider, None)
  end.

(** [meter.Float64Histogram] and the like: the instrument, or the error. *)
Definition new_instrument (ext : Externals) (name : string) : option Instrument * error :=
  match meter_instrument ext name with
  | Some e => (None, Some e)
  | None => (Some {| inst_name := name |}, None)
  end.

Definition initMetricsInstruments (ext : Externals) (o : OTelKit) (meter : string)
  : OTelKit * error :=
  let '(i, err) := new_instrument ext "http_request_duration_seconds" in
  let o := set_instruments o i (httpRequestsTotal o) (activeSpansGauge o) (businessOpsCounter o) in
  match err with
  | Some e => (o, Some (wrapError "failed to create http_request_duration_seconds histogram: " e))
  | None =>
  let '(i, err) := new_instrument ext "http_requests_total" in
  let o := set_instruments o (httpRequestDuration o) i (activeSpansGauge o) (businessOpsCounter o) in
  match err with
  | Some e => (o, Some (wrapError "failed to create http_requests_total counter: " e))
  | None =>
  let '(i, err) := new_instrument ext "otelkit_active_spans" in
  let o := set_instruments o (httpRequestDuration o) (httpRequestsTotal o) i (businessOpsCounter o) in
  match err with
  | Some e => (o, Some (wrapError "failed to create otelkit_active_spans gauge: " e))
  | None =>
  let '(i, err) := new_instrument ext "otelkit_business_operations_total" in
  let o := set_instruments o (httpRequestDuration o) (httpRequestsTotal o) (activeSpansGauge o) i in
  match err with
  | Some e => (o, Some (wrapError "failed to create otelkit_business_operations_total counter: " e))
  | None => (o, None)
  end end end end.

Definition initMetrics (ext : Externals) (o : OTelKit) (res : Resource) : OTelKit * error :=
  match createMetricsExporter ext (config o) with
  | (_, Some err) => (o, Some (wrapError "failed to create metrics exporter: " err))
  | (exporter, None) =>
      let meterProvider := {| pv_kind := MeterProviderK; pv_exporter := exporter;
                              pv_sampler := None;
                              pv_fault := provider_fault ext MeterProviderK |} in
      let meter := ServiceName (config o) in
      match initMetricsInstruments ext o meter with
      | (o, Some err) => (o, Some (wrapError "failed to initialize metrics instruments: " err))
      | (o, None) => (set_metrics o meter meterProvider, None)
      end
  end.

Definition initLogging (ext : Externals) (o : OTelKit) (res : Resource) : OTelKit * error :=
  match createLogsExporter ext (config o) with
  | (_, Some err) => (o, Some (wrapError "failed to create logs exporter: " err))
  | (exporter, None) =>
      let loggerProvider := {| pv_kind := LoggerProviderK; pv_exporter := exporter;
                               pv_sampler := None;
                               pv_fault := provider_fault ext LoggerProviderK |} in
      let opened :=
        if negb (String.eqb (LogFilePath (config o)) EmptyString)
        then os_OpenFile ext (LogFilePath (config o))
        else None in
      match opened with
      | Some err =>
          (o, Some (wrapError ("failed to open log file " +:+ LogFilePath (config o) +:+ ": ") err))
      | None =>
          let logger := {| lg_level := LogLevel (config o);
                           lg_path := LogFilePath (config o) |} in
          (set_logging o loggerProvider
             {| ol_name := "otelkit"; ol_version := ServiceVersion (config o) |} logger, None)
      end
  end.

(** [New].  Registering the providers as process globals and the debug
    line printed with [log.Printf] leave the returned values unchanged and
    are not represented. *)
Definition New (ext : Externals) (config : Config) : option OTelKit * error :=
  match newResource ext config with
  | (_, Some err) => (None, Some (wrapError "failed to create resource: " err))
  | (res, None) =>
      let kit := kit_of_config config in
      match initTracing ext kit res with
      | (_, Some err) => (None, Some (wrapError "failed to initialize tracing: " err))
      | (kit, None) =>
          match (if EnableMetrics config then initMetrics ext kit res else (kit, None)) with
          | (_, Some err) => (None, Some (wrapError "failed to initialize metrics: " err))
          | (kit, None) =>
              match (if EnableLogs config then initLogging ext kit res else (kit, None)) with
              | (_, Some err) => (None, Some (wrapError "failed to initialize logging: " err))
              | (kit, None) => (Some kit, None)
              end
          end
      end
  end.

(** Externals under which every constructor succeeds and no provider
    fails at shutdown. *)
Definition all_ok : Externals :=
  {| resource_Merge := fun _ => None; jaeger_New := fun _ => None;
     otlptracehttp_New := fun _ => None; stdouttrace_New := None;
     otlpmetrichttp_New := fun _ => None; prometheus_New := None;
     stdoutmetric_New := None; otlploghttp_New := fun _ => None;
     stdoutlog_New := None; meter_instrument := fun _ => None;
     os_OpenFile := fun _ => None; provider_fault := fun _ => None |}.

(** ** The state in which [TraceFunction] invokes its callback *)

Definition push_ops (ops : list SpanOp) (s : Span) : Span :=
  {| span_name := span_name s; span_parent := span_parent s; span_trace := span_trace s;
     span_start_attrs := span_start_attrs s; span_start_time := span_start_time s;
     span_ops := span_ops s ++ ops |}.

(** The context [fn] receives: it carries the span just started. *)
Definition traced_context (w : World) : Context := {| ctx_span := Some (length (spans w)) |}.

(** The world [fn] starts in: the span is started and has its attributes. *)
Definition traced_entry (ctx : Context) (name : string) (attrs : list KeyValue) (w : World) : World :=
  span_call (sdkSpan (length (spans w))) (OpSetAttributes attrs) (start_span ctx name [] w).

Definition traced_run (fn : Body) (ctx : Context) (name : string) (attrs : list KeyValue)
    (w : World) : Run error :=
  fn (traced_context w) (traced_entry ctx name attrs w).

(** The number of spans a list of effects starts. *)
Definition is_EStart (e : Effect) : bool :=
  match e with EStart _ _ _ => true | _ => false end.

Definition starts (es : list Effect) : nat := length (List.filter is_EStart es).

(** ** The state in which [HTTPMiddleware] invokes the wrapped handler *)

Definition middleware_context (w : World) : Context := {| ctx_span := Some (length (spans w)) |}.

Definition middleware_entry (o : OTelKit) (r : Request) (w : World) : World :=
  let ctx := middleware_context w in
  let w := start_span (req_Context r) (Method r +:+ " " +:+ URL_Path r) (request_span_attrs r) w in
  let w := snd (IncrementActiveSpans o ctx w) in
  snd (LogInfo o ctx "HTTP request started" (request_log_attrs r) w).

Definition middleware_run (o : OTelKit) (next : Handler) (r : Request) (w : World) : HandlerRun :=
  next (WithContext r (middleware_context w)) (middleware_entry o r w).

(** The status codes a handler passed to [WriteHeader], in order. *)
Definition written_codes (calls : list ResponseCall) : list Z :=
  flat_map (λ c, match c with RWriteHeader code => [code] | RWrite _ => [] end) calls.

(** The first and the last status code written, 200 when none was. *)
Definition first_written (calls : list ResponseCall) : Z := hd 200 (written_codes calls).
Definition last_written (calls : list ResponseCall) : Z := List.last (written_codes calls) 200.

(** The level of the completion log for a status code. *)
Definition completion_level (code : Z) : Z :=
  if 500 <=? code then slog_LevelError
  else if 400 <=? code then slog_LevelWarn
  else slog_LevelInfo.

(** ** Exporter names *)

Definition recognized_trace (t : ExporterType) : bool :=
  String.eqb t "jaeger" || String.eqb t "otlp" || String.eqb t "stdout" || String.eqb t "none".

Definition recognized_metrics (t : ExporterType) : bool :=
  String.eqb t "otlp" || String.eqb t "prometheus" || String.eqb t "stdout" || String.eqb t "none".

Definition recognized_logs (t : ExporterType) : bool :=
  String.eqb t "otlp" || String.eqb t "stdout" || String.eqb t "none".

(** ** What [Shutdown] is to do *)

(** The providers of a kit that are not nil, in the order trace, metric, log,
    each with the prefix [Shutdown] reports its failure under. *)
Definition providers (o : OTelKit) : list (string * Provider) :=
  match tracerProvider o with Some p => [("tracer provider shutdown: ", p)] | None => [] end ++
  match meterProvider o with Some p => [("meter provider shutdown: ", p)] | None => [] end ++
  match loggerProvider o with Some p => [("logger provider shutdown: ", p)] | None => [] end.

(** The failures of those providers, wrapped. *)
Definition shutdown_failures (o : OTelKit) : list GoError :=
  flat_map (λ pp, match pv_fault (snd pp) with
                  | Some e => [wrapError (fst pp) e]
                  | None => []
                  end) (providers o).

(** ** Sample values *)

(** The configuration of the test [CustomConfig]: a composite literal that
    sets six fields and leaves the others at their zero values. *)
Definition custom_config : Config :=
  {| ServiceName := "custom-service"; ServiceVersion := "2.0.0"; Environment := "test";
     ExporterType_ := ExporterNone; JaegerURL := EmptyString; OTLPEndpoint := EmptyString;
     SampleRate := Float64 1 1; Debug := false;
     EnableMetrics := false; EnableLogs := false; MetricsExporterType := EmptyString;
     LogsExporterType := EmptyString; PrometheusPort := 0; LogLevel := 0; LogFilePath := EmptyString |}.

(** The kit [New] builds from the default configuration, and the one it
    builds from [custom_config]. *)
Definition default_kit : OTelKit :=
  default (kit_of_config zero_Config) (fst (New all_ok (DefaultConfig empty_env))).

Definition custom_kit : OTelKit :=
  default (kit_of_config zero_Config) (fst (New all_ok custom_config)).

Definition boom : GoError := errorString "boom".

(** A callback that adds an event to the span of its context and fails. *)
Definition failing_body : Body := λ ctx _,
  {| run_effects := [ESpan (SpanFromContext ctx) (OpAddEvent "validation_started" [])];
     run_result := Normal (Some boom) |}.

(** The callback of the test [TimedOperation]: it sleeps 10ms. *)
Definition sleeping_body : Body := λ _ _,
  {| run_effects := [ESleep 10000000]; run_result := Normal None |}.

(** A world with one span, named "parent", still open. *)
Definition parent_world : World :=
  start_span context_Background "parent" [] empty_world.

Definition parent_context : Context := {| ctx_span := Some 0%nat |}.

Definition sample_request : Request :=
  {| Method := "GET"; URL_Path := "/users"; URL_String := "/users?id=7";
     UserAgent := "curl/8.0"; RemoteAddr := "10.0.0.1:5555";
     req_Context := context_Background |}.

(** A handler that writes nothing, one that answers 404, and one that calls
    [WriteHeader] twice. *)
Definition silent_handler : Handler := λ _ _,
  {| h_effects := []; h_response := [RWrite "ok"]; h_result := Normal tt |}.

Definition not_found_handler : Handler := λ _ _,
  {| h_effects := []; h_response := [RWriteHeader 404; RWrite "no such user"];
     h_result := Normal tt |}.

Definition twice_handler : Handler := λ _ _,
  {| h_effects := []; h_response := [RWriteHeader 404; RWriteHeader 500];
     h_result := Normal tt |}.

(** The composite literal [Config{ServiceName: "my-service"}]. *)
Definition partial_config : Config :=
  {| ServiceName := "my-service"; ServiceVersion := EmptyString; Environment := EmptyString;
     ExporterType_ := EmptyString; JaegerURL := EmptyString; OTLPEndpoint := EmptyString;
     SampleRate := Float64 0 1; Debug := false;
     EnableMetrics := false; EnableLogs := false; MetricsExporterType := EmptyString;
     LogsExporterType := EmptyString; PrometheusPort := 0; LogLevel := 0; LogFilePath := EmptyString |}.

(** The world in which the wrapped handler returns. *)
Definition middleware_handled (o : OTelKit) (next : Handler) (r : Request) (w : World) : World :=
  apply_effects (h_effects (middleware_run o next r w)) (middleware_entry o r w).

(** The values an attribute list gives for a key. *)
Definition get_attr (k : string) (attrs : list KeyValue) : list Value :=
  map snd (List.filter (λ kv, String.eqb (fst kv) k) attrs).

(** ** The remaining operations of the facade *)

(** [GetTracer], [GetMeter] and [GetLogger] hand out the fields. *)
Definition GetTracer (o : OTelKit) : option Tracer := tracer o.
Definition GetMeter (o : OTelKit) : option string := meter o.
Definition GetLogger (o : OTelKit) : option slog_Logger := logger o.

(** [createExporter] is [createTraceExporter] under its former name. *)
Definition createExporter (ext : Externals) (config : Config) : option Exporter * error :=
  createTraceExporter ext config.

Definition TraceHTTPHandler (o : OTelKit) (handlerName : string) (handler : Body)
  : Context -> M error :=
  fun ctx => TraceFunction o ctx ("http." +:+ handlerName) handler [].

Definition DatabaseOperation (o : OTelKit) (ctx : Context) (operation table : string)
    (fn : Body) : M error :=
  LogDebug o ctx "Database operation started"
    [("operation", VString operation); ("table", VString table)];;
  start ← time_Now;
  err ← TraceFunction o ctx ("db." +:+ operation) fn
          [("db.operation", VString operation);
           ("db.table", VString table);
           ("db.type", VString "unknown")];
  duration ← time_Since start;
  match err with
  | Some _ =>
      LogError o ctx "Database operation failed" err
        [("operation", VString operation); ("table", VString table);
         ("duration_ms", VFloat64 (duration_ms duration))]
  | None =>
      LogDebug o ctx "Database operation completed"
        [("operation", VString operation); ("table", VString table);
         ("duration_ms", VFloat64 (duration_ms duration))]
  end;;
  RecordMetric o ctx "database_operation" 1
    [("db.operation", VString operation);
     ("db.table", VString table);
     ("success", VBool (match err with None => true | Some _ => false end))];;
  mret err.

Definition CacheOperation (o : OTelKit) (ctx : Context) (operation key : string)
    (fn : Body) : M error :=
  TraceFunction o ctx ("cache." +:+ operation) fn
    [("cache.operation", VString operation); ("cache.key", VString key)].

Definition ExternalServiceCall (o : OTelKit) (ctx : Context) (serviceName operation : string)
    (fn : Body) : M error :=
  TraceFunction o ctx ("external." +:+ serviceName +:+ "." +:+ operation) fn
    [("service.name", VString serviceName); ("service.operation", VString operation)].

Definition BatchOperation (o : OTelKit) (ctx : Context) (operationName : string)
    (itemCount : Z) (fn : Body) : M error :=
  TraceFunction o ctx ("batch." +:+ operationName) fn
    [("batch.operation", VString operationName); ("batch.item_count", VInt64 itemCount)].

(** ** What a callback contributes to each log of the world *)

Definition metric_effects (es : list Effect) : list MetricPoint :=
  flat_map (λ e, match e with EMetric p => [p] | _ => [] end) es.

Definition slog_effects (es : list Effect) : list SlogRecord :=
  flat_map (λ e, match e with ESlog r => [r] | _ => [] end) es.

Definition otel_effects (es : list Effect) : list OtelRecord :=
  flat_map (λ e, match e with EOtelLog r => [r] | _ => [] end) es.

(** The trace and span identifiers [emitOTelLog] adds to a record. *)
Definition correlation (ctx : Context) (w : World) : list KeyValue :=
  match ctx_span ctx with
  | Some id =>
      match spans w !! id with
      | Some s => [("trace_id", VString (pretty (span_trace s)));
                   ("span_id", VString (pretty id))]
      | None => []
      end
  | None => []
  end.

(** The severity of the OpenTelemetry record a leveled helper emits. *)
Definition severity_of_level (level : Z) : Severity :=
  if level <=? slog_LevelDebug then SeverityDebug
  else if level <=? slog_LevelInfo then SeverityInfo
  else if level <=? slog_LevelWarn then SeverityWarn
  else SeverityError.

Definition is_VAny (v : Value) : bool :=
  match v with VAny _ => true | _ => false end.

(** More sample values: a callback and a handler that panic, and a handler
    that records a metric of its own before answering 503. *)
Definition panicking_body : Body := λ ctx _,
  {| run_effects := [ESpan (SpanFromContext ctx) (OpAddEvent "about_to_fail" [])];
     run_result := Panicked "index out of range" |}.

Definition panicking_handler : Handler := λ _ _,
  {| h_effects := []; h_response := [RWriteHeader 200];
     h_result := Panicked "index out of range" |}.

Definition unavailable_handler : Handler := λ _ _,
  {| h_effects := [ESleep 2000000]; h_response := [RWriteHeader 503; RWrite "busy"];
     h_result := Normal tt |}.

(** The record a leveled helper writes to the local sink: none without a
    logger, none below the logger's level. *)
Definition slog_line (o : OTelKit) (level : Z) (msg : string) (attrs : list KeyValue)
    (w : World) : list SlogRecord :=
  match logger o with
  | Some lg =>
      if lg_level lg <=? level
      then [{| sr_time := clock w; sr_level := level; sr_msg := msg; sr_attrs := attrs |}]
      else []
  | None => []
  end.

(** The record a leveled helper emits to the log pipeline: none without an
    OpenTelemetry logger. *)
Definition otel_line (o : OTelKit) (ctx : Context) (severity : Severity) (msg : string)
    (attrs : list KeyValue) (w : World) : list OtelRecord :=
  match otelLogger o with
  | Some _ =>
      [{| or_time := clock w; or_severity := severity; or_body := msg;
          or_attrs := map convertSlogAttr attrs ++ correlation ctx w |}]
  | None => []
  end.

(** The points [IncrementActiveSpans] and [DecrementActiveSpans] record. *)
Definition gauge_point (o : OTelKit) (delta : Z) : list MetricPoint :=
  match activeSpansGauge o with
  | Some g => [{| mp_instrument := inst_name g; mp_value := MInt64 delta; mp_attrs := [] |}]
  | None => []
  end.


(** ** Attribute sets *)

(** The keys of an attribute list are strictly ascending: they are in key
    order and no key occurs twice. *)
Fixpoint keys_ascending (s : list KeyValue) : bool :=
  match s with
  | a :: s' =>
      match s' with
      | b :: _ =>
          match String.compare (fst a) (fst b) with
          | Lt => keys_ascending s'
          | _ => false
          end
      | [] => true
      end
  | [] => true
  end.

(** ** What construction depends on *)

(** No constructor of the SDK or of an exporter fails: the resource is
    built, every exporter and every instrument is created.  Nothing is said
    about the file system. *)
Definition constructors_succeed (ext : Externals) : Prop :=
  (∀ c, resource_Merge ext c = None) ∧
  (∀ u, jaeger_New ext u = None) ∧
  (∀ e, otlptracehttp_New ext e = None) ∧
  stdouttrace_New ext = None ∧
  (∀ e, otlpmetrichttp_New ext e = None) ∧
  prometheus_New ext = None ∧
  stdoutmetric_New ext = None ∧
  (∀ e, otlploghttp_New ext e = None) ∧
  stdoutlog_New ext = None ∧
  (∀ n, meter_instrument ext n = None).

(** [initLogging] opens the log file only when the configuration names
    one; [os.OpenFile] must then succeed. *)
Definition log_file_opens (ext : Externals) (cfg : Config) : Prop :=
  LogFilePath cfg = EmptyString ∨ os_OpenFile ext (LogFilePath cfg) = None.

(** Externals under which every constructor succeeds and no file can be
    opened. *)
Definition read_only_file_system : Externals :=
  {| resource_Merge := fun _ => None; jaeger_New := fun _ => None;
     otlptracehttp_New := fun _ => None; stdouttrace_New := None;
     otlpmetrichttp_New := fun _ => None; prometheus_New := None;
     stdoutmetric_New := None; otlploghttp_New := fun _ => None;
     stdoutlog_New := None; meter_instrument := fun _ => None;
     os_OpenFile := fun _ => Some (errorString "permission denied");
     provider_fault := fun _ => None |}.

(** An environment that sets only [OTEL_LOG_FILE_PATH]. *)
Definition log_file_env : Env :=
  λ k, if String.eqb k "OTEL_LOG_FILE_PATH" then "/var/log/app.log"%string else EmptyString.

(** The composite literal of the logs test program: it names the logs
    exporter and leaves the trace exporter unset. *)
Definition logs_test_config : Config :=
  {| ServiceName := "test-logs"; ServiceVersion := "1.0.0"; Environment := "development";
     ExporterType_ := EmptyString; JaegerURL := EmptyString; OTLPEndpoint := EmptyString;
     SampleRate := Float64 0 1; Debug := true;
     EnableMetrics := false; EnableLogs := true; MetricsExporterType := EmptyString;
     LogsExporterType := ExporterStdout; PrometheusPort := 0; LogLevel := slog_LevelDebug;
     LogFilePath := EmptyString |}.

(** An environment that sets only [OTEL_PROMETHEUS_PORT]. *)
Definition prometheus_port_env : Env :=
  λ k, if String.eqb k "OTEL_PROMETHEUS_PORT" then "8080"%string else EmptyString.

(** A handler that writes a log record of its own and answers 404. *)
Definition logging_handler : Handler := λ _ w,
  {| h_effects := [ESlog {| sr_time := clock w; sr_level := slog_LevelInfo;
                            sr_msg := "looking up user"; sr_attrs := [] |}];
     h_response := [RWriteHeader 404; RWrite "no such user"];
     h_result := Normal tt |}.
(** * Properties *)

(** ** Spans under the calls of a callback *)

Lemma push_ops_nil s : push_ops [] s = s.
Proof. destruct s; unfold push_ops; simpl. by rewrite app_nil_r. Qed.

Lemma push_ops_app a b s : push_ops (a ++ b) s = push_ops b (push_ops a s).
Proof. unfold push_ops; simpl. by rewrite app_assoc. Qed.

Lemma lookup_start_span_new ctx name attrs w :
  spans (start_span ctx name attrs w) !! length (spans w) = Some (new_span ctx name attrs w).
Proof. simpl. apply list_lookup_middle. reflexivity. Qed.

Lemma lookup_span_call_eq id op w s :
  spans w !! id = Some s → spans (span_call (sdkSpan id) op w) !! id = Some (push_op op s).
Proof. intros H. simpl. by rewrite list_lookup_alter_eq, H. Qed.

Lemma lookup_span_call_ne sp id op w :
  sp ≠ sdkSpan id → spans (span_call sp op w) !! id = spans w !! id.
Proof.
  intros Hne. destruct sp as [j|]; simpl; [|done].
  apply list_lookup_alter_ne. congruence.
Qed.

Lemma lookup_apply_effect e w id s :
  spans w !! id = Some s →
  spans (apply_effect w e) !! id = Some (push_ops (ops_on id [e]) s).
Proof.
  intros H. destruct e as [c n a|sp op|d|p|r|r]; simpl;
    rewrite ?push_ops_nil; try done.
  - by apply lookup_app_l_Some.
  - destruct sp as [j|]; simpl; [|by rewrite push_ops_nil].
    destruct (Nat.eqb_spec j id) as [->|Hne]; simpl.
    + by rewrite list_lookup_alter_eq, H.
    + rewrite push_ops_nil. by rewrite list_lookup_alter_ne.
Qed.

Lemma ops_on_cons id e es : ops_on id (e :: es) = ops_on id [e] ++ ops_on id es.
Proof. unfold ops_on. simpl. by rewrite app_nil_r. Qed.

Lemma lookup_apply_effects es : ∀ w id s,
  spans w !! id = Some s →
  spans (apply_effects es w) !! id = Some (push_ops (ops_on id es) s).
Proof.
  induction es as [|e es IH]; intros w id s H.
  - simpl. by rewrite push_ops_nil.
  - rewrite ops_on_cons, push_ops_app. simpl.
    apply IH. by apply lookup_apply_effect.
Qed.

Lemma clock_apply_effects es : ∀ w, clock w ≤ clock (apply_effects es w).
Proof.
  induction es as [|e es IH]; intros w; simpl; [lia|].
  etransitivity; [|apply IH].
  destruct e as [c n a|sp op|d|p|r|r]; simpl; try lia.
  destruct sp; simpl; lia.
Qed.

(** ** Status of a span *)

Lemma status_of_ops_snoc ops op :
  status_of_ops (ops ++ [op]) =
  match op with OpSetStatus c d => (c, d) | _ => status_of_ops ops end.
Proof. unfold status_of_ops. rewrite fold_left_app. by destruct op. Qed.

Lemma status_of_ops_app a b :
  status_of_ops (a ++ b) =
  fold_left (λ st op, match op with OpSetStatus c d => (c, d) | _ => st end) b (status_of_ops a).
Proof. unfold status_of_ops. by rewrite fold_left_app. Qed.

Lemma status_of_ops_cons_other op ops :
  is_OpSetStatus op = false → status_of_ops (op :: ops) = status_of_ops ops.
Proof. intros H. unfold status_of_ops. by destruct op. Qed.

Lemma status_of_ops_unset ops :
  forallb (fun op => negb (is_OpSetStatus op)) ops = true →
  status_of_ops ops = (codes_Unset, EmptyString).
Proof.
  induction ops as [|op ops IH] using rev_ind; [done|].
  rewrite forallb_app. simpl. rewrite andb_true_r.
  intros [H1 H2]%andb_true_iff. rewrite status_of_ops_snoc.
  destruct op; try by apply IH. done.
Qed.

(** ** TraceFunction *)

Lemma traced_entry_lookup ctx name attrs w :
  spans (traced_entry ctx name attrs w) !! length (spans w) =
  Some (push_ops [OpSetAttributes attrs] (new_span ctx name [] w)).
Proof.
  unfold traced_entry. erewrite lookup_span_call_eq; [done|].
  apply lookup_start_span_new.
Qed.

Lemma TraceFunction_unfold o t ctx name fn attrs w :
  tracer o = Some t →
  TraceFunction o ctx name fn attrs w =
  let run := traced_run fn ctx name attrs w in
  let sp := sdkSpan (length (spans w)) in
  let wb := apply_effects (run_effects run) (traced_entry ctx name attrs w) in
  match run_result run with
  | Normal (Some e) =>
      let w3 := span_call sp (OpSetStatus codes_Error (Error e))
                  (span_call sp (OpRecordError (Some e)) wb) in
      (Normal (Some e), advance_clock (sdk_latency w3) (span_call sp OpEnd w3))
  | Normal None => (Normal None, advance_clock (sdk_latency wb) (span_call sp OpEnd wb))
  | Panicked p => (Panicked p, advance_clock (sdk_latency wb) (span_call sp OpEnd wb))
  end.
Proof.
  intros Ht. unfold TraceFunction, StartSpan. rewrite Ht.
  unfold mbind, M_bind, tracer_Start, defer, span_SetAttributes, span_do, call, traced_run.
  cbn beta iota zeta.
  fold (traced_context w). fold (traced_entry ctx name attrs w).
  destruct (run_result _) as [[e|]|p]; reflexivity.
Qed.

Lemma spans_advance_clock d w : spans (advance_clock d w) = spans w.
Proof. reflexivity. Qed.

Lemma span_errors_snoc3 s e a b :
  span_ops s = a ++ [OpRecordError e; b; OpEnd] →
  is_OpEnd b = true ∨ is_OpSetStatus b = true →
  last (span_errors s) = Some e.
Proof.
  intros Hops Hb. unfold span_errors. rewrite Hops, flat_map_app. simpl.
  destruct b; simpl in *; try (destruct Hb; discriminate);
    by rewrite last_snoc.
Qed.

Lemma existsb_is_OpEnd_snoc ops : existsb is_OpEnd (ops ++ [OpEnd]) = true.
Proof. rewrite existsb_app. simpl. by rewrite orb_true_r. Qed.

(** C1.  [TraceFunction] with a callback that returns a non-nil error
    records that error on the span it started, sets the span status to
    [codes.Error] with the error's message as description, ends the span and
    returns the same error.  With a callback that returns nil it returns nil
    and makes no [SetStatus] call: after the attributes the span has received
    only the calls of the callback and the final [End], so its status is
    unset unless the callback set one itself. *)
Theorem TraceFunction_error_handling o t ctx name fn attrs w r w' :
  tracer o = Some t →
  TraceFunction o ctx name fn attrs w = (r, w') →
  let sid := length (spans w) in
  let run := traced_run fn ctx name attrs w in
  let body_ops := ops_on sid (run_effects run) in
  (∀ e, run_result run = Normal (Some e) →
     r = Normal (Some e) ∧
     ∃ s, spans w' !! sid = Some s ∧ span_name s = name ∧
          span_ops s = OpSetAttributes attrs :: body_ops ++
                       [OpRecordError (Some e); OpSetStatus codes_Error (Error e); OpEnd] ∧
          last (span_errors s) = Some (Some e) ∧
          span_status s = (codes_Error, Error e) ∧
          span_ended s = true) ∧
  (run_result run = Normal None →
     r = Normal None ∧
     ∃ s, spans w' !! sid = Some s ∧ span_name s = name ∧
          span_ops s = OpSetAttributes attrs :: body_ops ++ [OpEnd] ∧
          span_status s = status_of_ops body_ops ∧
          (forallb (λ op, negb (is_OpSetStatus op)) body_ops = true →
           span_status s = (codes_Unset, EmptyString)) ∧
          span_ended s = true).
Proof.
  intros Ht Hrun sid run body_ops.
  rewrite (TraceFunction_unfold _ _ _ _ _ _ _ Ht) in Hrun. cbn zeta in Hrun.
  fold run in Hrun. fold sid in Hrun.
  pose proof (traced_entry_lookup ctx name attrs w) as Hentry.
  apply (lookup_apply_effects (run_effects run)) in Hentry.
  fold sid body_ops in Hentry.
  split.
  - intros e He. rewrite He in Hrun. injection Hrun as <- <-.
    split; [done|].
    rewrite spans_advance_clock.
    apply (lookup_span_call_eq _ (OpRecordError (Some e))) in Hentry.
    apply (lookup_span_call_eq _ (OpSetStatus codes_Error (Error e))) in Hentry.
    apply (lookup_span_call_eq _ OpEnd) in Hentry.
    eexists. split; [exact Hentry|].
    assert (Hops : span_ops (push_op OpEnd (push_op (OpSetStatus codes_Error (Error e))
                     (push_op (OpRecordError (Some e))
                        (push_ops body_ops (push_ops [OpSetAttributes attrs]
                           (new_span ctx name [] w)))))) =
                   OpSetAttributes attrs :: body_ops ++
                     [OpRecordError (Some e); OpSetStatus codes_Error (Error e); OpEnd]).
    { simpl. by rewrite <- !app_assoc. }
    split; [done|]. split; [exact Hops|].
    split; [|split].
    + eapply (span_errors_snoc3 _ _ (OpSetAttributes attrs :: body_ops)); [exact Hops|].
      by right.
    + unfold span_status. rewrite Hops, app_comm_cons.
      by rewrite status_of_ops_app.
    + unfold span_ended. rewrite Hops, app_comm_cons, existsb_app. simpl.
      by rewrite !orb_true_r.
  - intros Hn. rewrite Hn in Hrun. injection Hrun as <- <-.
    split; [done|].
    rewrite spans_advance_clock.
    apply (lookup_span_call_eq _ OpEnd) in Hentry.
    eexists. split; [exact Hentry|].
    assert (Hops : span_ops (push_op OpEnd
                     (push_ops body_ops (push_ops [OpSetAttributes attrs]
                        (new_span ctx name [] w)))) =
                   OpSetAttributes attrs :: body_ops ++ [OpEnd]).
    { simpl. by rewrite <- ?app_assoc. }
    assert (Hst : status_of_ops (OpSetAttributes attrs :: body_ops ++ [OpEnd]) =
                  status_of_ops body_ops).
    { rewrite status_of_ops_cons_other by done. by rewrite status_of_ops_snoc. }
    split; [done|]. split; [exact Hops|].
    unfold span_status, span_ended. rewrite Hops, Hst.
    split; [done|]. split; [apply status_of_ops_unset|].
    by rewrite app_comm_cons, existsb_is_OpEnd_snoc.
Qed.

Lemma TraceFunction_error_handling_witness :
  tracer default_kit = Some {| tr_name := "unknown-service"; tr_version := "1.0.0" |} ∧
  ∃ r w', TraceFunction default_kit context_Background "op" failing_body
            [("k", VBool true)] empty_world = (r, w') ∧
          r = Normal (Some boom) ∧
          ∃ s, spans w' !! 0%nat = Some s ∧ span_status s = (codes_Error, "boom"%string).
Proof.
  split; [reflexivity|].
  eexists _, _. split; [reflexivity|].
  destruct (TraceFunction_error_handling default_kit
              {| tr_name := "unknown-service"; tr_version := "1.0.0" |}
              context_Background "op" failing_body [("k", VBool true)] empty_world
              _ _ eq_refl eq_refl) as [Herr _].
  destruct (Herr boom eq_refl) as (Hr & s & Hs & _ & _ & _ & Hst & _).
  split; [exact Hr|]. exists s. split; [exact Hs|exact Hst].
Defined.

(** ** ConditionalTrace *)

Lemma spans_apply_effects_starts es : ∀ w,
  length (spans (apply_effects es w)) = (length (spans w) + starts es)%nat.
Proof.
  unfold starts.
  induction es as [|e es IH]; intros w; simpl; [lia|].
  rewrite IH.
  destruct e as [c n a|sp op|d|p|r|r]; simpl; try lia.
  - rewrite length_app. simpl. lia.
  - destruct sp; simpl; [rewrite length_alter|]; lia.
Qed.

(** C5.  With a false condition [ConditionalTrace] is the call [fn(ctx)]
    itself: the same context, the same result, and a world changed by the
    calls of [fn] alone, so the only spans created are those [fn] starts.
    With a true condition it is [TraceFunction(ctx, spanName, fn)]. *)
Theorem ConditionalTrace_refines o ctx spanName fn w :
  ConditionalTrace o ctx false spanName fn w = call (fn ctx) w ∧
  fst (ConditionalTrace o ctx false spanName fn w) = run_result (fn ctx w) ∧
  snd (ConditionalTrace o ctx false spanName fn w) = apply_effects (run_effects (fn ctx w)) w ∧
  length (spans (snd (ConditionalTrace o ctx false spanName fn w))) =
    (length (spans w) + starts (run_effects (fn ctx w)))%nat ∧
  ConditionalTrace o ctx true spanName fn w = TraceFunction o ctx spanName fn [] w.
Proof.
  unfold ConditionalTrace, call. simpl.
  repeat split; try reflexivity.
  apply spans_apply_effects_starts.
Qed.

(** ** Operations on the span of the context *)

(** X19.  Without an active span, [AddEvent], [SetAttributes] and
    [RecordError] with a non-nil error return normally and change nothing. *)
Lemma no_span_noop o ctx w :
  ctx_span ctx = None →
  (∀ name attrs, AddEvent o ctx name attrs w = (Normal tt, w)) ∧
  (∀ attrs, SetAttributes o ctx attrs w = (Normal tt, w)) ∧
  (∀ e, RecordError o ctx (Some e) w = (Normal tt, w)).
Proof.
  intros Hctx.
  unfold AddEvent, SetAttributes, RecordError, SpanFromContext. rewrite Hctx.
  repeat split.
Qed.

(** C2.  [RecordError] with a nil error panics, whether or not the context
    carries a span: [err.Error()] is called through the nil interface.  The
    world is left as it was when the context carries no span. *)
Theorem RecordError_nil_panics o ctx w :
  fst (RecordError o ctx None w) = Panicked nil_dereference ∧
  RecordError o context_Background None w = (Panicked nil_dereference, w).
Proof. split; reflexivity. Qed.

(** ** TimedOperation *)

(** The duration [TimedOperation] returns is the time from its start to the
    return of [TraceFunction]; it is at least the time [fn] took. *)
Lemma TimedOperation_duration o t ctx name fn w d err w' :
  tracer o = Some t →
  TimedOperation o ctx name fn w = (Normal (d, err), w') →
  let run := traced_run fn ctx name [] w in
  let entry := traced_entry ctx name [] w in
  clock (apply_effects (run_effects run) entry) - clock entry ≤ d.
Proof.
  intros Ht Hrun run entry.
  unfold TimedOperation, time_Now, time_Since, span_SetAttributes, span_do in Hrun.
  unfold mbind, M_bind, mret, M_ret in Hrun.
  rewrite (TraceFunction_unfold _ _ _ _ _ _ _ Ht) in Hrun. cbn zeta in Hrun.
  change (traced_run (λ ctx0, fn ctx0) ctx name [] w) with run in Hrun.
  fold entry in Hrun.
  assert (Hentry : clock w ≤ clock entry).
  { unfold entry, traced_entry. simpl. lia. }
  destruct (run_result run) as [[e|]|p]; [| |discriminate];
    injection Hrun as <- _ _; simpl; lia.
Qed.

(** C4.  In the test of [TimedOperation] (a background context, a callback
    that sleeps 10ms) the span "timed_test" is created and the duration
    returned is 10ms, but no span carries [operation.duration_ms]: the
    attribute is set on the span of the caller's context, and there is none.
    When the caller's context carries a span, that span receives the
    attribute and the span "timed_test" still does not. *)
Theorem TimedOperation_duration_attribute_misplaced :
  (let '(r, w') := TimedOperation default_kit context_Background "timed_test"
                     sleeping_body empty_world in
   r = Normal (10000000, None) ∧
   map span_name (spans w') = ["timed_test"%string] ∧
   forallb (λ s, negb (has_key "operation.duration_ms" (span_attributes s))) (spans w') = true) ∧
  (let '(r, w') := TimedOperation default_kit parent_context "timed_test"
                     sleeping_body parent_world in
   r = Normal (10000000, None) ∧
   map span_name (spans w') = ["parent"%string; "timed_test"%string] ∧
   map (λ s, has_key "operation.duration_ms" (span_attributes s)) (spans w') = [true; false] ∧
   map span_ended (spans w') = [false; true]).
Proof. vm_compute. repeat split. Qed.

(** [TimedOperation] adds nothing to the span it created, whatever [fn]
    does, as long as the caller's context refers to a span that exists. *)
Lemma TimedOperation_created_span_untouched o ctx name fn w :
  (∀ p, ctx_span ctx = Some p → (p < length (spans w))%nat) →
  spans (snd (TimedOperation o ctx name fn w)) !! length (spans w) =
  spans (snd (TraceFunction o ctx name fn [] w)) !! length (spans w).
Proof.
  intros Hctx.
  unfold TimedOperation, time_Now, time_Since, span_SetAttributes, span_do.
  unfold mbind, M_bind, mret, M_ret.
  change (λ ctx0 : Context, fn ctx0) with fn.
  destruct (TraceFunction o ctx name fn [] w) as [[err|p] w1]; simpl; [|done].
  apply lookup_span_call_ne.
  unfold SpanFromContext. destruct (ctx_span ctx) as [p|] eqn:Hp; [|done].
  specialize (Hctx p eq_refl). intros [= ->]. lia.
Qed.

(** ** Shutdown *)

(** C8.  [Shutdown] calls [Shutdown] on every provider that is not nil, in
    the order trace, metric, log, whatever the earlier ones returned, and on
    no other; it returns nil when none of them failed and otherwise one error
    whose message lists every failure. *)
Theorem Shutdown_collects_failures o ctx w :
  let '(r, w') := Shutdown o ctx w in
  shutdown_log w' = shutdown_log w ++ map (λ pp, pv_kind (snd pp)) (providers o) ∧
  r = Normal (match shutdown_failures o with
              | [] => None
              | errs => Some (errorString ("shutdown errors: " +:+ fmt_errors errs))
              end) ∧
  (r = Normal None ↔ Forall (λ pp, pv_fault (snd pp) = None) (providers o)).
Proof.
  unfold Shutdown, shutdown_failures, providers, shutdown_one, Provider_Shutdown.
  unfold mbind, M_bind, mret, M_ret.
  destruct (tracerProvider o) as [[k1 x1 s1 [f1|]]|];
    destruct (meterProvider o) as [[k2 x2 s2 [f2|]]|];
    destruct (loggerProvider o) as [[k3 x3 s3 [f3|]]|];
    simpl; rewrite <- ?app_assoc, ?app_nil_r; simpl;
    (split; [reflexivity|]); (split; [reflexivity|]);
    (split; [intros [=]; repeat constructor
            |intros H; try reflexivity;
             repeat match goal with
                    | H : Forall _ (_ :: _) |- _ =>
                        apply Forall_cons in H; destruct H as [? H]
                    end; simpl in *; discriminate]).
Qed.

(** ** Construction *)

Lemma createTraceExporter_recognized ext cfg x :
  createTraceExporter ext cfg = (x, None) → recognized_trace (ExporterType_ cfg) = true.
Proof.
  unfold createTraceExporter, recognized_trace,
    ExporterJaeger, ExporterOTLP, ExporterStdout, ExporterNone.
  destruct (String.eqb (ExporterType_ cfg) "jaeger"); [done|].
  destruct (String.eqb (ExporterType_ cfg) "otlp"); [done|].
  destruct (String.eqb (ExporterType_ cfg) "stdout"); [done|].
  destruct (String.eqb (ExporterType_ cfg) "none"); [done|].
  discriminate.
Qed.

Lemma createMetricsExporter_recognized ext cfg x :
  createMetricsExporter ext cfg = (x, None) → recognized_metrics (MetricsExporterType cfg) = true.
Proof.
  unfold createMetricsExporter, recognized_metrics,
    ExporterOTLP, ExporterPrometheus, ExporterStdout, ExporterNone.
  destruct (String.eqb (MetricsExporterType cfg) "otlp"); [done|].
  destruct (String.eqb (MetricsExporterType cfg) "prometheus"); [done|].
  destruct (String.eqb (MetricsExporterType cfg) "stdout"); [done|].
  destruct (String.eqb (MetricsExporterType cfg) "none"); [done|].
  discriminate.
Qed.

Lemma createLogsExporter_recognized ext cfg x :
  createLogsExporter ext cfg = (x, None) → recognized_logs (LogsExporterType cfg) = true.
Proof.
  unfold createLogsExporter, recognized_logs, ExporterOTLP, ExporterStdout, ExporterNone.
  destruct (String.eqb (LogsExporterType cfg) "otlp"); [done|].
  destruct (String.eqb (LogsExporterType cfg) "stdout"); [done|].
  destruct (String.eqb (LogsExporterType cfg) "none"); [done|].
  discriminate.
Qed.

(** What a successful [initTracing] leaves in the kit. *)
Lemma initTracing_ok ext o res o' :
  initTracing ext o res = (o', None) →
  recognized_trace (ExporterType_ (config o)) = true ∧
  ∃ t p, o' = set_tracing o t p.
Proof.
  unfold initTracing.
  destruct (createTraceExporter ext (config o)) as [x [e|]] eqn:Hx; [discriminate|].
  intros [= <-]. split; [by eapply createTraceExporter_recognized|]. eauto.
Qed.

Lemma initMetricsInstruments_ok ext o m o' :
  initMetricsInstruments ext o m = (o', None) →
  ∃ d t g b, o' = set_instruments o (Some d) (Some t) (Some g) (Some b).
Proof.
  unfold initMetricsInstruments, new_instrument.
  destruct (meter_instrument ext "http_request_duration_seconds"); [discriminate|].
  destruct (meter_instrument ext "http_requests_total"); [discriminate|].
  destruct (meter_instrument ext "otelkit_active_spans"); [discriminate|].
  destruct (meter_instrument ext "otelkit_business_operations_total"); [discriminate|].
  intros [= <-]. simpl. eauto 6.
Qed.

Lemma initMetrics_ok ext o res o' :
  initMetrics ext o res = (o', None) →
  recognized_metrics (MetricsExporterType (config o)) = true ∧
  ∃ d t g b m p, o' = set_metrics (set_instruments o (Some d) (Some t) (Some g) (Some b)) m p.
Proof.
  unfold initMetrics.
  destruct (createMetricsExporter ext (config o)) as [x [e|]] eqn:Hx; [discriminate|].
  destruct (initMetricsInstruments ext o (ServiceName (config o))) as [o1 [e|]] eqn:Hi;
    [discriminate|].
  intros [= <-]. split; [by eapply createMetricsExporter_recognized|].
  apply initMetricsInstruments_ok in Hi as (d & t & g & b & ->). eauto 8.
Qed.

Lemma initLogging_ok ext o res o' :
  initLogging ext o res = (o', None) →
  recognized_logs (LogsExporterType (config o)) = true ∧
  ∃ p ol l, o' = set_logging o p ol l.
Proof.
  unfold initLogging.
  destruct (createLogsExporter ext (config o)) as [x [e|]] eqn:Hx; [discriminate|].
  destruct (if negb _ then _ else _) as [e|]; [discriminate|].
  intros [= <-]. split; [by eapply createLogsExporter_recognized|]. eauto.
Qed.

(** [New] answers with a kit and no error, or with an error and no kit. *)
Lemma New_total ext cfg :
  (∃ o, New ext cfg = (Some o, None)) ∨ (∃ e, New ext cfg = (None, Some e)).
Proof.
  unfold New.
  destruct (newResource ext cfg) as [res [e|]]; [eauto|].
  destruct (initTracing ext (kit_of_config cfg) res) as [o1 [e|]]; [eauto|].
  destruct (if EnableMetrics cfg then _ else _) as [o2 [e|]]; [eauto|].
  destruct (if EnableLogs cfg then _ else _) as [o3 [e|]]; eauto.
Qed.

(** The kit [New] returns: it keeps the configuration it was given and has
    a tracer; its instruments exist exactly when metrics are enabled, its
    loggers exactly when logs are enabled; the exporter name of every signal
    that is initialized is one of the recognized names. *)
Lemma New_ok ext cfg o :
  New ext cfg = (Some o, None) →
  config o = cfg ∧ is_Some (tracer o) ∧ is_Some (tracerProvider o) ∧
  recognized_trace (ExporterType_ cfg) = true ∧
  (if EnableMetrics cfg
   then recognized_metrics (MetricsExporterType cfg) = true ∧
        is_Some (httpRequestDuration o) ∧ is_Some (httpRequestsTotal o) ∧
        is_Some (activeSpansGauge o) ∧ is_Some (businessOpsCounter o) ∧
        is_Some (meterProvider o)
   else httpRequestDuration o = None ∧ httpRequestsTotal o = None ∧
        activeSpansGauge o = None ∧ businessOpsCounter o = None ∧
        meterProvider o = None) ∧
  (if EnableLogs cfg
   then recognized_logs (LogsExporterType cfg) = true ∧
        is_Some (logger o) ∧ is_Some (otelLogger o) ∧ is_Some (loggerProvider o)
   else logger o = None ∧ otelLogger o = None ∧ loggerProvider o = None).
Proof.
  unfold New.
  destruct (newResource ext cfg) as [res [e|]]; [discriminate|].
  destruct (initTracing ext (kit_of_config cfg) res) as [o1 [e|]] eqn:Ht; [discriminate|].
  apply initTracing_ok in Ht as (Hrt & t & p & ->). simpl in Hrt.
  destruct (EnableMetrics cfg) eqn:Hm; destruct (EnableLogs cfg) eqn:Hl.
  - destruct (initMetrics _ _ _) as [o2 [e|]] eqn:Him; [discriminate|].
    apply initMetrics_ok in Him as (Hrm & d & c & g & b & m & mp & ->).
    destruct (initLogging _ _ _) as [o3 [e|]] eqn:Hil; [discriminate|].
    apply initLogging_ok in Hil as (Hrl & lp & ol & l & ->).
    intros [= <-]. simpl in *. repeat split; eauto.
  - destruct (initMetrics _ _ _) as [o2 [e|]] eqn:Him; [discriminate|].
    apply initMetrics_ok in Him as (Hrm & d & c & g & b & m & mp & ->).
    intros [= <-]. simpl in *. repeat split; eauto.
  - destruct (initLogging _ _ _) as [o3 [e|]] eqn:Hil; [discriminate|].
    apply initLogging_ok in Hil as (Hrl & lp & ol & l & ->).
    intros [= <-]. simpl in *. repeat split; eauto.
  - intros [= <-]. simpl in *. repeat split; eauto.
Qed.

(** C7.  [New] returns an error and no kit when the trace exporter name is
    not recognized, when metrics are enabled and the metrics exporter name is
    not recognized, and when logs are enabled and the logs exporter name is
    not recognized. *)
Theorem New_rejects_unknown_exporter ext cfg :
  recognized_trace (ExporterType_ cfg) = false ∨
  (EnableMetrics cfg = true ∧ recognized_metrics (MetricsExporterType cfg) = false) ∨
  (EnableLogs cfg = true ∧ recognized_logs (LogsExporterType cfg) = false) →
  ∃ e, New ext cfg = (None, Some e).
Proof.
  intros H.
  destruct (New_total ext cfg) as [[o Ho]|He]; [|exact He].
  exfalso. apply New_ok in Ho as (_ & _ & _ & Ht & Hm & Hl).
  destruct H as [H|[[Hen H]|[Hen H]]].
  - congruence.
  - rewrite Hen in Hm. destruct Hm as [Hm _]. congruence.
  - rewrite Hen in Hl. destruct Hl as [Hl _]. congruence.
Qed.

Lemma New_rejects_unknown_exporter_witness :
  (EnableMetrics (DefaultConfig (λ k, if String.eqb k "OTEL_METRICS_EXPORTER"
                                      then "statsd"%string else EmptyString)) = true ∧
   recognized_metrics (MetricsExporterType
     (DefaultConfig (λ k, if String.eqb k "OTEL_METRICS_EXPORTER"
                          then "statsd"%string else EmptyString))) = false) ∧
  ∃ e, New all_ok (DefaultConfig (λ k, if String.eqb k "OTEL_METRICS_EXPORTER"
                                       then "statsd"%string else EmptyString)) = (None, Some e).
Proof.
  split; [split; reflexivity|].
  apply (New_rejects_unknown_exporter all_ok).
  right. left. split; reflexivity.
Defined.

(** With metrics disabled the metrics exporter name is never looked at: the
    configuration of the test [CustomConfig] has the empty name, which is not recognized,
    for metrics and for logs, and [New] returns a kit for it. *)
Lemma New_accepts_unknown_exporter_of_disabled_signal :
  recognized_metrics (MetricsExporterType custom_config) = false ∧
  recognized_logs (LogsExporterType custom_config) = false ∧
  New all_ok custom_config = (Some custom_kit, None) ∧
  ¬ (∀ ext cfg,
       recognized_trace (ExporterType_ cfg) = false ∨
       recognized_metrics (MetricsExporterType cfg) = false ∨
       recognized_logs (LogsExporterType cfg) = false →
       ∃ e, New ext cfg = (None, Some e)).
Proof.
  repeat split.
  intros H. destruct (H all_ok custom_config) as [e He].
  - right. left. reflexivity.
  - discriminate He.
Qed.

(** ** Disabled signals *)

(** C9.  In a kit that [New] built with metrics disabled every instrument
    is nil, and [RecordMetric], [RecordHTTPMetrics], [IncrementActiveSpans]
    and [DecrementActiveSpans] return normally and leave the world as it
    was.  In a kit built with logs disabled both loggers are nil, and
    [LogInfo], [LogWarn], [LogError] and [LogDebug] return normally and leave
    the world as it was. *)
Theorem disabled_signal_operations_are_noops ext cfg o :
  New ext cfg = (Some o, None) →
  (EnableMetrics cfg = false →
   (httpRequestDuration o = None ∧ httpRequestsTotal o = None ∧
    activeSpansGauge o = None ∧ businessOpsCounter o = None) ∧
   ∀ ctx w,
     (∀ operation value attrs, RecordMetric o ctx operation value attrs w = (Normal tt, w)) ∧
     (∀ method code duration, RecordHTTPMetrics o ctx method code duration w = (Normal tt, w)) ∧
     IncrementActiveSpans o ctx w = (Normal tt, w) ∧
     DecrementActiveSpans o ctx w = (Normal tt, w)) ∧
  (EnableLogs cfg = false →
   (logger o = None ∧ otelLogger o = None) ∧
   ∀ ctx msg attrs w,
     LogInfo o ctx msg attrs w = (Normal tt, w) ∧
     LogWarn o ctx msg attrs w = (Normal tt, w) ∧
     LogDebug o ctx msg attrs w = (Normal tt, w) ∧
     (∀ err, LogError o ctx msg err attrs w = (Normal tt, w))).
Proof.
  intros Hnew. apply New_ok in Hnew as (_ & _ & _ & _ & Hm & Hl).
  split.
  - intros Hoff. rewrite Hoff in Hm. destruct Hm as (Hd & Ht & Hg & Hb & _).
    split; [done|]. intros ctx w.
    unfold RecordMetric, RecordHTTPMetrics, IncrementActiveSpans, DecrementActiveSpans.
    rewrite Hd, Ht, Hg, Hb. repeat split.
  - intros Hoff. rewrite Hoff in Hl. destruct Hl as (Hlg & Hol & _).
    split; [done|]. intros ctx msg attrs w.
    unfold LogInfo, LogWarn, LogDebug, LogError, emitOTelLog.
    rewrite Hlg, Hol. repeat split.
Qed.

Lemma disabled_signal_operations_are_noops_witness :
  New all_ok custom_config = (Some custom_kit, None) ∧
  EnableMetrics custom_config = false ∧ EnableLogs custom_config = false ∧
  RecordMetric custom_kit context_Background "order_processed" 1 [] empty_world
    = (Normal tt, empty_world) ∧
  LogError custom_kit context_Background "failed" None [] empty_world
    = (Normal tt, empty_world).
Proof.
  split; [reflexivity|]. split; [reflexivity|]. split; [reflexivity|].
  destruct (disabled_signal_operations_are_noops all_ok custom_config custom_kit eq_refl)
    as [Hm Hl].
  destruct (Hm eq_refl) as [_ Hm']. destruct (Hl eq_refl) as [_ Hl'].
  split.
  - apply (Hm' context_Background empty_world).
  - apply (Hl' context_Background "failed"%string [] empty_world).
Defined.

(** ** Configuration *)

Lemma getEnvOrDefault_spec env key d :
  getEnvOrDefault env key d = if String.eqb (env key) EmptyString then d else env key.
Proof. unfold getEnvOrDefault. by destruct (String.eqb (env key) EmptyString). Qed.

Lemma getEnvOrDefault_nonempty env key d :
  d ≠ EmptyString → getEnvOrDefault env key d ≠ EmptyString.
Proof.
  intros Hd. rewrite getEnvOrDefault_spec.
  destruct (String.eqb_spec (env key) EmptyString); done.
Qed.

(** Without environment variables [DefaultConfig] returns the documented
    defaults.  In every environment it is total: each field that has a
    variable takes the variable's value when that is set and not empty and
    its hard-coded default otherwise, the sample rate and the Prometheus port
    are always the hard-coded ones, and no field with a non-empty default
    comes out empty.  The kit [New] returns holds the configuration [New]
    was given. *)
Lemma DefaultConfig_resolution :
  DefaultConfig empty_env =
    {| ServiceName := "unknown-service"; ServiceVersion := "1.0.0";
       Environment := "development"; ExporterType_ := ExporterStdout;
       JaegerURL := "http://localhost:14268/api/traces";
       OTLPEndpoint := "http://localhost:4318";
       SampleRate := Float64 1 10; Debug := false;
       EnableMetrics := true; EnableLogs := true;
       MetricsExporterType := ExporterPrometheus; LogsExporterType := ExporterStdout;
       PrometheusPort := 9090; LogLevel := slog_LevelInfo; LogFilePath := EmptyString |} ∧
  (∀ env : Env,
     let c := DefaultConfig env in
     let var key d := if String.eqb (env key) EmptyString then d else env key in
     ServiceName c = var "OTEL_SERVICE_NAME" "unknown-service" ∧
     ServiceVersion c = var "OTEL_SERVICE_VERSION" "1.0.0" ∧
     Environment c = var "OTEL_ENVIRONMENT" "development" ∧
     ExporterType_ c = var "OTEL_EXPORTER_TYPE" "stdout" ∧
     JaegerURL c = var "JAEGER_URL" "http://localhost:14268/api/traces" ∧
     OTLPEndpoint c = var "OTEL_EXPORTER_OTLP_ENDPOINT" "http://localhost:4318" ∧
     Debug c = String.eqb (var "OTEL_DEBUG" "false") "true" ∧
     EnableMetrics c = String.eqb (var "OTEL_ENABLE_METRICS" "true") "true" ∧
     EnableLogs c = String.eqb (var "OTEL_ENABLE_LOGS" "true") "true" ∧
     MetricsExporterType c = var "OTEL_METRICS_EXPORTER" "prometheus" ∧
     LogsExporterType c = var "OTEL_LOGS_EXPORTER" "stdout" ∧
     LogFilePath c = env "OTEL_LOG_FILE_PATH" ∧
     LogLevel c = (let s := var "OTEL_LOG_LEVEL" "info" in
                   if String.eqb s "debug" then slog_LevelDebug
                   else if String.eqb s "warn" then slog_LevelWarn
                   else if String.eqb s "error" then slog_LevelError
                   else slog_LevelInfo) ∧
     SampleRate c = Float64 1 10 ∧ PrometheusPort c = 9090 ∧
     ServiceName c ≠ EmptyString ∧ ServiceVersion c ≠ EmptyString ∧
     Environment c ≠ EmptyString ∧ ExporterType_ c ≠ EmptyString ∧
     JaegerURL c ≠ EmptyString ∧ OTLPEndpoint c ≠ EmptyString ∧
     MetricsExporterType c ≠ EmptyString ∧ LogsExporterType c ≠ EmptyString) ∧
  (∀ ext cfg o, New ext cfg = (Some o, None) → config o = cfg).
Proof.
  split; [reflexivity|]. split.
  - intros env c var. subst c. unfold DefaultConfig. cbn [ServiceName ServiceVersion
      Environment ExporterType_ JaegerURL OTLPEndpoint Debug EnableMetrics EnableLogs
      MetricsExporterType LogsExporterType LogFilePath LogLevel SampleRate PrometheusPort].
    rewrite !getEnvOrDefault_spec. fold (var "OTEL_LOG_LEVEL"%string "info"%string).
    repeat match goal with |- _ ∧ _ => split end; try reflexivity;
      try (subst var; cbv beta;
           match goal with |- (if String.eqb ?a ?b then _ else _) ≠ _ =>
             destruct (String.eqb_spec a b); done end).
    subst var. cbv beta. by destruct (String.eqb_spec (env "OTEL_LOG_FILE_PATH") EmptyString) as [->|].
  - intros ext cfg o H. by apply New_ok in H as [H _].
Qed.

(** C6.  The defaults exist only in [DefaultConfig]: [New] does not
    complete the configuration it is given, although the comment of [Config]
    says that every field is optional and takes its default when it is not
    specified.  A configuration that leaves the trace exporter unset
    is refused by [New] in every case, with the error of the empty exporter
    name once the resource is built; the literal of the logs test program is
    such a configuration.  The literal of the test [CustomConfig] is
    accepted, and its unset fields stay at their zero values in the kit.
    The only default applied after [DefaultConfig] is the OTLP endpoint.
    [DefaultConfig] itself returns the documented defaults when no variable
    is set, but it never reads [OTEL_PROMETHEUS_PORT], which its comment
    lists as an override. *)
Theorem explicit_config_is_not_resolved :
  let unsupported :=
    wrapError "failed to initialize tracing: "
      (wrapError "failed to create trace exporter: "
         (errorString "unsupported trace exporter type: ")) in
  (∀ ext cfg, ExporterType_ cfg = EmptyString →
     fst (New ext cfg) = None ∧
     (resource_Merge ext cfg = None → snd (New ext cfg) = Some unsupported)) ∧
  (∀ ext cfg, EnableMetrics cfg = true → MetricsExporterType cfg = EmptyString →
     fst (New ext cfg) = None) ∧
  (∀ ext cfg, EnableLogs cfg = true → LogsExporterType cfg = EmptyString →
     fst (New ext cfg) = None) ∧
  New all_ok logs_test_config = (None, Some unsupported) ∧
  New all_ok partial_config = (None, Some unsupported) ∧
  New all_ok custom_config = (Some custom_kit, None) ∧
  MetricsExporterType (config custom_kit) = EmptyString ∧
  LogsExporterType (config custom_kit) = EmptyString ∧
  JaegerURL (config custom_kit) = EmptyString ∧
  OTLPEndpoint (config custom_kit) = EmptyString ∧
  EnableMetrics (config custom_kit) = false ∧
  EnableMetrics (DefaultConfig empty_env) = true ∧
  (∀ cfg, otlp_endpoint cfg =
          if String.eqb (OTLPEndpoint cfg) EmptyString
          then "localhost:4318"%string else OTLPEndpoint cfg) ∧
  DefaultConfig empty_env =
    {| ServiceName := "unknown-service"; ServiceVersion := "1.0.0";
       Environment := "development"; ExporterType_ := ExporterStdout;
       JaegerURL := "http://localhost:14268/api/traces";
       OTLPEndpoint := "http://localhost:4318";
       SampleRate := Float64 1 10; Debug := false;
       EnableMetrics := true; EnableLogs := true;
       MetricsExporterType := ExporterPrometheus; LogsExporterType := ExporterStdout;
       PrometheusPort := 9090; LogLevel := slog_LevelInfo; LogFilePath := EmptyString |} ∧
  (∀ env, PrometheusPort (DefaultConfig env) = 9090) ∧
  PrometheusPort (DefaultConfig prometheus_port_env) = 9090 ∧
  ¬ (∀ cfg, ∃ o, New all_ok cfg = (Some o, None) ∧
                 ExporterType_ (config o) ≠ EmptyString ∧
                 MetricsExporterType (config o) ≠ EmptyString ∧
                 LogsExporterType (config o) ≠ EmptyString).
Proof.
  cbn zeta.
  assert (Htrace : ∀ ext cfg, ExporterType_ cfg = EmptyString →
            createTraceExporter ext cfg =
              (None, Some (errorString "unsupported trace exporter type: "))).
  { intros ext cfg Ht. unfold createTraceExporter. by rewrite Ht. }
  split; [|split; [|split]].
  - intros ext cfg Ht. unfold New, newResource.
    destruct (resource_Merge ext cfg) as [e|]; [split; [reflexivity|discriminate]|].
    unfold initTracing. cbn [config kit_of_config]. rewrite (Htrace _ _ Ht).
    split; [reflexivity|]. intros _. reflexivity.
  - intros ext cfg Hen Hm.
    destruct (New_total ext cfg) as [[o Ho]|[e He]]; [|by rewrite He].
    apply New_ok in Ho as (_ & _ & _ & _ & Hmet & _). rewrite Hen in Hmet.
    destruct Hmet as [Hrec _]. by rewrite Hm in Hrec.
  - intros ext cfg Hen Hl.
    destruct (New_total ext cfg) as [[o Ho]|[e He]]; [|by rewrite He].
    apply New_ok in Ho as (_ & _ & _ & _ & _ & Hlog). rewrite Hen in Hlog.
    destruct Hlog as [Hrec _]. by rewrite Hl in Hrec.
  - repeat match goal with |- _ ∧ _ => split end; try reflexivity.
    intros H. destruct (H custom_config) as (o & Hnew & _ & Hm & _).
    injection Hnew as <-. by apply Hm.
Qed.

(** ** HTTP middleware *)

Lemma last_cons_default {A} (l : list A) : ∀ a d, List.last (a :: l) d = List.last l a.
Proof.
  induction l as [|b l IH]; intros a d; [done|].
  change (List.last (a :: b :: l) d) with (List.last (b :: l) d).
  by rewrite !IH.
Qed.

Lemma written_codes_cons c calls :
  written_codes (c :: calls) =
  match c with RWriteHeader code => [code] | RWrite _ => [] end ++ written_codes calls.
Proof. reflexivity. Qed.

Lemma response_fold calls : ∀ wr,
  statusCode (fold_left response_call calls wr) = List.last (written_codes calls) (statusCode wr) ∧
  ResponseWriter (fold_left response_call calls wr) = ResponseWriter wr ++ calls.
Proof.
  induction calls as [|c calls IH]; intros wr.
  - simpl. by rewrite app_nil_r.
  - cbn [fold_left]. destruct (IH (response_call wr c)) as [-> ->].
    rewrite written_codes_cons.
    destruct c as [code|body]; cbn [response_call WriteHeader Write statusCode ResponseWriter app];
      rewrite <- app_assoc; (split; [|done]).
    + by rewrite last_cons_default.
    + done.
Qed.

Lemma IncrementActiveSpans_eta o ctx w :
  IncrementActiveSpans o ctx w = (Normal tt, snd (IncrementActiveSpans o ctx w)).
Proof. unfold IncrementActiveSpans. by destruct (activeSpansGauge o). Qed.

Lemma DecrementActiveSpans_eta o ctx w :
  DecrementActiveSpans o ctx w = (Normal tt, snd (DecrementActiveSpans o ctx w)).
Proof. unfold DecrementActiveSpans. by destruct (activeSpansGauge o). Qed.

Lemma emitOTelLog_eta o ctx sev msg attrs w :
  emitOTelLog o ctx sev msg attrs w = (Normal tt, snd (emitOTelLog o ctx sev msg attrs w)).
Proof. unfold emitOTelLog. by destruct (otelLogger o). Qed.

Lemma Logger_LogAttrs_eta lg ctx level msg attrs w :
  Logger_LogAttrs (Some lg) ctx level msg attrs w =
  (Normal tt, snd (Logger_LogAttrs (Some lg) ctx level msg attrs w)).
Proof. reflexivity. Qed.

Lemma LogInfo_eta o ctx msg attrs w :
  LogInfo o ctx msg attrs w = (Normal tt, snd (LogInfo o ctx msg attrs w)).
Proof.
  unfold LogInfo, mbind, M_bind.
  destruct (logger o); simpl; by rewrite emitOTelLog_eta.
Qed.

Lemma LogError_eta o ctx msg err attrs w :
  LogError o ctx msg err attrs w = (Normal tt, snd (LogError o ctx msg err attrs w)).
Proof.
  unfold LogError, mbind, M_bind.
  destruct (logger o); simpl; by rewrite emitOTelLog_eta.
Qed.

Lemma RecordHTTPMetrics_eta o ctx m s d w :
  RecordHTTPMetrics o ctx m s d w = (Normal tt, snd (RecordHTTPMetrics o ctx m s d w)).
Proof.
  unfold RecordHTTPMetrics, mbind, M_bind.
  by destruct (httpRequestsTotal o), (httpRequestDuration o).
Qed.

Lemma HTTPMiddleware_normal o t lg next rw r w :
  tracer o = Some t → logger o = Some lg →
  h_result (middleware_run o next r w) = Normal tt →
  HTTPMiddleware o next rw r w =
    let ctx := middleware_context w in
    let sp := sdkSpan (length (spans w)) in
    let wh := middleware_handled o next r w in
    let sc := last_written (h_response (middleware_run o next r w)) in
    let d := clock wh - clock w in
    let w1 := span_call sp (OpSetAttributes
                [("http.status_code", VInt64 sc);
                 ("http.status_text", VString (http_StatusText sc));
                 ("http.duration_ms", VFloat64 (duration_ms d))]) wh in
    let w2 := if 400 <=? sc
              then span_call sp (OpSetStatus codes_Error (http_StatusText sc)) w1 else w1 in
    let w3 := snd (RecordHTTPMetrics o ctx (Method r) (strconv_Itoa sc) d w2) in
    let w4 := snd (Logger_LogAttrs (Some lg) ctx (completion_level sc) "HTTP request completed"
                     [("method", VString (Method r));
                      ("path", VString (URL_Path r));
                      ("status_code", VInt64 sc);
                      ("status_text", VString (http_StatusText sc));
                      ("duration_ms", VFloat64 (duration_ms d))] w3) in
    let w5 := if 400 <=? sc
              then snd (LogError o ctx "HTTP request failed" None
                          [("status_code", VInt64 sc); ("path", VString (URL_Path r))] w4)
              else w4 in
    let w6 := snd (DecrementActiveSpans o ctx w5) in
    (Normal (rw ++ h_response (middleware_run o next r w)), snd (span_End sp w6)).
Proof.
  intros Ht Hl Hres.
  unfold HTTPMiddleware, StartSpan. rewrite Ht, Hl.
  unfold mbind, M_bind, mret, M_ret, time_Now, tracer_Start, defer, ServeHTTP, time_Since.
  cbn beta iota zeta.
  fold (middleware_context w).
  rewrite IncrementActiveSpans_eta, LogInfo_eta.
  change (next (WithContext r (middleware_context w)) _) with (middleware_run o next r w).
  change (apply_effects (h_effects (middleware_run o next r w)) _)
    with (middleware_handled o next r w).
  rewrite Hres. cbn beta iota zeta.
  destruct (response_fold (h_response (middleware_run o next r w))
              {| ResponseWriter := rw; statusCode := 200 |}) as [Hsc Hrw].
  cbn [statusCode ResponseWriter] in Hsc, Hrw.
  fold (last_written (h_response (middleware_run o next r w))) in Hsc.
  rewrite Hsc, Hrw.
  unfold span_SetAttributes, span_SetStatus, span_do, completion_level.
  destruct (400 <=? last_written (h_response (middleware_run o next r w)));
    rewrite RecordHTTPMetrics_eta, Logger_LogAttrs_eta; cbn beta iota zeta;
    try rewrite LogError_eta; rewrite DecrementActiveSpans_eta; reflexivity.
Qed.

Lemma spans_IncrementActiveSpans o ctx w : spans (snd (IncrementActiveSpans o ctx w)) = spans w.
Proof. unfold IncrementActiveSpans. by destruct (activeSpansGauge o). Qed.

Lemma spans_DecrementActiveSpans o ctx w : spans (snd (DecrementActiveSpans o ctx w)) = spans w.
Proof. unfold DecrementActiveSpans. by destruct (activeSpansGauge o). Qed.

Lemma spans_RecordHTTPMetrics o ctx m s d w :
  spans (snd (RecordHTTPMetrics o ctx m s d w)) = spans w.
Proof.
  unfold RecordHTTPMetrics, mbind, M_bind.
  by destruct (httpRequestsTotal o), (httpRequestDuration o).
Qed.

Lemma spans_Logger_LogAttrs lg ctx level msg attrs w :
  spans (snd (Logger_LogAttrs (Some lg) ctx level msg attrs w)) = spans w.
Proof. simpl. by destruct (lg_level lg <=? level). Qed.

Lemma spans_emitOTelLog o ctx sev msg attrs w :
  spans (snd (emitOTelLog o ctx sev msg attrs w)) = spans w.
Proof. unfold emitOTelLog. by destruct (otelLogger o). Qed.

Lemma spans_LogInfo o ctx msg attrs w : spans (snd (LogInfo o ctx msg attrs w)) = spans w.
Proof.
  unfold LogInfo, mbind, M_bind.
  destruct (logger o) as [lg|]; simpl; [destruct (lg_level lg <=? slog_LevelInfo)|];
    by rewrite spans_emitOTelLog.
Qed.

Lemma spans_LogError o ctx msg err attrs w :
  spans (snd (LogError o ctx msg err attrs w)) = spans w.
Proof.
  unfold LogError, mbind, M_bind.
  destruct (logger o) as [lg|]; simpl; [destruct (lg_level lg <=? slog_LevelError)|];
    by rewrite spans_emitOTelLog.
Qed.

Lemma metric_points_span_call sp op w : metric_points (span_call sp op w) = metric_points w.
Proof. by destruct sp. Qed.

Lemma slog_records_span_call sp op w : slog_records (span_call sp op w) = slog_records w.
Proof. by destruct sp. Qed.

Lemma metric_points_Logger_LogAttrs lg ctx level msg attrs w :
  metric_points (snd (Logger_LogAttrs (Some lg) ctx level msg attrs w)) = metric_points w.
Proof. simpl. by destruct (lg_level lg <=? level). Qed.

Lemma metric_points_emitOTelLog o ctx sev msg attrs w :
  metric_points (snd (emitOTelLog o ctx sev msg attrs w)) = metric_points w.
Proof. unfold emitOTelLog. by destruct (otelLogger o). Qed.

Lemma slog_records_emitOTelLog o ctx sev msg attrs w :
  slog_records (snd (emitOTelLog o ctx sev msg attrs w)) = slog_records w.
Proof. unfold emitOTelLog. by destruct (otelLogger o). Qed.

Lemma metric_points_LogError o ctx msg err attrs w :
  metric_points (snd (LogError o ctx msg err attrs w)) = metric_points w.
Proof.
  unfold LogError, mbind, M_bind.
  destruct (logger o) as [lg|]; simpl; [destruct (lg_level lg <=? slog_LevelError)|];
    by rewrite metric_points_emitOTelLog.
Qed.

Lemma slog_records_LogError o lg ctx msg err attrs w :
  logger o = Some lg →
  slog_records (snd (LogError o ctx msg err attrs w)) =
  slog_records w ++
  (if lg_level lg <=? slog_LevelError
   then [{| sr_time := clock w; sr_level := slog_LevelError; sr_msg := msg;
            sr_attrs := attrs ++ [("error", VAny err)] |}]
   else []).
Proof.
  intros Hl. unfold LogError, mbind, M_bind. rewrite Hl. simpl.
  destruct (lg_level lg <=? slog_LevelError); rewrite slog_records_emitOTelLog; simpl;
    by rewrite ?app_nil_r.
Qed.

Lemma slog_records_Logger_LogAttrs lg ctx level msg attrs w :
  slog_records (snd (Logger_LogAttrs (Some lg) ctx level msg attrs w)) =
  slog_records w ++
  (if lg_level lg <=? level
   then [{| sr_time := clock w; sr_level := level; sr_msg := msg; sr_attrs := attrs |}]
   else []).
Proof. simpl. destruct (lg_level lg <=? level); simpl; by rewrite ?app_nil_r. Qed.

Lemma metric_points_RecordHTTPMetrics o ctx m s d w :
  metric_points (snd (RecordHTTPMetrics o ctx m s d w)) =
  metric_points w ++
  match httpRequestsTotal o with
  | Some c => [{| mp_instrument := inst_name c; mp_value := MInt64 1;
                  mp_attrs := [("method", VString m); ("status_code", VString s)] |}]
  | None => []
  end ++
  match httpRequestDuration o with
  | Some h => [{| mp_instrument := inst_name h; mp_value := MFloat64 (Seconds d);
                  mp_attrs := [("method", VString m); ("status_code", VString s)] |}]
  | None => []
  end.
Proof.
  unfold RecordHTTPMetrics, mbind, M_bind.
  destruct (httpRequestsTotal o), (httpRequestDuration o); simpl;
    by rewrite <- ?app_assoc, ?app_nil_r.
Qed.

Lemma slog_records_RecordHTTPMetrics o ctx m s d w :
  slog_records (snd (RecordHTTPMetrics o ctx m s d w)) = slog_records w.
Proof.
  unfold RecordHTTPMetrics, mbind, M_bind.
  by destruct (httpRequestsTotal o), (httpRequestDuration o).
Qed.

Lemma metric_points_DecrementActiveSpans o ctx w :
  metric_points (snd (DecrementActiveSpans o ctx w)) =
  metric_points w ++
  match activeSpansGauge o with
  | Some g => [{| mp_instrument := inst_name g; mp_value := MInt64 (-1); mp_attrs := [] |}]
  | None => []
  end.
Proof.
  unfold DecrementActiveSpans.
  destruct (activeSpansGauge o); simpl; by rewrite ?app_nil_r.
Qed.

Lemma slog_records_DecrementActiveSpans o ctx w :
  slog_records (snd (DecrementActiveSpans o ctx w)) = slog_records w.
Proof. unfold DecrementActiveSpans. by destruct (activeSpansGauge o). Qed.

Lemma clock_span_call sp op w : clock (span_call sp op w) = clock w.
Proof. by destruct sp. Qed.

Lemma clock_RecordHTTPMetrics o ctx m s d w :
  clock (snd (RecordHTTPMetrics o ctx m s d w)) = clock w.
Proof.
  unfold RecordHTTPMetrics, mbind, M_bind.
  by destruct (httpRequestsTotal o), (httpRequestDuration o).
Qed.

Lemma clock_Logger_LogAttrs lg ctx level msg attrs w :
  clock (snd (Logger_LogAttrs (Some lg) ctx level msg attrs w)) = clock w.
Proof. simpl. by destruct (lg_level lg <=? level). Qed.

(** The lemmas above as a rewriting base: which part of the world each
    operation of the facade leaves alone, and what it appends to the rest. *)
Create Rewrite HintDb frame.

#[export] Hint Rewrite
  spans_advance_clock spans_IncrementActiveSpans spans_DecrementActiveSpans
  spans_RecordHTTPMetrics spans_Logger_LogAttrs spans_emitOTelLog spans_LogInfo
  spans_LogError
  metric_points_span_call metric_points_Logger_LogAttrs metric_points_emitOTelLog
  metric_points_LogError metric_points_RecordHTTPMetrics metric_points_DecrementActiveSpans
  slog_records_span_call slog_records_emitOTelLog slog_records_Logger_LogAttrs
  slog_records_RecordHTTPMetrics slog_records_DecrementActiveSpans
  clock_span_call clock_RecordHTTPMetrics clock_Logger_LogAttrs : frame.

Lemma middleware_entry_lookup o r w :
  spans (middleware_entry o r w) !! length (spans w) =
  Some (new_span (req_Context r) (Method r +:+ " " +:+ URL_Path r) (request_span_attrs r) w).
Proof.
  unfold middleware_entry. cbn zeta.
  rewrite spans_LogInfo, spans_IncrementActiveSpans.
  apply lookup_start_span_new.
Qed.

(** C3.  The wrapper is there to capture the status code of the response,
    and every call of [WriteHeader] overwrites what it captured: for a
    request whose handler returns, the status code the middleware records is
    the last one the handler passed to [WriteHeader], not the first, and 200
    when it passed none.  That code is in the attributes set
    on the span of the request, in the attributes of both HTTP metrics, and
    in the completion log, while the response writer of the server has
    received every call of the handler in order, the first [WriteHeader]
    first. *)
Theorem HTTPMiddleware_records_last_status o t lg next rw r w :
  tracer o = Some t → logger o = Some lg →
  let run := middleware_run o next r w in
  h_result run = Normal tt →
  let sc := last_written (h_response run) in
  let wh := middleware_handled o next r w in
  let d := clock wh - clock w in
  let w' := snd (HTTPMiddleware o next rw r w) in
  fst (HTTPMiddleware o next rw r w) = Normal (rw ++ h_response run) ∧
  (written_codes (h_response run) = [] → sc = 200) ∧
  (∃ s, spans w' !! length (spans w) = Some s ∧
        span_name s = Method r +:+ " " +:+ URL_Path r ∧
        span_ops s =
          ops_on (length (spans w)) (h_effects run) ++
          [OpSetAttributes [("http.status_code", VInt64 sc);
                            ("http.status_text", VString (http_StatusText sc));
                            ("http.duration_ms", VFloat64 (duration_ms d))]] ++
          (if 400 <=? sc then [OpSetStatus codes_Error (http_StatusText sc)] else []) ++
          [OpEnd]) ∧
  metric_points w' =
    metric_points wh ++
    match httpRequestsTotal o with
    | Some c => [{| mp_instrument := inst_name c; mp_value := MInt64 1;
                    mp_attrs := [("method", VString (Method r));
                                 ("status_code", VString (strconv_Itoa sc))] |}]
    | None => []
    end ++
    match httpRequestDuration o with
    | Some h => [{| mp_instrument := inst_name h; mp_value := MFloat64 (Seconds d);
                    mp_attrs := [("method", VString (Method r));
                                 ("status_code", VString (strconv_Itoa sc))] |}]
    | None => []
    end ++
    match activeSpansGauge o with
    | Some g => [{| mp_instrument := inst_name g; mp_value := MInt64 (-1); mp_attrs := [] |}]
    | None => []
    end ∧
  slog_records w' =
    slog_records wh ++
    (if lg_level lg <=? completion_level sc
     then [{| sr_time := clock wh; sr_level := completion_level sc;
              sr_msg := "HTTP request completed";
              sr_attrs := [("method", VString (Method r));
                           ("path", VString (URL_Path r));
                           ("status_code", VInt64 sc);
                           ("status_text", VString (http_StatusText sc));
                           ("duration_ms", VFloat64 (duration_ms d))] |}]
     else []) ++
    (if (400 <=? sc) && (lg_level lg <=? slog_LevelError)
     then [{| sr_time := clock wh; sr_level := slog_LevelError;
              sr_msg := "HTTP request failed";
              sr_attrs := [("status_code", VInt64 sc); ("path", VString (URL_Path r));
                           ("error", VAny None)] |}]
     else []).
Proof.
  intros Ht Hl run Hres sc wh d w'.
  subst w'. rewrite (HTTPMiddleware_normal _ _ _ _ _ _ _ Ht Hl Hres).
  cbn zeta. fold run sc wh d. cbn [fst snd span_End].
  split; [reflexivity|]. split; [|split; [|split]].
  - intros Hnone. subst sc. unfold last_written. by rewrite Hnone.
  - pose proof (middleware_entry_lookup o r w) as Hentry.
    apply (lookup_apply_effects (h_effects run)) in Hentry.
    fold (middleware_handled o next r w) in Hentry. fold wh in Hentry.
    eapply lookup_span_call_eq in Hentry.
    rewrite spans_advance_clock.
    destruct (400 <=? sc).
    + eapply lookup_span_call_eq in Hentry.
      eexists. split.
      * apply lookup_span_call_eq. autorewrite with frame. exact Hentry.
      * split; [reflexivity|]. simpl. by rewrite <- ?app_assoc.
    + eexists. split.
      * apply lookup_span_call_eq. autorewrite with frame. exact Hentry.
      * split; [reflexivity|]. simpl. by rewrite <- ?app_assoc.
  - unfold advance_clock at 1. cbn [metric_points].
    destruct (400 <=? sc); autorewrite with frame; by rewrite <- ?app_assoc.
  - unfold advance_clock at 1. cbn [slog_records].
    destruct (400 <=? sc); cbn [andb]; autorewrite with frame.
    + rewrite (slog_records_LogError _ _ _ _ _ _ _ Hl). autorewrite with frame.
      by rewrite <- ?app_assoc.
    + by rewrite app_nil_r.
Qed.

Lemma HTTPMiddleware_records_last_status_witness :
  let run := middleware_run default_kit twice_handler sample_request empty_world in
  first_written (h_response run) = 404 ∧
  fst (HTTPMiddleware default_kit twice_handler [] sample_request empty_world) =
    Normal [RWriteHeader 404; RWriteHeader 500] ∧
  ∃ s, spans (snd (HTTPMiddleware default_kit twice_handler [] sample_request
                     empty_world)) !! 0%nat = Some s ∧
       span_ops s =
         [OpSetAttributes [("http.status_code", VInt64 500);
                           ("http.status_text", VString "Internal Server Error");
                           ("http.duration_ms", VFloat64 (duration_ms 0))];
          OpSetStatus codes_Error "Internal Server Error"; OpEnd].
Proof.
  cbn zeta. split; [reflexivity|].
  destruct (HTTPMiddleware_records_last_status default_kit
              {| tr_name := "unknown-service"; tr_version := "1.0.0" |}
              {| lg_level := 0; lg_path := EmptyString |}
              twice_handler [] sample_request empty_world
              eq_refl eq_refl eq_refl) as (Hr & _ & (s & Hs & _ & Hops) & _).
  split; [exact Hr|].
  exists s. split; [exact Hs|exact Hops].
Defined.

(** A handler that calls [WriteHeader(404)] and then [WriteHeader(500)]:
    the first status code it wrote is 404, and the middleware records 500 in
    the span, in the metrics and in the logs. *)
Lemma HTTPMiddleware_records_last_not_first :
  let run := middleware_run default_kit twice_handler sample_request empty_world in
  let w' := snd (HTTPMiddleware default_kit twice_handler [] sample_request empty_world) in
  first_written (h_response run) = 404 ∧
  map (λ s, get_attr "http.status_code" (span_attributes s)) (spans w')
    = [[VInt64 500]] ∧
  map (λ p, get_attr "status_code" (mp_attrs p)) (metric_points w')
    = [[]; [VString "500"]; [VString "500"]; []] ∧
  map (λ r, get_attr "status_code" (sr_attrs r)) (slog_records w')
    = [[]; [VInt64 500]; [VInt64 500]] ∧
  ¬ (∀ o next rw r w s,
       h_result (middleware_run o next r w) = Normal tt →
       spans (snd (HTTPMiddleware o next rw r w)) !! length (spans w) = Some s →
       get_attr "http.status_code" (span_attributes s)
         = [VInt64 (first_written (h_response (middleware_run o next r w)))]).
Proof.
  cbn zeta. split; [reflexivity|]. split; [reflexivity|].
  split; [reflexivity|]. split; [reflexivity|].
  intros H.
  specialize (H default_kit twice_handler [] sample_request empty_world _ eq_refl eq_refl).
  vm_compute in H. discriminate H.
Qed.

(** With a nil logger the middleware panics on every request, whatever the
    handler does. *)
Lemma HTTPMiddleware_nil_logger o next rw r w :
  logger o = None → is_Normal (fst (HTTPMiddleware o next rw r w)) = false.
Proof.
  intros Hl. unfold HTTPMiddleware, StartSpan. rewrite Hl.
  destruct (tracer o) as [t|]; [|reflexivity].
  unfold mbind, M_bind, mret, M_ret, time_Now, tracer_Start, defer, ServeHTTP, time_Since.
  cbn beta iota zeta.
  rewrite IncrementActiveSpans_eta, LogInfo_eta.
  destruct (h_result _); cbn beta iota zeta.
  - unfold span_SetAttributes, span_SetStatus, span_do.
    destruct (400 <=? _); rewrite RecordHTTPMetrics_eta; cbn beta iota zeta;
      unfold Logger_LogAttrs, panic; rewrite DecrementActiveSpans_eta; reflexivity.
  - rewrite DecrementActiveSpans_eta. reflexivity.
Qed.

(** X12.  A kit with a tracer and a logger serves every request whose
    handler returns, and the response writer it was given has then received
    exactly the calls the handler made on the wrapper, in order, after those
    it had received before: the middleware writes nothing of its own. *)
Lemma HTTPMiddleware_completes o next rw r w :
  is_Some (tracer o) → is_Some (logger o) →
  h_result (middleware_run o next r w) = Normal tt →
  fst (HTTPMiddleware o next rw r w) = Normal (rw ++ h_response (middleware_run o next r w)).
Proof.
  intros [t Ht] [lg Hl] Hres.
  by rewrite (HTTPMiddleware_normal _ _ _ _ _ _ _ Ht Hl Hres).
Qed.


(** * Further properties of the facade *)

(** ** What the calls of a callback add to the world *)

Lemma metric_points_apply_effects es : ∀ w,
  metric_points (apply_effects es w) = metric_points w ++ metric_effects es.
Proof.
  induction es as [|e es IH]; intros w; simpl; [by rewrite app_nil_r|].
  rewrite IH. destruct e as [c n a|sp op|d|p|r|r]; simpl; try done.
  - by destruct sp.
  - by rewrite <- app_assoc.
Qed.

Lemma slog_records_apply_effects es : ∀ w,
  slog_records (apply_effects es w) = slog_records w ++ slog_effects es.
Proof.
  induction es as [|e es IH]; intros w; simpl; [by rewrite app_nil_r|].
  rewrite IH. destruct e as [c n a|sp op|d|p|r|r]; simpl; try done.
  - by destruct sp.
  - by rewrite <- app_assoc.
Qed.

Lemma otel_records_apply_effects es : ∀ w,
  otel_records (apply_effects es w) = otel_records w ++ otel_effects es.
Proof.
  induction es as [|e es IH]; intros w; simpl; [by rewrite app_nil_r|].
  rewrite IH. destruct e as [c n a|sp op|d|p|r|r]; simpl; try done.
  - by destruct sp.
  - by rewrite <- app_assoc.
Qed.

Lemma lookup_start_span_old ctx name attrs w id s :
  spans w !! id = Some s → spans (start_span ctx name attrs w) !! id = Some s.
Proof. intros H. simpl. by apply lookup_app_l_Some. Qed.

(** ** TraceFunction: the other exits and the other spans *)

(** The world [TraceFunction] returns, whatever the callback did: the world
    the callback left, then the calls [closing] on the span, then [End]. *)
Lemma TraceFunction_world o t ctx name fn attrs w :
  tracer o = Some t →
  let run := traced_run fn ctx name attrs w in
  let sp := sdkSpan (length (spans w)) in
  let wb := apply_effects (run_effects run) (traced_entry ctx name attrs w) in
  let closing := match run_result run with
                 | Normal (Some e) => [OpRecordError (Some e);
                                       OpSetStatus codes_Error (Error e)]
                 | _ => []
                 end in
  fst (TraceFunction o ctx name fn attrs w) = run_result run ∧
  snd (TraceFunction o ctx name fn attrs w) =
    snd (span_End sp (fold_left (λ w op, span_call sp op w) closing wb)).
Proof.
  intros Ht run sp wb closing.
  rewrite (TraceFunction_unfold _ _ _ _ _ _ _ Ht). cbn zeta.
  fold run. subst closing. destruct (run_result run) as [[e|]|p]; by split.
Qed.

(** X1.  When the callback panics, [TraceFunction] panics with the same
    reason after ending the span: the deferred [End] is the last call the
    span receives, and no error is recorded and no status set on it. *)
Theorem TraceFunction_panic_ends_span o t ctx name fn attrs w p :
  tracer o = Some t →
  run_result (traced_run fn ctx name attrs w) = Panicked p →
  fst (TraceFunction o ctx name fn attrs w) = Panicked p ∧
  ∃ s, spans (snd (TraceFunction o ctx name fn attrs w)) !! length (spans w) = Some s ∧
       span_name s = name ∧
       span_ops s = OpSetAttributes attrs ::
                    ops_on (length (spans w)) (run_effects (traced_run fn ctx name attrs w)) ++
                    [OpEnd] ∧
       span_ended s = true.
Proof.
  intros Ht Hp.
  destruct (TraceFunction_world o t ctx name fn attrs w Ht) as [Hr Hw].
  rewrite Hr, Hw, Hp. split; [done|]. cbn [fold_left snd span_End].
  rewrite spans_advance_clock.
  pose proof (traced_entry_lookup ctx name attrs w) as Hentry.
  apply (lookup_apply_effects (run_effects (traced_run fn ctx name attrs w))) in Hentry.
  apply (lookup_span_call_eq _ OpEnd) in Hentry.
  eexists. split; [exact Hentry|]. split; [done|].
  assert (Hops : ∀ a b (s0 : Span), span_ops s0 = [] →
            span_ops (push_op OpEnd (push_ops b (push_ops [a] s0))) = a :: b ++ [OpEnd]).
  { intros a b s0 H0. simpl. rewrite H0. simpl. done. }
  unfold span_ended. rewrite Hops by done.
  split; [done|]. by rewrite app_comm_cons, existsb_is_OpEnd_snoc.
Qed.

Lemma TraceFunction_panic_ends_span_witness :
  fst (TraceFunction default_kit parent_context "risky" panicking_body [] parent_world)
    = Panicked "index out of range" ∧
  ∃ s, spans (snd (TraceFunction default_kit parent_context "risky" panicking_body []
                     parent_world)) !! 1%nat = Some s ∧
       span_ops s = [OpSetAttributes []; OpAddEvent "about_to_fail" []; OpEnd].
Proof.
  destruct (TraceFunction_panic_ends_span default_kit
              {| tr_name := "unknown-service"; tr_version := "1.0.0" |}
              parent_context "risky" panicking_body [] parent_world
              "index out of range" eq_refl eq_refl) as (Hr & s & Hs & _ & Hops & _).
  split; [exact Hr|]. exists s. split; [exact Hs|exact Hops].
Defined.

(** X2.  [TraceFunction] starts exactly one span of its own, a child of the
    span of the caller's context, named as asked and started without
    attributes; every span that existed before receives only the calls the
    callback makes on it. *)
Theorem TraceFunction_touches_only_its_span o t ctx name fn attrs w :
  tracer o = Some t →
  let run := traced_run fn ctx name attrs w in
  let w' := snd (TraceFunction o ctx name fn attrs w) in
  length (spans w') = S (length (spans w) + starts (run_effects run)) ∧
  (∀ id s, spans w !! id = Some s →
           spans w' !! id = Some (push_ops (ops_on id (run_effects run)) s)) ∧
  (∃ s, spans w' !! length (spans w) = Some s ∧ span_name s = name ∧
        span_parent s = ctx_span ctx ∧ span_start_attrs s = []).
Proof.
  intros Ht run w'.
  destruct (TraceFunction_world o t ctx name fn attrs w Ht) as [_ Hw].
  subst w'. rewrite Hw. fold run. cbn [snd span_End]. rewrite spans_advance_clock.
  set (wb := apply_effects (run_effects run) (traced_entry ctx name attrs w)).
  assert (Hfold : ∀ ops w0 id,
            spans (fold_left (λ w1 op, span_call (sdkSpan (length (spans w))) op w1) ops w0)
              !! id =
            if decide (id = length (spans w)) then
              push_ops ops <$> spans w0 !! id
            else spans w0 !! id).
  { induction ops as [|op ops IH]; intros w0 id; simpl.
    - case_decide; [|done]. destruct (spans w0 !! id); simpl; [|done].
      by rewrite push_ops_nil.
    - rewrite IH. cbn [span_call set_spans spans]. case_decide as Hid.
      + subst id. rewrite list_lookup_alter_eq.
        destruct (spans w0 !! length (spans w)); simpl; [|done].
        f_equal. unfold push_ops, push_op. simpl. by rewrite <- app_assoc.
      + rewrite list_lookup_alter_ne by done. done. }
  split; [|split].
  - assert (Hlen : ∀ ops w0,
              length (spans (fold_left (λ w1 op, span_call (sdkSpan (length (spans w))) op w1)
                               ops w0)) = length (spans w0)).
    { induction ops as [|op ops IH]; intros w0; simpl; [done|].
      rewrite IH. simpl. by rewrite length_alter. }
    simpl. rewrite length_alter, Hlen. subst wb.
    rewrite spans_apply_effects_starts. unfold traced_entry. simpl.
    rewrite length_alter, length_app. simpl. lia.
  - intros id s Hs.
    assert (Hlt : (id < length (spans w))%nat) by (by eapply lookup_lt_Some).
    rewrite lookup_span_call_ne by (intros [= ?]; lia).
    rewrite Hfold. case_decide; [lia|]. subst wb.
    apply lookup_apply_effects. unfold traced_entry.
    rewrite lookup_span_call_ne by (intros [= ?]; lia).
    by apply lookup_start_span_old.
  - pose proof (traced_entry_lookup ctx name attrs w) as Hentry.
    apply (lookup_apply_effects (run_effects run)) in Hentry. fold wb in Hentry.
    erewrite lookup_span_call_eq.
    2:{ rewrite Hfold. rewrite decide_True by done. rewrite Hentry. reflexivity. }
    eexists. split; [reflexivity|]. done.
Qed.

Lemma TraceFunction_touches_only_its_span_witness :
  length (spans (snd (TraceFunction default_kit parent_context "op" failing_body []
                        parent_world))) = 2%nat ∧
  ∃ s, spans (snd (TraceFunction default_kit parent_context "op" failing_body []
                     parent_world)) !! 1%nat = Some s ∧
       span_name s = "op"%string ∧ span_parent s = Some 0%nat ∧ span_start_attrs s = [].
Proof.
  destruct (TraceFunction_touches_only_its_span default_kit
              {| tr_name := "unknown-service"; tr_version := "1.0.0" |}
              parent_context "op" failing_body [] parent_world eq_refl)
    as (Hlen & _ & Hs).
  split; [exact Hlen|exact Hs].
Defined.

(** ** What [TraceFunction] leaves alone *)

Lemma fold_span_call_frame sp ops : ∀ w,
  metric_points (fold_left (λ w1 op, span_call sp op w1) ops w) = metric_points w ∧
  slog_records (fold_left (λ w1 op, span_call sp op w1) ops w) = slog_records w ∧
  otel_records (fold_left (λ w1 op, span_call sp op w1) ops w) = otel_records w ∧
  clock (fold_left (λ w1 op, span_call sp op w1) ops w) = clock w ∧
  sdk_latency (fold_left (λ w1 op, span_call sp op w1) ops w) = sdk_latency w.
Proof.
  induction ops as [|op ops IH]; intros w; simpl; [done|].
  destruct (IH (span_call sp op w)) as (-> & -> & -> & -> & ->).
  by destruct sp.
Qed.

Lemma clock_fold_span_call sp ops w :
  clock (fold_left (λ w1 op, span_call sp op w1) ops w) = clock w.
Proof. by destruct (fold_span_call_frame sp ops w) as (_ & _ & _ & -> & _). Qed.

Lemma lookup_fold_span_call id ops : ∀ w s,
  spans w !! id = Some s →
  spans (fold_left (λ w1 op, span_call (sdkSpan id) op w1) ops w) !! id
    = Some (push_ops ops s).
Proof.
  induction ops as [|op ops IH]; intros w s Hs; simpl.
  - by rewrite push_ops_nil.
  - erewrite IH; [|by apply lookup_span_call_eq].
    f_equal. unfold push_ops, push_op. simpl. by rewrite <- app_assoc.
Qed.

Lemma metric_points_TraceFunction o t ctx name fn attrs w :
  tracer o = Some t →
  metric_points (snd (TraceFunction o ctx name fn attrs w)) =
  metric_points w ++ metric_effects (run_effects (traced_run fn ctx name attrs w)).
Proof.
  intros Ht. destruct (TraceFunction_world o t ctx name fn attrs w Ht) as [_ ->].
  cbn [snd span_End]. unfold advance_clock. cbn [metric_points].
  rewrite metric_points_span_call.
  destruct (fold_span_call_frame (sdkSpan (length (spans w)))
              (match run_result (traced_run fn ctx name attrs w) with
               | Normal (Some e) => [OpRecordError (Some e); OpSetStatus codes_Error (Error e)]
               | _ => []
               end)
              (apply_effects (run_effects (traced_run fn ctx name attrs w))
                 (traced_entry ctx name attrs w))) as (-> & _).
  by rewrite metric_points_apply_effects.
Qed.

Lemma slog_records_TraceFunction o t ctx name fn attrs w :
  tracer o = Some t →
  slog_records (snd (TraceFunction o ctx name fn attrs w)) =
  slog_records w ++ slog_effects (run_effects (traced_run fn ctx name attrs w)).
Proof.
  intros Ht. destruct (TraceFunction_world o t ctx name fn attrs w Ht) as [_ ->].
  cbn [snd span_End]. unfold advance_clock. cbn [slog_records].
  rewrite slog_records_span_call.
  destruct (fold_span_call_frame (sdkSpan (length (spans w)))
              (match run_result (traced_run fn ctx name attrs w) with
               | Normal (Some e) => [OpRecordError (Some e); OpSetStatus codes_Error (Error e)]
               | _ => []
               end)
              (apply_effects (run_effects (traced_run fn ctx name attrs w))
                 (traced_entry ctx name attrs w))) as (_ & -> & _).
  by rewrite slog_records_apply_effects.
Qed.

Lemma otel_records_TraceFunction o t ctx name fn attrs w :
  tracer o = Some t →
  otel_records (snd (TraceFunction o ctx name fn attrs w)) =
  otel_records w ++ otel_effects (run_effects (traced_run fn ctx name attrs w)).
Proof.
  intros Ht. destruct (TraceFunction_world o t ctx name fn attrs w Ht) as [_ ->].
  cbn [snd span_End]. unfold advance_clock. cbn [otel_records].
  assert (Hsc : ∀ sp op w0, otel_records (span_call sp op w0) = otel_records w0)
    by (by intros [|]).
  rewrite Hsc.
  destruct (fold_span_call_frame (sdkSpan (length (spans w)))
              (match run_result (traced_run fn ctx name attrs w) with
               | Normal (Some e) => [OpRecordError (Some e); OpSetStatus codes_Error (Error e)]
               | _ => []
               end)
              (apply_effects (run_effects (traced_run fn ctx name attrs w))
                 (traced_entry ctx name attrs w))) as (_ & _ & -> & _).
  by rewrite otel_records_apply_effects.
Qed.

(** The span [TraceFunction] started: its name, and the attributes as the
    first call it received. *)
Lemma TraceFunction_first_call o t ctx name fn attrs w :
  tracer o = Some t →
  ∃ s rest, spans (snd (TraceFunction o ctx name fn attrs w)) !! length (spans w) = Some s ∧
            span_name s = name ∧ span_ops s = OpSetAttributes attrs :: rest.
Proof.
  intros Ht. destruct (TraceFunction_world o t ctx name fn attrs w Ht) as [_ ->].
  cbn [snd span_End]. rewrite spans_advance_clock.
  pose proof (traced_entry_lookup ctx name attrs w) as Hentry.
  apply (lookup_apply_effects (run_effects (traced_run fn ctx name attrs w))) in Hentry.
  eapply lookup_fold_span_call in Hentry.
  eapply (lookup_span_call_eq _ OpEnd) in Hentry.
  eexists _, _. split; [exact Hentry|]. split; [done|]. simpl. reflexivity.
Qed.

(** X3.  [TraceFunction] reports through the span only: it records no metric
    and writes no log record, so the metric points and log records of the
    world afterwards are those before followed by the callback's own. *)
Theorem TraceFunction_records_no_metric_or_log o t ctx name fn attrs w :
  tracer o = Some t →
  let es := run_effects (traced_run fn ctx name attrs w) in
  let w' := snd (TraceFunction o ctx name fn attrs w) in
  metric_points w' = metric_points w ++ metric_effects es ∧
  slog_records w' = slog_records w ++ slog_effects es ∧
  otel_records w' = otel_records w ++ otel_effects es ∧
  shutdown_log w' = shutdown_log w.
Proof.
  intros Ht es w'. subst es w'.
  split; [by eapply metric_points_TraceFunction|].
  split; [by eapply slog_records_TraceFunction|].
  split; [by eapply otel_records_TraceFunction|].
  destruct (TraceFunction_world o t ctx name fn attrs w Ht) as [_ ->].
  cbn [snd span_End]. unfold advance_clock. cbn [shutdown_log].
  assert (Hsc : ∀ sp op w0, shutdown_log (span_call sp op w0) = shutdown_log w0)
    by (by intros [|]).
  assert (Hfold : ∀ sp ops w0,
            shutdown_log (fold_left (λ w1 op, span_call sp op w1) ops w0) = shutdown_log w0).
  { intros sp ops. induction ops as [|op ops IH]; intros w0; simpl; [done|].
    by rewrite IH, Hsc. }
  rewrite Hsc, Hfold.
  assert (Heff : ∀ l w0, shutdown_log (apply_effects l w0) = shutdown_log w0).
  { induction l as [|e l IH]; intros w0; simpl; [done|]. rewrite IH.
    destruct e as [c n a|sp op|d|p|r|r]; simpl; try done. }
  rewrite Heff. unfold traced_entry. by rewrite Hsc.
Qed.

Lemma TraceFunction_records_no_metric_or_log_witness :
  metric_points (snd (TraceFunction default_kit context_Background "op" failing_body []
                        empty_world)) = [] ∧
  slog_records (snd (TraceFunction default_kit context_Background "op" failing_body []
                       empty_world)) = [].
Proof.
  destruct (TraceFunction_records_no_metric_or_log default_kit
              {| tr_name := "unknown-service"; tr_version := "1.0.0" |}
              context_Background "op" failing_body [] empty_world eq_refl)
    as (Hm & Hs & _).
  split; [exact Hm|exact Hs].
Defined.

(** ** The leveled logging helpers *)

Lemma emitOTelLog_line o ctx sev msg attrs w :
  emitOTelLog o ctx sev msg attrs w =
  (Normal tt,
   {| spans := spans w; metric_points := metric_points w; slog_records := slog_records w;
      otel_records := otel_records w ++ otel_line o ctx sev msg attrs w;
      shutdown_log := shutdown_log w; clock := clock w; sdk_latency := sdk_latency w |}).
Proof.
  unfold emitOTelLog, otel_line, correlation, SpanFromContext.
  destruct (otelLogger o); [|destruct w; simpl; by rewrite app_nil_r].
  destruct (ctx_span ctx) as [id|]; [destruct (spans w !! id)|];
    simpl; by rewrite ?app_nil_r.
Qed.

(** Every leveled helper is the local line followed by the pipeline line. *)
Lemma leveled_helper_world o ctx level sev msg attrs w :
  (match logger o with
   | Some _ => Logger_LogAttrs (logger o) ctx level msg attrs
   | None => mret tt
   end ≫= λ _, emitOTelLog o ctx sev msg attrs) w =
  (Normal tt,
   {| spans := spans w; metric_points := metric_points w;
      slog_records := slog_records w ++ slog_line o level msg attrs w;
      otel_records := otel_records w ++ otel_line o ctx sev msg attrs w;
      shutdown_log := shutdown_log w; clock := clock w; sdk_latency := sdk_latency w |}).
Proof.
  unfold mbind, M_bind, slog_line.
  destruct (logger o) as [lg|]; simpl.
  - destruct (lg_level lg <=? level); rewrite emitOTelLog_line; simpl;
      rewrite ?app_nil_r; [done|]. by destruct w.
  - rewrite emitOTelLog_line. simpl. by rewrite app_nil_r.
Qed.

Lemma LogInfo_world o ctx msg attrs w :
  LogInfo o ctx msg attrs w =
  (Normal tt,
   {| spans := spans w; metric_points := metric_points w;
      slog_records := slog_records w ++ slog_line o slog_LevelInfo msg attrs w;
      otel_records := otel_records w ++ otel_line o ctx SeverityInfo msg attrs w;
      shutdown_log := shutdown_log w; clock := clock w; sdk_latency := sdk_latency w |}).
Proof. apply leveled_helper_world. Qed.

Lemma LogWarn_world o ctx msg attrs w :
  LogWarn o ctx msg attrs w =
  (Normal tt,
   {| spans := spans w; metric_points := metric_points w;
      slog_records := slog_records w ++ slog_line o slog_LevelWarn msg attrs w;
      otel_records := otel_records w ++ otel_line o ctx SeverityWarn msg attrs w;
      shutdown_log := shutdown_log w; clock := clock w; sdk_latency := sdk_latency w |}).
Proof. apply leveled_helper_world. Qed.

Lemma LogDebug_world o ctx msg attrs w :
  LogDebug o ctx msg attrs w =
  (Normal tt,
   {| spans := spans w; metric_points := metric_points w;
      slog_records := slog_records w ++ slog_line o slog_LevelDebug msg attrs w;
      otel_records := otel_records w ++ otel_line o ctx SeverityDebug msg attrs w;
      shutdown_log := shutdown_log w; clock := clock w; sdk_latency := sdk_latency w |}).
Proof. apply leveled_helper_world. Qed.

Lemma LogError_world o ctx msg err attrs w :
  LogError o ctx msg err attrs w =
  (Normal tt,
   {| spans := spans w; metric_points := metric_points w;
      slog_records := slog_records w ++
        slog_line o slog_LevelError msg (attrs ++ [("error", VAny err)]) w;
      otel_records := otel_records w ++
        otel_line o ctx SeverityError msg (attrs ++ [("error", VAny err)]) w;
      shutdown_log := shutdown_log w; clock := clock w; sdk_latency := sdk_latency w |}).
Proof. apply leveled_helper_world. Qed.

(** X4.  The leveled helpers return normally for every kit, context and
    input and touch neither spans nor metrics.  Each appends at most one
    record to the local sink (a logger exists and its level admits the
    record) and at most one to the log pipeline (an OpenTelemetry logger
    exists); the pipeline record carries the message, the converted
    attributes and, when the span of the context exists, its trace and span
    identifiers.  [LogError] puts the error attribute last, also for a nil
    error. *)
Theorem leveled_helpers_sinks o ctx msg attrs w :
  let sinks level sev attrs0 (r : Result unit * World) :=
    fst r = Normal tt ∧ spans (snd r) = spans w ∧ metric_points (snd r) = metric_points w ∧
    slog_records (snd r) = slog_records w ++ slog_line o level msg attrs0 w ∧
    otel_records (snd r) = otel_records w ++ otel_line o ctx sev msg attrs0 w in
  sinks slog_LevelDebug SeverityDebug attrs (LogDebug o ctx msg attrs w) ∧
  sinks slog_LevelInfo SeverityInfo attrs (LogInfo o ctx msg attrs w) ∧
  sinks slog_LevelWarn SeverityWarn attrs (LogWarn o ctx msg attrs w) ∧
  ∀ err, sinks slog_LevelError SeverityError (attrs ++ [("error", VAny err)])
           (LogError o ctx msg err attrs w).
Proof.
  cbn zeta. rewrite LogDebug_world, LogInfo_world, LogWarn_world.
  repeat match goal with |- _ ∧ _ => split end; try done.
  intros err. rewrite LogError_world. done.
Qed.

(** X5.  The configured log level filters the local sink only.  With a
    logger above debug level and an OpenTelemetry logger, [LogDebug] writes
    nothing locally and still emits one debug record to the log pipeline. *)
Theorem otel_emission_ignores_log_level o lg ol ctx msg attrs w :
  logger o = Some lg → otelLogger o = Some ol → slog_LevelDebug < lg_level lg →
  slog_records (snd (LogDebug o ctx msg attrs w)) = slog_records w ∧
  otel_records (snd (LogDebug o ctx msg attrs w)) =
    otel_records w ++
    [{| or_time := clock w; or_severity := SeverityDebug; or_body := msg;
        or_attrs := map convertSlogAttr attrs ++ correlation ctx w |}].
Proof.
  intros Hl Hol Hlevel. rewrite LogDebug_world. cbn [snd slog_records otel_records].
  unfold slog_line, otel_line. rewrite Hl, Hol.
  destruct (Z.leb_spec (lg_level lg) slog_LevelDebug); [lia|].
  by rewrite app_nil_r.
Qed.

Lemma otel_emission_ignores_log_level_witness :
  slog_records (snd (LogDebug default_kit parent_context "cache miss"
                       [("key", VString "u:7")] parent_world)) = [] ∧
  otel_records (snd (LogDebug default_kit parent_context "cache miss"
                       [("key", VString "u:7")] parent_world)) =
    [{| or_time := 0; or_severity := SeverityDebug; or_body := "cache miss";
        or_attrs := [("key", VString "u:7"); ("trace_id", VString "0");
                     ("span_id", VString "0")] |}].
Proof.
  apply (otel_emission_ignores_log_level default_kit
           {| lg_level := 0; lg_path := EmptyString |}
           {| ol_name := "otelkit"; ol_version := "1.0.0" |}
           parent_context "cache miss" [("key", VString "u:7")] parent_world
           eq_refl eq_refl).
  reflexivity.
Defined.

(** ** Attribute sets *)

Lemma compare_refl a : String.compare a a = Eq.
Proof.
  pose proof (String.compare_antisym a a) as H.
  destruct (String.compare a a); done.
Qed.

Lemma compare_Lt_trans a b c :
  String.compare a b = Lt → String.compare b c = Lt → String.compare a c = Lt.
Proof.
  intros H1 H2.
  exact (@transitivity _ _ (@StrictOrder_Transitive _ _ String_as_OT.lt_strorder) a b c H1 H2).
Qed.

Lemma compare_Lt_ne a b : String.compare a b = Lt → a ≠ b.
Proof. intros H ->. by rewrite compare_refl in H. Qed.

Lemma compare_Gt_Lt a b : String.compare a b = Gt → String.compare b a = Lt.
Proof. intros H. rewrite String.compare_antisym, H. done. Qed.

Lemma keys_ascending_cons a s :
  keys_ascending (a :: s) = true →
  keys_ascending s = true ∧ ∀ b, In b s → String.compare (fst a) (fst b) = Lt.
Proof.
  revert a. induction s as [|b s IH]; intros a H.
  - split; [done|]. intros b [].
  - cbn [keys_ascending] in H.
    destruct (String.compare (fst a) (fst b)) eqn:Hab; try discriminate.
    fold (keys_ascending (b :: s)) in H.
    split; [exact H|].
    destruct (IH b H) as [_ Hb].
    intros c [<-|Hc]; [done|].
    eapply compare_Lt_trans; [exact Hab|by apply Hb].
Qed.

Lemma get_attr_absent k s :
  (∀ b, In b s → fst b ≠ k) → get_attr k s = [].
Proof.
  induction s as [|b s IH]; intros H; [done|].
  unfold get_attr. cbn [List.filter].
  destruct (String.eqb_spec (fst b) k) as [Heq|_].
  - destruct (H b); [by left|done].
  - apply IH. intros c Hc. apply H. by right.
Qed.

Lemma get_attr_cons k a s :
  get_attr k (a :: s) = (if String.eqb (fst a) k then [snd a] else []) ++ get_attr k s.
Proof. unfold get_attr. cbn [List.filter]. by destruct (String.eqb (fst a) k). Qed.

Lemma get_attr_app k a b : get_attr k (a ++ b) = get_attr k a ++ get_attr k b.
Proof. unfold get_attr. by rewrite List.filter_app, map_app. Qed.

Lemma get_attr_set_insert k kv s :
  keys_ascending s = true →
  get_attr k (set_insert kv s) = if String.eqb (fst kv) k then [snd kv] else get_attr k s.
Proof.
  induction s as [|b s IH]; intros Hs.
  - cbn [set_insert]. rewrite get_attr_cons. by destruct (String.eqb (fst kv) k).
  - destruct (keys_ascending_cons _ _ Hs) as [Hs' Hb].
    cbn [set_insert]. destruct (String.compare (fst kv) (fst b)) eqn:Hc.
    + apply String.compare_eq_iff in Hc.
      rewrite !get_attr_cons. rewrite <- Hc.
      destruct (String.eqb_spec (fst kv) k) as [Hk|Hk]; [|done].
      rewrite get_attr_absent; [done|].
      intros c Hin. apply not_eq_sym, compare_Lt_ne. rewrite <- Hk, Hc. by apply Hb.
    + rewrite get_attr_cons.
      destruct (String.eqb_spec (fst kv) k) as [Hk|Hk]; [|done].
      rewrite get_attr_absent; [done|].
      intros c [<-|Hin]; apply not_eq_sym, compare_Lt_ne; rewrite <- Hk; [done|].
      eapply compare_Lt_trans; [exact Hc|by apply Hb].
    + rewrite !get_attr_cons, (IH Hs').
      destruct (String.eqb_spec (fst kv) k) as [Hk|Hk]; [|done].
      destruct (String.eqb_spec (fst b) k) as [Hk'|Hk']; [|done].
      rewrite Hk, <- Hk', compare_refl in Hc. discriminate.
Qed.

Lemma keys_ascending_set_insert kv s :
  keys_ascending s = true → keys_ascending (set_insert kv s) = true.
Proof.
  induction s as [|b s IH]; intros Hs; [done|].
  cbn [set_insert]. destruct (String.compare (fst kv) (fst b)) eqn:Hc.
  - apply String.compare_eq_iff in Hc.
    destruct s as [|c s]; [done|].
    cbn [keys_ascending] in Hs |- *. rewrite Hc. exact Hs.
  - cbn [keys_ascending]. rewrite Hc. exact Hs.
  - destruct (keys_ascending_cons _ _ Hs) as [Hs' Hb].
    specialize (IH Hs').
    destruct s as [|c s].
    + cbn [set_insert keys_ascending]. by rewrite (compare_Gt_Lt _ _ Hc).
    + cbn [set_insert] in IH |- *.
      destruct (String.compare (fst kv) (fst c)) eqn:Hkc.
      * cbn [keys_ascending] in IH |- *. by rewrite (compare_Gt_Lt _ _ Hc).
      * cbn [keys_ascending] in IH |- *. by rewrite (compare_Gt_Lt _ _ Hc).
      * cbn [keys_ascending] in IH |- *. rewrite (Hb c); [exact IH|by left].
Qed.

Lemma fold_set_insert l : ∀ s,
  keys_ascending s = true →
  let set := fold_left (λ s kv, set_insert kv s) l s in
  keys_ascending set = true ∧
  ∀ k, get_attr k set = match last (get_attr k l) with
                        | Some v => [v]
                        | None => get_attr k s
                        end.
Proof.
  induction l as [|a l IH]; intros s Hs; cbn zeta.
  - split; [done|]. intros k. done.
  - cbn [fold_left].
    destruct (IH (set_insert a s) (keys_ascending_set_insert a s Hs)) as [Hasc Hget].
    split; [exact Hasc|]. intros k. rewrite Hget, get_attr_cons, (get_attr_set_insert _ _ _ Hs).
    destruct (String.eqb (fst a) k); [|done].
    cbn [app]. rewrite last_cons. by destruct (last (get_attr k l)).
Qed.

Lemma attribute_NewSet_spec l :
  keys_ascending (attribute_NewSet l) = true ∧
  ∀ k, get_attr k (attribute_NewSet l) = option_list (last (get_attr k l)).
Proof.
  destruct (fold_set_insert l [] eq_refl) as [Hasc Hget]. split; [exact Hasc|].
  intros k. unfold attribute_NewSet. rewrite Hget. by destruct (last (get_attr k l)).
Qed.

(** The sets of the helpers whose keys are fixed. *)
Lemma http_attribute_set method statusCode :
  metric_WithAttributes [("method", VString method); ("status_code", VString statusCode)] =
  [("method", VString method); ("status_code", VString statusCode)].
Proof. reflexivity. Qed.

Lemma database_attribute_set operation table success :
  metric_WithAttributes
    [("db.operation", VString operation); ("db.table", VString table);
     ("success", VBool success); ("operation_type", VString "database_operation")] =
  [("db.operation", VString operation); ("db.table", VString table);
   ("operation_type", VString "database_operation"); ("success", VBool success)].
Proof. reflexivity. Qed.

(** ** DatabaseOperation *)

Lemma RecordMetric_world o ctx operation value attrs w :
  RecordMetric o ctx operation value attrs w =
  (Normal tt,
   {| spans := spans w;
      metric_points := metric_points w ++
        match businessOpsCounter o with
        | Some c => [{| mp_instrument := inst_name c; mp_value := MInt64 value;
                        mp_attrs := metric_WithAttributes
                                      (attrs ++ [("operation_type", VString operation)]) |}]
        | None => []
        end;
      slog_records := slog_records w; otel_records := otel_records w;
      shutdown_log := shutdown_log w; clock := clock w; sdk_latency := sdk_latency w |}).
Proof.
  unfold RecordMetric. destruct (businessOpsCounter o); simpl; [done|].
  rewrite app_nil_r. by destruct w.
Qed.

(** X6.  [DatabaseOperation] returns what the callback returned.  When the
    callback returns, exactly one business metric is recorded after the
    callback's own (if the counter exists), with the attribute set of the
    operation, the table, the operation type and [success], which is true
    exactly when the error is nil; the outcome is logged at error level with
    the error attached, or at debug level.  When the callback panics, the
    panic goes on and neither the metric nor the outcome log is recorded. *)
Theorem DatabaseOperation_outcome o t ctx operation table fn w :
  tracer o = Some t →
  let started := [("operation", VString operation); ("table", VString table)] in
  let w0 := snd (LogDebug o ctx "Database operation started" started w) in
  let db_attrs := [("db.operation", VString operation); ("db.table", VString table);
                   ("db.type", VString "unknown")] in
  let run := traced_run fn ctx ("db." +:+ operation) db_attrs w0 in
  let w1 := snd (TraceFunction o ctx ("db." +:+ operation) fn db_attrs w0) in
  let finished := started ++ [("duration_ms", VFloat64 (duration_ms (clock w1 - clock w)))] in
  let r := DatabaseOperation o ctx operation table fn w in
  fst r = run_result run ∧
  metric_points (snd r) =
    metric_points w ++ metric_effects (run_effects run) ++
    match run_result run, businessOpsCounter o with
    | Normal err, Some c =>
        [{| mp_instrument := inst_name c; mp_value := MInt64 1;
            mp_attrs := [("db.operation", VString operation); ("db.table", VString table);
                         ("operation_type", VString "database_operation");
                         ("success", VBool (match err with None => true | Some _ => false end))] |}]
    | _, _ => []
    end ∧
  slog_records (snd r) =
    slog_records w ++ slog_line o slog_LevelDebug "Database operation started" started w ++
    slog_effects (run_effects run) ++
    match run_result run with
    | Normal (Some e) =>
        slog_line o slog_LevelError "Database operation failed"
          (finished ++ [("error", VAny (Some e))]) w1
    | Normal None => slog_line o slog_LevelDebug "Database operation completed" finished w1
    | Panicked _ => []
    end.
Proof.
  intros Ht started w0 db_attrs run w1 finished r.
  pose proof (TraceFunction_world o t ctx ("db." +:+ operation) fn db_attrs w0 Ht) as [Hr _].
  pose proof (metric_points_TraceFunction o t ctx ("db." +:+ operation) fn db_attrs w0 Ht) as Hm.
  pose proof (slog_records_TraceFunction o t ctx ("db." +:+ operation) fn db_attrs w0 Ht) as Hs.
  fold run in Hr, Hm, Hs. fold w1 in Hm, Hs.
  assert (Hw0 : metric_points w0 = metric_points w ∧ clock w0 = clock w ∧
                slog_records w0 = slog_records w ++
                  slog_line o slog_LevelDebug "Database operation started" started w).
  { subst w0. by rewrite LogDebug_world. }
  destruct Hw0 as (Hm0 & Hc0 & Hs0). rewrite Hm0 in Hm. rewrite Hs0 in Hs.
  assert (HL : LogDebug o ctx "Database operation started" started w = (Normal tt, w0)).
  { subst w0. by rewrite LogDebug_world. }
  assert (HT : TraceFunction o ctx ("db." +:+ operation) fn db_attrs w0 = (run_result run, w1)).
  { rewrite <- Hr. subst w1. apply surjective_pairing. }
  subst r. unfold DatabaseOperation, mbind, M_bind, mret, M_ret, time_Now, time_Since.
  fold started db_attrs. rewrite HL. cbn beta iota. rewrite HT, Hc0.
  destruct (run_result run) as [[e|]|p]; cbn beta iota.
  - rewrite LogError_world, RecordMetric_world. cbn [fst snd metric_points slog_records clock].
    rewrite Hm, Hs. fold finished.
    split; [done|]. split; [|by rewrite <- !app_assoc].
    rewrite <- !app_assoc. by destruct (businessOpsCounter o).
  - rewrite LogDebug_world, RecordMetric_world. cbn [fst snd metric_points slog_records clock].
    rewrite Hm, Hs. fold finished.
    split; [done|]. split; [|by rewrite <- !app_assoc].
    rewrite <- !app_assoc. by destruct (businessOpsCounter o).
  - cbn [fst snd]. rewrite Hm, Hs. rewrite !app_nil_r. by rewrite <- !app_assoc.
Qed.

Lemma DatabaseOperation_outcome_witness :
  fst (DatabaseOperation default_kit context_Background "SELECT" "users" failing_body
         empty_world) = Normal (Some boom) ∧
  metric_points (snd (DatabaseOperation default_kit context_Background "SELECT" "users"
                        failing_body empty_world)) =
    [{| mp_instrument := "otelkit_business_operations_total"; mp_value := MInt64 1;
        mp_attrs := [("db.operation", VString "SELECT"); ("db.table", VString "users");
                     ("operation_type", VString "database_operation");
                     ("success", VBool false)] |}].
Proof.
  destruct (DatabaseOperation_outcome default_kit
              {| tr_name := "unknown-service"; tr_version := "1.0.0" |}
              context_Background "SELECT" "users" failing_body empty_world eq_refl)
    as (Hr & Hm & _).
  split; [exact Hr|exact Hm].
Defined.

(** ** TimedOperation and the naming helpers *)

(** X7.  [TimedOperation] returns the callback's error unchanged together
    with the time elapsed from its start to the return of [TraceFunction],
    which is never negative and never less than the time the callback took.
    When the callback panics, the panic goes on and nothing is done after
    [TraceFunction]. *)
Theorem TimedOperation_result_and_duration o t ctx name fn w :
  tracer o = Some t →
  let run := traced_run fn ctx name [] w in
  let entry := traced_entry ctx name [] w in
  let w1 := snd (TraceFunction o ctx name fn [] w) in
  match run_result run with
  | Normal err =>
      fst (TimedOperation o ctx name fn w) = Normal (clock w1 - clock w, err) ∧
      0 ≤ clock (apply_effects (run_effects run) entry) - clock entry ≤ clock w1 - clock w
  | Panicked p =>
      TimedOperation o ctx name fn w = (Panicked p, w1)
  end.
Proof.
  intros Ht run entry w1.
  destruct (TraceFunction_world o t ctx name fn [] w Ht) as [Hr Hw].
  fold run in Hr, Hw. fold w1 in Hw.
  assert (HT : TraceFunction o ctx name fn [] w = (run_result run, w1)).
  { rewrite <- Hr. subst w1. apply surjective_pairing. }
  unfold TimedOperation, mbind, M_bind, mret, M_ret, time_Now, time_Since,
    span_SetAttributes, span_do.
  change (λ ctx0 : Context, fn ctx0) with fn. rewrite HT.
  destruct (run_result run) as [err|p] eqn:Hres; [|done].
  split; [done|].
  pose proof (clock_apply_effects (run_effects run) entry) as Hmono.
  assert (Hentry : clock w ≤ clock entry).
  { subst entry. unfold traced_entry. simpl. lia. }
  assert (Hexit : clock (apply_effects (run_effects run) entry) ≤ clock w1).
  { rewrite Hw. cbn [snd span_End]. unfold advance_clock. cbn [clock].
    rewrite clock_span_call, clock_fold_span_call. fold entry. lia. }
  lia.
Qed.

Lemma TimedOperation_result_and_duration_witness :
  fst (TimedOperation default_kit context_Background "timed_test" sleeping_body empty_world)
    = Normal (10000000, None).
Proof.
  destruct (TimedOperation_result_and_duration default_kit
              {| tr_name := "unknown-service"; tr_version := "1.0.0" |}
              context_Background "timed_test" sleeping_body empty_world eq_refl) as [Hr _].
  exact Hr.
Defined.

(** X8.  [CacheOperation], [ExternalServiceCall], [BatchOperation] and the
    function [TraceHTTPHandler] returns give back exactly what the callback
    returned, and each leaves one span of its own, named [cache.<op>],
    [external.<service>.<op>], [batch.<name>] and [http.<name>], whose first
    call sets the attributes of that helper. *)
Theorem naming_helpers o t ctx fn w a b n :
  tracer o = Some t →
  let spec name attrs (r : Result error * World) :=
    fst r = run_result (traced_run fn ctx name attrs w) ∧
    ∃ s rest, spans (snd r) !! length (spans w) = Some s ∧ span_name s = name ∧
              span_ops s = OpSetAttributes attrs :: rest in
  spec ("cache." +:+ a) [("cache.operation", VString a); ("cache.key", VString b)]
    (CacheOperation o ctx a b fn w) ∧
  spec ("external." +:+ a +:+ "." +:+ b)
    [("service.name", VString a); ("service.operation", VString b)]
    (ExternalServiceCall o ctx a b fn w) ∧
  spec ("batch." +:+ a) [("batch.operation", VString a); ("batch.item_count", VInt64 n)]
    (BatchOperation o ctx a n fn w) ∧
  spec ("http." +:+ a) [] (TraceHTTPHandler o a fn ctx w).
Proof.
  intros Ht spec.
  assert (H : ∀ name attrs, spec name attrs (TraceFunction o ctx name fn attrs w)).
  { intros name attrs. split.
    - by destruct (TraceFunction_world o t ctx name fn attrs w Ht).
    - by apply (TraceFunction_first_call o t). }
  repeat split; apply H.
Qed.

Lemma naming_helpers_witness :
  fst (CacheOperation default_kit context_Background "get" "u:7" failing_body empty_world)
    = Normal (Some boom) ∧
  ∃ s rest, spans (snd (BatchOperation default_kit context_Background "emails" 42
                          sleeping_body empty_world)) !! 0%nat = Some s ∧
            span_name s = "batch.emails"%string ∧
            span_ops s = OpSetAttributes [("batch.operation", VString "emails");
                                          ("batch.item_count", VInt64 42)] :: rest.
Proof.
  split.
  - destruct (naming_helpers default_kit
                {| tr_name := "unknown-service"; tr_version := "1.0.0" |}
                context_Background failing_body empty_world "get" "u:7" 0 eq_refl)
      as ((Hr & _) & _).
    exact Hr.
  - destruct (naming_helpers default_kit
                {| tr_name := "unknown-service"; tr_version := "1.0.0" |}
                context_Background sleeping_body empty_world "emails" "x" 42 eq_refl)
      as (_ & _ & (_ & Hs) & _).
    exact Hs.
Defined.

(** ** Operations on the span of the context *)

(** X9.  When the context carries a span, [AddEvent], [SetAttributes] and
    [RecordError] with a non-nil error return normally and act on that span
    alone: it receives the event, the attributes, or the error followed by
    the error status with the error's message, and every other span is as it
    was. *)
Theorem span_operations_reach_active_span o ctx id s w :
  ctx_span ctx = Some id → spans w !! id = Some s →
  let reaches ops (r : Result unit * World) :=
    fst r = Normal tt ∧
    spans (snd r) !! id = Some (push_ops ops s) ∧
    (∀ j, j ≠ id → spans (snd r) !! j = spans w !! j) ∧
    metric_points (snd r) = metric_points w ∧ slog_records (snd r) = slog_records w in
  (∀ name attrs, reaches [OpAddEvent name attrs] (AddEvent o ctx name attrs w)) ∧
  (∀ attrs, reaches [OpSetAttributes attrs] (SetAttributes o ctx attrs w)) ∧
  (∀ e, reaches [OpRecordError (Some e); OpSetStatus codes_Error (Error e)]
          (RecordError o ctx (Some e) w) ∧
        span_status (push_ops [OpRecordError (Some e); OpSetStatus codes_Error (Error e)] s)
          = (codes_Error, Error e)).
Proof.
  intros Hctx Hs reaches. subst reaches.
  unfold AddEvent, SetAttributes, RecordError, SpanFromContext. rewrite Hctx.
  unfold span_AddEvent, span_SetAttributes, span_RecordError, span_SetStatus, span_do,
    mbind, M_bind, err_Error, mret, M_ret.
  split; [|split].
  - intros name attrs. cbn [fst snd]. split; [done|].
    split; [by apply lookup_span_call_eq|].
    split; [|done]. intros j Hj. apply lookup_span_call_ne. congruence.
  - intros attrs. cbn [fst snd]. split; [done|].
    split; [by apply lookup_span_call_eq|].
    split; [|done]. intros j Hj. apply lookup_span_call_ne. congruence.
  - intros e. split.
    + cbn [fst snd]. split; [done|]. split.
      * erewrite lookup_span_call_eq; [|by apply lookup_span_call_eq].
        f_equal. unfold push_ops, push_op. simpl. by rewrite <- app_assoc.
      * split; [|done]. intros j Hj.
        rewrite !lookup_span_call_ne by congruence. done.
    + unfold span_status. simpl. rewrite status_of_ops_app. done.
Qed.

Lemma span_operations_reach_active_span_witness :
  spans (snd (RecordError default_kit parent_context (Some boom) parent_world)) !! 0%nat =
    Some (push_ops [OpRecordError (Some boom); OpSetStatus codes_Error "boom"]
            (new_span context_Background "parent" [] empty_world)).
Proof.
  destruct (span_operations_reach_active_span default_kit parent_context 0%nat
              (new_span context_Background "parent" [] empty_world) parent_world
              eq_refl eq_refl) as (_ & _ & He).
  destruct (He boom) as ((_ & Hl & _) & _). exact Hl.
Defined.

(** ** HTTP middleware: the panicking paths and the log pipeline *)

Lemma metric_points_middleware_handled o next r w :
  metric_points (middleware_handled o next r w) =
  metric_points w ++ gauge_point o 1 ++ metric_effects (h_effects (middleware_run o next r w)).
Proof.
  unfold middleware_handled. rewrite metric_points_apply_effects.
  unfold middleware_entry. cbn zeta. rewrite LogInfo_world. cbn [snd metric_points].
  unfold IncrementActiveSpans, gauge_point.
  destruct (activeSpansGauge o); simpl; by rewrite <- ?app_assoc, ?app_nil_r.
Qed.

(** The middleware when the handler panics: the deferred calls run on the
    world the handler left. *)
Lemma HTTPMiddleware_handler_panics o t next rw r w p :
  tracer o = Some t →
  h_result (middleware_run o next r w) = Panicked p →
  HTTPMiddleware o next rw r w =
  (Panicked p,
   snd (span_End (sdkSpan (length (spans w)))
          (snd (DecrementActiveSpans o (middleware_context w) (middleware_handled o next r w))))).
Proof.
  intros Ht Hres.
  unfold HTTPMiddleware, StartSpan. rewrite Ht.
  unfold mbind, M_bind, mret, M_ret, time_Now, tracer_Start, defer, ServeHTTP, time_Since.
  cbn beta iota zeta.
  fold (middleware_context w).
  rewrite IncrementActiveSpans_eta, LogInfo_eta.
  change (next (WithContext r (middleware_context w)) _) with (middleware_run o next r w).
  change (apply_effects (h_effects (middleware_run o next r w)) _)
    with (middleware_handled o next r w).
  rewrite Hres. cbn beta iota zeta.
  rewrite DecrementActiveSpans_eta. reflexivity.
Qed.

(** The middleware with a nil logger and a handler that returns: the span
    attributes and the HTTP metrics are recorded, the completion log panics,
    and the deferred calls run. *)
Lemma HTTPMiddleware_nil_logger_world o t next rw r w :
  tracer o = Some t → logger o = None →
  h_result (middleware_run o next r w) = Normal tt →
  ∃ wi, HTTPMiddleware o next rw r w =
        (Panicked nil_dereference,
         snd (span_End (sdkSpan (length (spans w)))
                (snd (DecrementActiveSpans o (middleware_context w) wi)))) ∧
        ∃ pts, metric_points wi = metric_points (middleware_handled o next r w) ++ pts.
Proof.
  intros Ht Hl Hres.
  unfold HTTPMiddleware, StartSpan. rewrite Ht, Hl.
  unfold mbind, M_bind, mret, M_ret, time_Now, tracer_Start, defer, ServeHTTP, time_Since.
  cbn beta iota zeta.
  fold (middleware_context w).
  rewrite IncrementActiveSpans_eta, LogInfo_eta.
  change (next (WithContext r (middleware_context w)) _) with (middleware_run o next r w).
  change (apply_effects (h_effects (middleware_run o next r w)) _)
    with (middleware_handled o next r w).
  rewrite Hres. cbn beta iota zeta.
  unfold span_SetAttributes, span_SetStatus, span_do.
  destruct (400 <=? _); rewrite RecordHTTPMetrics_eta; cbn beta iota zeta;
    unfold Logger_LogAttrs, panic; rewrite DecrementActiveSpans_eta;
    (eexists; split; [reflexivity|]);
    rewrite metric_points_RecordHTTPMetrics, !metric_points_span_call;
    eexists; reflexivity.
Qed.

(** X10.  When the wrapped handler panics, the middleware lets the panic
    through with its reason after its deferred calls have run: the span of
    the request is ended, having received nothing from the middleware but
    that [End], the active-span gauge is decremented, and no status code,
    HTTP metric or completion log is recorded. *)
Theorem HTTPMiddleware_handler_panic_cleanup o t next rw r w p :
  tracer o = Some t →
  let run := middleware_run o next r w in
  h_result run = Panicked p →
  let wh := middleware_handled o next r w in
  let w' := snd (HTTPMiddleware o next rw r w) in
  fst (HTTPMiddleware o next rw r w) = Panicked p ∧
  (∃ s, spans w' !! length (spans w) = Some s ∧
        span_ops s = ops_on (length (spans w)) (h_effects run) ++ [OpEnd]) ∧
  metric_points w' = metric_points wh ++ gauge_point o (-1) ∧
  slog_records w' = slog_records wh.
Proof.
  intros Ht run Hres wh w'. subst w'.
  rewrite (HTTPMiddleware_handler_panics _ _ _ _ _ _ _ Ht Hres).
  cbn [fst snd span_End]. split; [done|]. split; [|split].
  - rewrite spans_advance_clock.
    pose proof (middleware_entry_lookup o r w) as Hentry.
    apply (lookup_apply_effects (h_effects run)) in Hentry.
    fold (middleware_handled o next r w) in Hentry.
    eexists. split.
    + apply lookup_span_call_eq. rewrite spans_DecrementActiveSpans. exact Hentry.
    + reflexivity.
  - unfold advance_clock. cbn [metric_points].
    by rewrite metric_points_span_call, metric_points_DecrementActiveSpans.
  - unfold advance_clock. cbn [slog_records].
    by rewrite slog_records_span_call, slog_records_DecrementActiveSpans.
Qed.

Lemma HTTPMiddleware_handler_panic_cleanup_witness :
  fst (HTTPMiddleware default_kit panicking_handler [] sample_request empty_world)
    = Panicked "index out of range" ∧
  ∃ s, spans (snd (HTTPMiddleware default_kit panicking_handler [] sample_request
                     empty_world)) !! 0%nat = Some s ∧
       span_ops s = [OpEnd].
Proof.
  destruct (HTTPMiddleware_handler_panic_cleanup default_kit
              {| tr_name := "unknown-service"; tr_version := "1.0.0" |}
              panicking_handler [] sample_request empty_world "index out of range"
              eq_refl eq_refl) as (Hr & Hs & _).
  split; [exact Hr|exact Hs].
Defined.

(** X11.  The active-span gauge brackets every request.  Whatever the
    handler does and whether or not the kit has a logger, the metric points
    of a request begin with the increment and end with the decrement. *)
Theorem HTTPMiddleware_gauge_brackets_request o t next rw r w :
  tracer o = Some t →
  ∃ pts, metric_points (snd (HTTPMiddleware o next rw r w)) =
         metric_points w ++ gauge_point o 1 ++ pts ++ gauge_point o (-1).
Proof.
  intros Ht.
  assert (Hexit : ∀ wi pts,
            metric_points wi = metric_points (middleware_handled o next r w) ++ pts →
            ∃ pts', metric_points
                      (snd (span_End (sdkSpan (length (spans w)))
                              (snd (DecrementActiveSpans o (middleware_context w) wi)))) =
                    metric_points w ++ gauge_point o 1 ++ pts' ++ gauge_point o (-1)).
  { intros wi pts Hpts.
    exists (metric_effects (h_effects (middleware_run o next r w)) ++ pts).
    cbn [snd span_End]. unfold advance_clock. cbn [metric_points].
    rewrite metric_points_span_call, metric_points_DecrementActiveSpans, Hpts.
    rewrite metric_points_middleware_handled. unfold gauge_point.
    by rewrite <- !app_assoc. }
  destruct (h_result (middleware_run o next r w)) as [[]|p] eqn:Hres.
  - destruct (logger o) as [lg|] eqn:Hl.
    + rewrite (HTTPMiddleware_normal _ _ _ _ _ _ _ Ht Hl Hres). cbn zeta. cbn [snd].
      eapply Hexit.
      destruct (400 <=? _); rewrite ?metric_points_LogError;
        autorewrite with frame; reflexivity.
    + destruct (HTTPMiddleware_nil_logger_world _ _ next rw r w Ht Hl Hres)
        as (wi & -> & pts & Hpts).
      cbn [snd]. by eapply Hexit.
  - rewrite (HTTPMiddleware_handler_panics _ _ _ _ _ _ _ Ht Hres). cbn [snd].
    apply (Hexit _ []). by rewrite app_nil_r.
Qed.

Lemma HTTPMiddleware_gauge_brackets_request_witness :
  ∃ pts, metric_points (snd (HTTPMiddleware default_kit unavailable_handler []
                               sample_request empty_world)) =
         metric_points empty_world ++ gauge_point default_kit 1 ++ pts ++
         gauge_point default_kit (-1).
Proof.
  exact (HTTPMiddleware_gauge_brackets_request default_kit
           {| tr_name := "unknown-service"; tr_version := "1.0.0" |}
           unavailable_handler [] sample_request empty_world eq_refl).
Defined.

Lemma HTTPMiddleware_completes_witness :
  fst (HTTPMiddleware default_kit not_found_handler [RWrite "early"] sample_request
         empty_world) =
  Normal [RWrite "early"; RWriteHeader 404; RWrite "no such user"].
Proof.
  assert (Ht : is_Some (tracer default_kit)) by (eexists; vm_compute; reflexivity).
  assert (Hl : is_Some (logger default_kit)) by (eexists; vm_compute; reflexivity).
  assert (Hr : h_result (middleware_run default_kit not_found_handler sample_request
                           empty_world) = Normal tt) by (vm_compute; reflexivity).
  exact (HTTPMiddleware_completes default_kit not_found_handler [RWrite "early"]
           sample_request empty_world Ht Hl Hr).
Defined.

Lemma otel_records_span_call sp op w : otel_records (span_call sp op w) = otel_records w.
Proof. by destruct sp. Qed.

Lemma otel_records_RecordHTTPMetrics o ctx m s d w :
  otel_records (snd (RecordHTTPMetrics o ctx m s d w)) = otel_records w.
Proof.
  unfold RecordHTTPMetrics, mbind, M_bind.
  by destruct (httpRequestsTotal o), (httpRequestDuration o).
Qed.

Lemma otel_records_Logger_LogAttrs lg ctx level msg attrs w :
  otel_records (snd (Logger_LogAttrs (Some lg) ctx level msg attrs w)) = otel_records w.
Proof. simpl. by destruct (lg_level lg <=? level). Qed.

Lemma otel_records_DecrementActiveSpans o ctx w :
  otel_records (snd (DecrementActiveSpans o ctx w)) = otel_records w.
Proof. unfold DecrementActiveSpans. by destruct (activeSpansGauge o). Qed.

Lemma correlation_of_lookup id s w :
  spans w !! id = Some s →
  correlation {| ctx_span := Some id |} w =
  [("trace_id", VString (pretty (span_trace s))); ("span_id", VString (pretty id))].
Proof. intros H. unfold correlation. simpl. by rewrite H. Qed.

(** X13.  For a request whose handler returns, the span of the request has
    the error status with the status text as description exactly when the
    recorded status code is 400 or more, and otherwise the status the
    handler left.  The log pipeline receives the record "HTTP request
    failed", with a nil error, for such a status code and nothing else from
    the middleware: the completion log goes to the local sink only. *)
Theorem HTTPMiddleware_failure_reporting o t lg next rw r w :
  tracer o = Some t → logger o = Some lg →
  let run := middleware_run o next r w in
  h_result run = Normal tt →
  let sc := last_written (h_response run) in
  let wh := middleware_handled o next r w in
  let w' := snd (HTTPMiddleware o next rw r w) in
  (∃ s, spans w' !! length (spans w) = Some s ∧
        span_status s =
          if 400 <=? sc then (codes_Error, http_StatusText sc)
          else status_of_ops (ops_on (length (spans w)) (h_effects run))) ∧
  otel_records w' =
    otel_records wh ++
    if 400 <=? sc
    then otel_line o (middleware_context w) SeverityError "HTTP request failed"
           [("status_code", VInt64 sc); ("path", VString (URL_Path r));
            ("error", VAny None)] wh
    else [].
Proof.
  intros Ht Hl run Hres sc wh w'.
  subst w'. rewrite (HTTPMiddleware_normal _ _ _ _ _ _ _ Ht Hl Hres).
  cbn zeta. fold run sc wh. cbn [snd span_End].
  pose proof (middleware_entry_lookup o r w) as Hentry.
  apply (lookup_apply_effects (h_effects run)) in Hentry.
  fold (middleware_handled o next r w) in Hentry. fold wh in Hentry.
  pose proof Hentry as Hwh.
  eapply lookup_span_call_eq in Hentry.
  split.
  - rewrite spans_advance_clock.
    destruct (400 <=? sc).
    + eapply lookup_span_call_eq in Hentry.
      eexists. split.
      * apply lookup_span_call_eq. autorewrite with frame. exact Hentry.
      * unfold span_status. simpl. rewrite <- !app_assoc.
        rewrite !status_of_ops_app. reflexivity.
    + eexists. split.
      * apply lookup_span_call_eq. autorewrite with frame. exact Hentry.
      * unfold span_status. simpl. rewrite <- !app_assoc.
        rewrite !status_of_ops_app. reflexivity.
  - unfold advance_clock at 1. cbn [otel_records].
    rewrite otel_records_span_call, otel_records_DecrementActiveSpans.
    destruct (400 <=? sc).
    + eapply lookup_span_call_eq in Hentry.
      rewrite LogError_world. cbn [snd otel_records clock].
      rewrite otel_records_Logger_LogAttrs, otel_records_RecordHTTPMetrics,
        !otel_records_span_call.
      f_equal. unfold otel_line. destruct (otelLogger o); [|done].
      autorewrite with frame. do 3 f_equal.
      unfold middleware_context.
      erewrite (correlation_of_lookup _ _ wh) by exact Hwh.
      erewrite correlation_of_lookup by (autorewrite with frame; exact Hentry).
      reflexivity.
    + rewrite otel_records_Logger_LogAttrs, otel_records_RecordHTTPMetrics,
        !otel_records_span_call. by rewrite app_nil_r.
Qed.

Lemma HTTPMiddleware_failure_reporting_witness :
  ∃ s, spans (snd (HTTPMiddleware default_kit unavailable_handler [] sample_request
                     empty_world)) !! 0%nat = Some s ∧
       span_status s = (codes_Error, "Service Unavailable"%string).
Proof.
  destruct (HTTPMiddleware_failure_reporting default_kit
              {| tr_name := "unknown-service"; tr_version := "1.0.0" |}
              {| lg_level := 0; lg_path := EmptyString |}
              unavailable_handler [] sample_request empty_world
              eq_refl eq_refl eq_refl) as [Hs _].
  exact Hs.
Defined.

(** ** Construction, continued *)

Lemma createTraceExporter_none ext cfg x :
  createTraceExporter ext cfg = (x, None) →
  (x = None ↔ String.eqb (ExporterType_ cfg) "none" = true).
Proof.
  unfold createTraceExporter, constructed,
    ExporterJaeger, ExporterOTLP, ExporterStdout, ExporterNone.
  destruct (String.eqb_spec (ExporterType_ cfg) "jaeger") as [->|?].
  { destruct (jaeger_New ext _); [discriminate|]. intros [= <-]. by split. }
  destruct (String.eqb_spec (ExporterType_ cfg) "otlp") as [->|?].
  { destruct (otlptracehttp_New ext _); [discriminate|]. intros [= <-]. by split. }
  destruct (String.eqb_spec (ExporterType_ cfg) "stdout") as [->|?].
  { destruct (stdouttrace_New ext); [discriminate|]. intros [= <-]. by split. }
  destruct (String.eqb (ExporterType_ cfg) "none"); [|discriminate].
  intros [= <-]. by split.
Qed.

(** The providers of the kit [New] returns. *)
Lemma New_providers ext cfg o :
  New ext cfg = (Some o, None) →
  (∃ x, tracerProvider o =
        Some {| pv_kind := TracerProviderK; pv_exporter := x;
                pv_sampler := Some (if String.eqb (ExporterType_ cfg) "none"
                                    then NeverSample
                                    else TraceIDRatioBased (SampleRate cfg));
                pv_fault := provider_fault ext TracerProviderK |}) ∧
  (∃ x, meterProvider o =
        if EnableMetrics cfg
        then Some {| pv_kind := MeterProviderK; pv_exporter := x; pv_sampler := None;
                     pv_fault := provider_fault ext MeterProviderK |}
        else None) ∧
  (∃ x, loggerProvider o =
        if EnableLogs cfg
        then Some {| pv_kind := LoggerProviderK; pv_exporter := x; pv_sampler := None;
                     pv_fault := provider_fault ext LoggerProviderK |}
        else None).
Proof.
  unfold New.
  destruct (newResource ext cfg) as [res [e|]]; [discriminate|].
  unfold initTracing. cbn [config kit_of_config].
  destruct (createTraceExporter ext cfg) as [x [e|]] eqn:Hx; [discriminate|].
  apply createTraceExporter_none in Hx.
  assert (Hsampler :
    match x with
    | Some _ => {| pv_kind := TracerProviderK; pv_exporter := x;
                   pv_sampler := Some (TraceIDRatioBased (SampleRate cfg));
                   pv_fault := provider_fault ext TracerProviderK |}
    | None => {| pv_kind := TracerProviderK; pv_exporter := None;
                 pv_sampler := Some NeverSample;
                 pv_fault := provider_fault ext TracerProviderK |}
    end =
    {| pv_kind := TracerProviderK; pv_exporter := x;
       pv_sampler := Some (if String.eqb (ExporterType_ cfg) "none"
                           then NeverSample else TraceIDRatioBased (SampleRate cfg));
       pv_fault := provider_fault ext TracerProviderK |}).
  { destruct x as [ex|].
    - destruct (String.eqb (ExporterType_ cfg) "none"); [|done].
      destruct Hx as [_ Hx]. by specialize (Hx eq_refl).
    - destruct Hx as [Hx _]. by rewrite (Hx eq_refl). }
  rewrite Hsampler. clear Hsampler Hx.
  destruct (EnableMetrics cfg); destruct (EnableLogs cfg).
  - destruct (initMetrics _ _ _) as [o2 [e|]] eqn:Him; [discriminate|].
    unfold initMetrics in Him. cbn [config set_tracing kit_of_config] in Him.
    destruct (createMetricsExporter ext cfg) as [xm [e|]]; cbn beta iota in Him; [discriminate Him|].
    destruct (initMetricsInstruments _ _ _) as [o1 [e|]] eqn:Hi; cbn beta iota in Him; [discriminate Him|].
    apply initMetricsInstruments_ok in Hi as (d & c & g & b & ->).
    injection Him as <-.
    destruct (initLogging _ _ _) as [o3 [e|]] eqn:Hil; [discriminate|].
    unfold initLogging in Hil. cbn [config set_tracing set_metrics set_instruments kit_of_config] in Hil.
    destruct (createLogsExporter ext cfg) as [xl [e|]]; cbn beta iota in Hil; [discriminate Hil|].
    destruct (if negb _ then _ else _) as [e|]; cbn beta iota in Hil; [discriminate Hil|].
    injection Hil as <-. intros [= <-]. simpl.
    (split; [|split]); first [by exists None | eexists; reflexivity].
  - destruct (initMetrics _ _ _) as [o2 [e|]] eqn:Him; [discriminate|].
    unfold initMetrics in Him. cbn [config set_tracing kit_of_config] in Him.
    destruct (createMetricsExporter ext cfg) as [xm [e|]]; cbn beta iota in Him; [discriminate Him|].
    destruct (initMetricsInstruments _ _ _) as [o1 [e|]] eqn:Hi; cbn beta iota in Him; [discriminate Him|].
    apply initMetricsInstruments_ok in Hi as (d & c & g & b & ->).
    injection Him as <-. intros [= <-]. simpl.
    (split; [|split]); first [by exists None | eexists; reflexivity].
  - destruct (initLogging _ _ _) as [o3 [e|]] eqn:Hil; [discriminate|].
    unfold initLogging in Hil. cbn [config set_tracing kit_of_config] in Hil.
    destruct (createLogsExporter ext cfg) as [xl [e|]]; cbn beta iota in Hil; [discriminate Hil|].
    destruct (if negb _ then _ else _) as [e|]; cbn beta iota in Hil; [discriminate Hil|].
    injection Hil as <-. intros [= <-]. simpl.
    (split; [|split]); first [by exists None | eexists; reflexivity].
  - intros [= <-]. simpl.
    (split; [|split]); first [by exists None | eexists; reflexivity].
Qed.

(** X14.  With the exporter "none" the tracer provider never samples and
    the configured sample rate plays no part; with every other exporter it
    samples by trace identifier at the configured rate. *)
Theorem New_sampler ext cfg o :
  New ext cfg = (Some o, None) →
  ∃ p, tracerProvider o = Some p ∧
       pv_sampler p = Some (if String.eqb (ExporterType_ cfg) "none"
                            then NeverSample
                            else TraceIDRatioBased (SampleRate cfg)) ∧
       (pv_exporter p = None ↔ ExporterType_ cfg = "none"%string).
Proof.
  intros Hnew. pose proof Hnew as Hp.
  apply New_providers in Hp as ((x & Hp) & _).
  eexists. split; [exact Hp|]. split; [done|]. cbn [pv_exporter].
  revert Hnew Hp. unfold New.
  destruct (newResource ext cfg) as [res [e|]]; [discriminate|].
  destruct (initTracing ext (kit_of_config cfg) res) as [o1 [e|]] eqn:Hinit; [discriminate|].
  unfold initTracing in Hinit. cbn [config kit_of_config] in Hinit.
  destruct (createTraceExporter ext cfg) as [x0 [e|]] eqn:Hx; cbn beta iota in Hinit; [discriminate Hinit|].
  apply createTraceExporter_none in Hx. injection Hinit as <-.
  intros Hnew Hp.
  assert (Hkeep : tracerProvider o = tracerProvider
            (set_tracing (kit_of_config cfg)
               {| tr_name := ServiceName cfg; tr_version := ServiceVersion cfg |}
               match x0 with
               | Some _ => {| pv_kind := TracerProviderK; pv_exporter := x0;
                              pv_sampler := Some (TraceIDRatioBased (SampleRate cfg));
                              pv_fault := provider_fault ext TracerProviderK |}
               | None => {| pv_kind := TracerProviderK; pv_exporter := None;
                            pv_sampler := Some NeverSample;
                            pv_fault := provider_fault ext TracerProviderK |}
               end)).
  { revert Hnew.
    destruct (EnableMetrics cfg); destruct (EnableLogs cfg).
    - destruct (initMetrics _ _ _) as [o2 [e|]] eqn:Him; [discriminate|].
      apply initMetrics_ok in Him as (_ & d & c & g & b & m & mp & ->).
      destruct (initLogging _ _ _) as [o3 [e|]] eqn:Hil; [discriminate|].
      apply initLogging_ok in Hil as (_ & lp & ol & l & ->). by intros [= <-].
    - destruct (initMetrics _ _ _) as [o2 [e|]] eqn:Him; [discriminate|].
      apply initMetrics_ok in Him as (_ & d & c & g & b & m & mp & ->). by intros [= <-].
    - destruct (initLogging _ _ _) as [o3 [e|]] eqn:Hil; [discriminate|].
      apply initLogging_ok in Hil as (_ & lp & ol & l & ->). by intros [= <-].
    - by intros [= <-]. }
  rewrite Hp in Hkeep. cbn [set_tracing tracerProvider] in Hkeep.
  rewrite <- String.eqb_eq. rewrite <- Hx.
  destruct x0; injection Hkeep as ->; done.
Qed.

Lemma New_sampler_witness :
  ∃ p, tracerProvider custom_kit = Some p ∧
       pv_sampler p = Some NeverSample ∧
       (pv_exporter p = None ↔ ExporterType_ custom_config = "none"%string).
Proof.
  apply (New_sampler all_ok custom_config custom_kit eq_refl).
Defined.

Lemma initLogging_log_file ext o res o' :
  initLogging ext o res = (o', None) → log_file_opens ext (config o).
Proof.
  unfold initLogging, log_file_opens.
  destruct (createLogsExporter ext (config o)) as [x [e|]]; [discriminate|].
  destruct (String.eqb_spec (LogFilePath (config o)) EmptyString) as [Hp|Hp]; [by left|].
  cbn [negb]. destruct (os_OpenFile ext (LogFilePath (config o))); [discriminate|by right].
Qed.

(** A kit built with logs enabled: the log file, if one is named, was
    opened. *)
Lemma New_log_file ext cfg o :
  New ext cfg = (Some o, None) → EnableLogs cfg = true → log_file_opens ext cfg.
Proof.
  unfold New. intros Hnew Hen. rewrite Hen in Hnew.
  destruct (newResource ext cfg) as [res [e|]]; [discriminate|].
  destruct (initTracing ext (kit_of_config cfg) res) as [o1 [e|]] eqn:Ht; [discriminate|].
  apply initTracing_ok in Ht as (_ & t & p & ->).
  destruct (EnableMetrics cfg).
  - destruct (initMetrics _ _ _) as [o2 [e|]] eqn:Him; [discriminate|].
    apply initMetrics_ok in Him as (_ & d & c & g & b & m & mp & ->).
    destruct (initLogging _ _ _) as [o3 [e|]] eqn:Hil; [discriminate|].
    by apply initLogging_log_file in Hil.
  - destruct (initLogging _ _ _) as [o3 [e|]] eqn:Hil; [discriminate|].
    by apply initLogging_log_file in Hil.
Qed.

(** When no constructor fails, recognized names and a log file that opens
    are enough for [New]. *)
Lemma New_constructible ext cfg :
  constructors_succeed ext →
  recognized_trace (ExporterType_ cfg) = true →
  (EnableMetrics cfg = true → recognized_metrics (MetricsExporterType cfg) = true) →
  (EnableLogs cfg = true →
   recognized_logs (LogsExporterType cfg) = true ∧ log_file_opens ext cfg) →
  ∃ o, New ext cfg = (Some o, None).
Proof.
  intros (Hres & Hj & Hot & Hst & Hom & Hpr & Hsm & Hol & Hsl & Hmi) Ht Hm Hl.
  assert (Hxt : ∃ x, createTraceExporter ext cfg = (x, None)).
  { revert Ht. unfold recognized_trace, createTraceExporter, constructed,
      ExporterJaeger, ExporterOTLP, ExporterStdout, ExporterNone.
    destruct (String.eqb (ExporterType_ cfg) "jaeger"); [rewrite Hj; simpl; eauto|].
    destruct (String.eqb (ExporterType_ cfg) "otlp"); [cbn zeta; rewrite Hot; simpl; eauto|].
    destruct (String.eqb (ExporterType_ cfg) "stdout"); [rewrite Hst; simpl; eauto|].
    destruct (String.eqb (ExporterType_ cfg) "none"); [simpl; eauto|discriminate]. }
  assert (Hxm : EnableMetrics cfg = true → ∃ x, createMetricsExporter ext cfg = (x, None)).
  { intros Hen. specialize (Hm Hen). revert Hm.
    unfold recognized_metrics, createMetricsExporter, constructed,
      ExporterOTLP, ExporterPrometheus, ExporterStdout, ExporterNone.
    destruct (String.eqb (MetricsExporterType cfg) "otlp");
      [cbn zeta; rewrite Hom; simpl; eauto|].
    destruct (String.eqb (MetricsExporterType cfg) "prometheus");
      [rewrite Hpr; simpl; eauto|].
    destruct (String.eqb (MetricsExporterType cfg) "stdout"); [rewrite Hsm; simpl; eauto|].
    destruct (String.eqb (MetricsExporterType cfg) "none"); [simpl; eauto|discriminate]. }
  assert (Hxl : EnableLogs cfg = true → ∃ x, createLogsExporter ext cfg = (x, None)).
  { intros Hen. destruct (Hl Hen) as [Hrec _]. revert Hrec.
    unfold recognized_logs, createLogsExporter, constructed,
      ExporterOTLP, ExporterStdout, ExporterNone.
    destruct (String.eqb (LogsExporterType cfg) "otlp");
      [cbn zeta; rewrite Hol; simpl; eauto|].
    destruct (String.eqb (LogsExporterType cfg) "stdout"); [rewrite Hsl; simpl; eauto|].
    destruct (String.eqb (LogsExporterType cfg) "none"); [simpl; eauto|discriminate]. }
  assert (Hfile : EnableLogs cfg = true →
            (if negb (String.eqb (LogFilePath cfg) EmptyString)
             then os_OpenFile ext (LogFilePath cfg) else None) = None).
  { intros Hen. destruct (Hl Hen) as [_ [Hp|Hp]]; [by rewrite Hp|].
    rewrite Hp. by destruct (negb _). }
  destruct Hxt as [xt Hxt].
  unfold New, newResource. rewrite Hres.
  unfold initTracing. cbn [config kit_of_config]. rewrite Hxt.
  destruct (EnableMetrics cfg).
  - destruct (Hxm eq_refl) as [xm Hxm']. unfold initMetrics.
    cbn [config set_tracing kit_of_config]. rewrite Hxm'.
    unfold initMetricsInstruments, new_instrument. rewrite !Hmi.
    cbn beta iota zeta.
    destruct (EnableLogs cfg); [|eauto].
    destruct (Hxl eq_refl) as [xl Hxl']. unfold initLogging.
    cbn [config set_tracing set_metrics set_instruments kit_of_config].
    rewrite Hxl', (Hfile eq_refl). eauto.
  - destruct (EnableLogs cfg); [|eauto].
    destruct (Hxl eq_refl) as [xl Hxl']. unfold initLogging.
    cbn [config set_tracing kit_of_config].
    rewrite Hxl', (Hfile eq_refl). eauto.
Qed.

Lemma all_ok_constructors_succeed : constructors_succeed all_ok.
Proof. repeat split. Qed.

Lemma read_only_constructors_succeed : constructors_succeed read_only_file_system.
Proof. repeat split. Qed.

(** X15.  When no constructor of the SDK fails, [New] returns a kit exactly
    for the configurations whose trace exporter name is recognized, whose
    metrics exporter name is recognized if metrics are enabled, and, if logs
    are enabled, whose logs exporter name is recognized and whose log file,
    when one is named, can be opened. *)
Theorem New_succeeds_iff_names_recognized ext cfg :
  constructors_succeed ext →
  (∃ o, New ext cfg = (Some o, None)) ↔
  recognized_trace (ExporterType_ cfg) = true ∧
  (EnableMetrics cfg = true → recognized_metrics (MetricsExporterType cfg) = true) ∧
  (EnableLogs cfg = true →
   recognized_logs (LogsExporterType cfg) = true ∧ log_file_opens ext cfg).
Proof.
  intros Hext. split.
  - intros [o Ho]. pose proof (New_log_file _ _ _ Ho) as Hfile.
    apply New_ok in Ho as (_ & _ & _ & Ht & Hm & Hl).
    split; [done|]. split.
    + intros Hen. rewrite Hen in Hm. by destruct Hm.
    + intros Hen. rewrite Hen in Hl. split; [by destruct Hl|by apply Hfile].
  - intros (Ht & Hm & Hl). by apply New_constructible.
Qed.

(** With the defaults and a log file that cannot be opened no constructor
    fails, every name is recognized, and [New] returns no kit. *)
Lemma New_succeeds_iff_names_recognized_witness :
  constructors_succeed read_only_file_system ∧
  recognized_logs (LogsExporterType (DefaultConfig log_file_env)) = true ∧
  ¬ (∃ o, New read_only_file_system (DefaultConfig log_file_env) = (Some o, None)) ∧
  ∃ o, New read_only_file_system (DefaultConfig empty_env) = (Some o, None).
Proof.
  split; [exact read_only_constructors_succeed|]. split; [reflexivity|].
  pose proof (New_succeeds_iff_names_recognized read_only_file_system
                (DefaultConfig log_file_env) read_only_constructors_succeed) as Hfile.
  pose proof (New_succeeds_iff_names_recognized read_only_file_system
                (DefaultConfig empty_env) read_only_constructors_succeed) as Hnone.
  split.
  - intros Hnew. apply Hfile in Hnew as (_ & _ & Hl).
    destruct (Hl eq_refl) as [_ [Hp|Hp]]; discriminate Hp.
  - apply Hnone. split; [reflexivity|]. split; [reflexivity|].
    intros _. split; [reflexivity|]. by left.
Defined.

(** X16.  Tracing is initialized first.  When the resource can be built and
    the trace exporter name is not recognized, [New] fails with the message
    naming that exporter, whatever the metrics and logs settings are. *)
Theorem New_reports_unknown_trace_exporter ext cfg :
  resource_Merge ext cfg = None →
  recognized_trace (ExporterType_ cfg) = false →
  ∃ e, New ext cfg = (None, Some e) ∧
       Error e = "failed to initialize tracing: failed to create trace exporter: unsupported trace exporter type: "
                 +:+ ExporterType_ cfg.
Proof.
  intros Hres Hrec.
  unfold New, newResource. rewrite Hres.
  unfold initTracing. cbn [config kit_of_config].
  revert Hrec. unfold recognized_trace, createTraceExporter,
    ExporterJaeger, ExporterOTLP, ExporterStdout, ExporterNone.
  destruct (String.eqb (ExporterType_ cfg) "jaeger"); [discriminate|].
  destruct (String.eqb (ExporterType_ cfg) "otlp"); [discriminate|].
  destruct (String.eqb (ExporterType_ cfg) "stdout"); [discriminate|].
  destruct (String.eqb (ExporterType_ cfg) "none"); [discriminate|].
  intros _. eexists. split; reflexivity.
Qed.

Lemma New_reports_unknown_trace_exporter_witness :
  ∃ e, New all_ok partial_config = (None, Some e) ∧
       Error e = "failed to initialize tracing: failed to create trace exporter: unsupported trace exporter type: "%string.
Proof.
  apply (New_reports_unknown_trace_exporter all_ok partial_config eq_refl eq_refl).
Defined.

(** ** Shutdown, continued *)

(** X17.  [Shutdown] of a kit that [New] built calls [Shutdown] on the
    tracer provider, on the meter provider if metrics were enabled and on the
    logger provider if logs were enabled, in this order, and returns nil
    exactly when none of these providers fails. *)
Theorem Shutdown_after_New ext cfg o ctx w :
  New ext cfg = (Some o, None) →
  let kinds := TracerProviderK ::
               (if EnableMetrics cfg then [MeterProviderK] else []) ++
               (if EnableLogs cfg then [LoggerProviderK] else []) in
  shutdown_log (snd (Shutdown o ctx w)) = shutdown_log w ++ kinds ∧
  (fst (Shutdown o ctx w) = Normal None ↔ Forall (λ k, provider_fault ext k = None) kinds).
Proof.
  intros Hnew kinds. subst kinds.
  apply New_providers in Hnew as ((xt & Ht) & (xm & Hm) & (xl & Hl)).
  unfold Shutdown, shutdown_one, Provider_Shutdown, mbind, M_bind, mret, M_ret.
  rewrite Ht, Hm, Hl. cbn [pv_fault pv_kind].
  destruct (EnableMetrics cfg), (EnableLogs cfg);
    destruct (provider_fault ext TracerProviderK) eqn:F1;
    destruct (provider_fault ext MeterProviderK) eqn:F2;
    destruct (provider_fault ext LoggerProviderK) eqn:F3;
    simpl; rewrite <- ?app_assoc; simpl;
    (split; [reflexivity|]);
    (split; [intros [=]; repeat constructor; assumption
            |intros H; try reflexivity;
             repeat match goal with
                    | H : Forall _ (_ :: _) |- _ =>
                        apply Forall_cons in H; destruct H as [? H]
                    end; congruence]).
Qed.

Lemma Shutdown_after_New_witness :
  shutdown_log (snd (Shutdown default_kit context_Background empty_world)) =
    [TracerProviderK; MeterProviderK; LoggerProviderK] ∧
  fst (Shutdown default_kit context_Background empty_world) = Normal None.
Proof.
  assert (Hnew : New all_ok (DefaultConfig empty_env) = (Some default_kit, None))
    by (vm_compute; reflexivity).
  destruct (Shutdown_after_New all_ok (DefaultConfig empty_env) default_kit
              context_Background empty_world Hnew) as [Hlog Hnil].
  split; [exact Hlog|]. apply Hnil. repeat constructor.
Defined.

Lemma no_span_noop_witness :
  AddEvent custom_kit context_Background "cache_miss" [("cache.key", VString "u:7")]
    parent_world = (Normal tt, parent_world) ∧
  RecordError custom_kit context_Background (Some boom) parent_world
    = (Normal tt, parent_world).
Proof.
  destruct (no_span_noop custom_kit context_Background parent_world eq_refl)
    as (Hadd & _ & Herr).
  split; [apply Hadd|apply Herr].
Defined.

(** ** Configuration, continued *)

(** X20.  The flags of [DefaultConfig] are switched by the exact word
    [true] only: debug is on only for it, metrics and logs are on by default
    and are switched off by every other non-empty value.  The log level is
    debug, warn or error for exactly these words and info for every other
    value of the variable, set or not. *)
Theorem DefaultConfig_flags (env : Env) :
  let c := DefaultConfig env in
  (Debug c = true ↔ env "OTEL_DEBUG" = "true"%string) ∧
  (EnableMetrics c = true ↔
     env "OTEL_ENABLE_METRICS" = EmptyString ∨ env "OTEL_ENABLE_METRICS" = "true"%string) ∧
  (EnableLogs c = true ↔
     env "OTEL_ENABLE_LOGS" = EmptyString ∨ env "OTEL_ENABLE_LOGS" = "true"%string) ∧
  (LogLevel c = slog_LevelDebug ↔ env "OTEL_LOG_LEVEL" = "debug"%string) ∧
  (LogLevel c = slog_LevelWarn ↔ env "OTEL_LOG_LEVEL" = "warn"%string) ∧
  (LogLevel c = slog_LevelError ↔ env "OTEL_LOG_LEVEL" = "error"%string) ∧
  (LogLevel c = slog_LevelInfo ↔
     env "OTEL_LOG_LEVEL" ≠ "debug"%string ∧ env "OTEL_LOG_LEVEL" ≠ "warn"%string ∧
     env "OTEL_LOG_LEVEL" ≠ "error"%string).
Proof.
  cbn zeta. unfold DefaultConfig.
  cbn [Debug EnableMetrics EnableLogs LogLevel].
  rewrite !getEnvOrDefault_spec.
  split; [|split; [|split]].
  - destruct (String.eqb_spec (env "OTEL_DEBUG") EmptyString) as [->|Hne].
    + split; intros H; discriminate H.
    + by rewrite String.eqb_eq.
  - destruct (String.eqb_spec (env "OTEL_ENABLE_METRICS") EmptyString) as [->|Hne].
    + split; [by left|done].
    + rewrite String.eqb_eq. split; [by right|]. by intros [?|?].
  - destruct (String.eqb_spec (env "OTEL_ENABLE_LOGS") EmptyString) as [->|Hne].
    + split; [by left|done].
    + rewrite String.eqb_eq. split; [by right|]. by intros [?|?].
  - unfold slog_LevelDebug, slog_LevelWarn, slog_LevelError, slog_LevelInfo.
    destruct (String.eqb_spec (env "OTEL_LOG_LEVEL") EmptyString) as [->|Hne].
    + simpl. repeat split; try (intros H; discriminate H); done.
    + destruct (String.eqb_spec (env "OTEL_LOG_LEVEL") "debug") as [->|Hd].
      { repeat split; try (intros H; discriminate H); try done.
        by intros (? & _). }
      destruct (String.eqb_spec (env "OTEL_LOG_LEVEL") "warn") as [->|Hw].
      { repeat split; try (intros H; discriminate H); try done.
        by intros (_ & ? & _). }
      destruct (String.eqb_spec (env "OTEL_LOG_LEVEL") "error") as [->|He].
      { repeat split; try (intros H; discriminate H); try done.
        by intros (_ & _ & ?). }
      repeat split; try (intros H; discriminate H); done.
Qed.

(** ** Attributes of log records *)

(** X21.  [convertSlogAttr] keeps every key, in order, and every string,
    integer, float and boolean value; a value of any other kind becomes a
    string, so a converted list holds scalar values only and converting it
    again changes nothing. *)
Theorem convertSlogAttr_scalars (attrs : list KeyValue) :
  map fst (map convertSlogAttr attrs) = map fst attrs ∧
  forallb (λ kv, negb (is_VAny (snd kv))) (map convertSlogAttr attrs) = true ∧
  map convertSlogAttr (map convertSlogAttr attrs) = map convertSlogAttr attrs ∧
  (forallb (λ kv, negb (is_VAny (snd kv))) attrs = true →
   map convertSlogAttr attrs = attrs).
Proof.
  induction attrs as [|[k v] attrs (IH1 & IH2 & IH3 & IH4)]; [done|].
  cbn [map forallb]. rewrite IH1, IH2, IH3.
  repeat split.
  - by destruct v as [| | | |[e|]].
  - by destruct v as [| | | |[e|]].
  - by destruct v as [| | | |[e|]].
  - intros [Hv Hrest]%andb_true_iff. rewrite (IH4 Hrest).
    by destruct v as [| | | |[e|]].
Qed.

(** ** HTTP middleware without a logger *)

Lemma HTTPMiddleware_nil_logger_exact o t next rw r w :
  tracer o = Some t → logger o = None →
  h_result (middleware_run o next r w) = Normal tt →
  HTTPMiddleware o next rw r w =
    let ctx := middleware_context w in
    let sp := sdkSpan (length (spans w)) in
    let wh := middleware_handled o next r w in
    let sc := last_written (h_response (middleware_run o next r w)) in
    let d := clock wh - clock w in
    let w1 := span_call sp (OpSetAttributes
                [("http.status_code", VInt64 sc);
                 ("http.status_text", VString (http_StatusText sc));
                 ("http.duration_ms", VFloat64 (duration_ms d))]) wh in
    let w2 := if 400 <=? sc
              then span_call sp (OpSetStatus codes_Error (http_StatusText sc)) w1 else w1 in
    let w3 := snd (RecordHTTPMetrics o ctx (Method r) (strconv_Itoa sc) d w2) in
    (Panicked nil_dereference, snd (span_End sp (snd (DecrementActiveSpans o ctx w3)))).
Proof.
  intros Ht Hl Hres.
  unfold HTTPMiddleware, StartSpan. rewrite Ht, Hl.
  unfold mbind, M_bind, mret, M_ret, time_Now, tracer_Start, defer, ServeHTTP, time_Since.
  cbn beta iota zeta.
  fold (middleware_context w).
  rewrite IncrementActiveSpans_eta, LogInfo_eta.
  change (next (WithContext r (middleware_context w)) _) with (middleware_run o next r w).
  change (apply_effects (h_effects (middleware_run o next r w)) _)
    with (middleware_handled o next r w).
  rewrite Hres. cbn beta iota zeta.
  destruct (response_fold (h_response (middleware_run o next r w))
              {| ResponseWriter := rw; statusCode := 200 |}) as [Hsc _].
  cbn [statusCode] in Hsc.
  fold (last_written (h_response (middleware_run o next r w))) in Hsc.
  rewrite Hsc.
  unfold span_SetAttributes, span_SetStatus, span_do.
  destruct (400 <=? last_written (h_response (middleware_run o next r w)));
    rewrite RecordHTTPMetrics_eta; cbn beta iota zeta;
    unfold Logger_LogAttrs, panic; rewrite DecrementActiveSpans_eta; reflexivity.
Qed.

(** X22.  With a nil logger and a handler that returns, the request is
    lost to the panic of the completion log only after the middleware has
    done the rest: the span carries the status code, status text and
    duration (and the error status from 400 on) and is ended, both HTTP
    metrics are recorded and the gauge is decremented.  No log record is
    written after the handler has returned. *)
Theorem HTTPMiddleware_without_logger o t next rw r w :
  tracer o = Some t → logger o = None →
  let run := middleware_run o next r w in
  h_result run = Normal tt →
  let sc := last_written (h_response run) in
  let wh := middleware_handled o next r w in
  let d := clock wh - clock w in
  let w' := snd (HTTPMiddleware o next rw r w) in
  fst (HTTPMiddleware o next rw r w) = Panicked nil_dereference ∧
  (∃ s, spans w' !! length (spans w) = Some s ∧
        span_ops s =
          ops_on (length (spans w)) (h_effects run) ++
          [OpSetAttributes [("http.status_code", VInt64 sc);
                            ("http.status_text", VString (http_StatusText sc));
                            ("http.duration_ms", VFloat64 (duration_ms d))]] ++
          (if 400 <=? sc then [OpSetStatus codes_Error (http_StatusText sc)] else []) ++
          [OpEnd]) ∧
  metric_points w' =
    metric_points wh ++
    match httpRequestsTotal o with
    | Some c => [{| mp_instrument := inst_name c; mp_value := MInt64 1;
                    mp_attrs := [("method", VString (Method r));
                                 ("status_code", VString (strconv_Itoa sc))] |}]
    | None => []
    end ++
    match httpRequestDuration o with
    | Some h => [{| mp_instrument := inst_name h; mp_value := MFloat64 (Seconds d);
                    mp_attrs := [("method", VString (Method r));
                                 ("status_code", VString (strconv_Itoa sc))] |}]
    | None => []
    end ++
    gauge_point o (-1) ∧
  slog_records w' = slog_records wh ∧
  otel_records w' = otel_records wh.
Proof.
  intros Ht Hl run Hres sc wh d w'.
  subst w'. rewrite (HTTPMiddleware_nil_logger_exact _ _ _ _ _ _ Ht Hl Hres).
  cbn zeta. fold run sc wh d. cbn [fst snd span_End].
  split; [done|]. split; [|split; [|split]].
  - pose proof (middleware_entry_lookup o r w) as Hentry.
    apply (lookup_apply_effects (h_effects run)) in Hentry.
    fold (middleware_handled o next r w) in Hentry. fold wh in Hentry.
    eapply lookup_span_call_eq in Hentry.
    rewrite spans_advance_clock.
    destruct (400 <=? sc).
    + eapply lookup_span_call_eq in Hentry.
      eexists. split.
      * apply lookup_span_call_eq. autorewrite with frame. exact Hentry.
      * simpl. by rewrite <- ?app_assoc.
    + eexists. split.
      * apply lookup_span_call_eq. autorewrite with frame. exact Hentry.
      * simpl. by rewrite <- ?app_assoc.
  - unfold advance_clock at 1. cbn [metric_points]. unfold gauge_point.
    destruct (400 <=? sc); autorewrite with frame; by rewrite <- ?app_assoc.
  - unfold advance_clock at 1. cbn [slog_records].
    destruct (400 <=? sc); by autorewrite with frame.
  - unfold advance_clock at 1. cbn [otel_records].
    rewrite otel_records_span_call, otel_records_DecrementActiveSpans,
      otel_records_RecordHTTPMetrics.
    destruct (400 <=? sc); by rewrite ?otel_records_span_call.
Qed.

Lemma HTTPMiddleware_without_logger_witness :
  fst (HTTPMiddleware custom_kit not_found_handler [] sample_request empty_world)
    = Panicked nil_dereference ∧
  ∃ s, spans (snd (HTTPMiddleware custom_kit not_found_handler [] sample_request
                     empty_world)) !! 0%nat = Some s ∧
       span_ops s =
         [OpSetAttributes [("http.status_code", VInt64 404);
                           ("http.status_text", VString "Not Found");
                           ("http.duration_ms", VFloat64 (duration_ms 0))];
          OpSetStatus codes_Error "Not Found"; OpEnd].
Proof.
  destruct (HTTPMiddleware_without_logger custom_kit
              {| tr_name := "custom-service"; tr_version := "2.0.0" |}
              not_found_handler [] sample_request empty_world
              eq_refl eq_refl eq_refl) as (Hr & Hs & _).
  split; [exact Hr|exact Hs].
Defined.

(** ** From the configuration to the operations *)

Lemma initMetricsInstruments_names ext o m o' :
  initMetricsInstruments ext o m = (o', None) →
  o' = set_instruments o
         (Some {| inst_name := "http_request_duration_seconds" |})
         (Some {| inst_name := "http_requests_total" |})
         (Some {| inst_name := "otelkit_active_spans" |})
         (Some {| inst_name := "otelkit_business_operations_total" |}).
Proof.
  unfold initMetricsInstruments, new_instrument.
  destruct (meter_instrument ext "http_request_duration_seconds"); [discriminate|].
  destruct (meter_instrument ext "http_requests_total"); [discriminate|].
  destruct (meter_instrument ext "otelkit_active_spans"); [discriminate|].
  destruct (meter_instrument ext "otelkit_business_operations_total"); [discriminate|].
  by intros [= <-].
Qed.

(** The handles of the kit [New] returns. *)
Lemma New_handles ext cfg o :
  New ext cfg = (Some o, None) →
  tracer o = Some {| tr_name := ServiceName cfg; tr_version := ServiceVersion cfg |} ∧
  (EnableMetrics cfg = true →
   httpRequestDuration o = Some {| inst_name := "http_request_duration_seconds" |} ∧
   httpRequestsTotal o = Some {| inst_name := "http_requests_total" |} ∧
   activeSpansGauge o = Some {| inst_name := "otelkit_active_spans" |} ∧
   businessOpsCounter o = Some {| inst_name := "otelkit_business_operations_total" |}) ∧
  (EnableLogs cfg = true →
   logger o = Some {| lg_level := LogLevel cfg; lg_path := LogFilePath cfg |} ∧
   otelLogger o = Some {| ol_name := "otelkit"; ol_version := ServiceVersion cfg |}).
Proof.
  unfold New.
  destruct (newResource ext cfg) as [res [e|]]; [discriminate|].
  unfold initTracing. cbn [config kit_of_config].
  destruct (createTraceExporter ext cfg) as [x [e|]]; [discriminate|].
  destruct (EnableMetrics cfg); destruct (EnableLogs cfg).
  - destruct (initMetrics _ _ _) as [o2 [e|]] eqn:Him; [discriminate|].
    unfold initMetrics in Him. cbn [config set_tracing kit_of_config] in Him.
    destruct (createMetricsExporter ext cfg) as [xm [e|]]; cbn beta iota in Him;
      [discriminate Him|].
    destruct (initMetricsInstruments _ _ _) as [o1 [e|]] eqn:Hi; cbn beta iota in Him;
      [discriminate Him|].
    apply initMetricsInstruments_names in Hi as ->. injection Him as <-.
    destruct (initLogging _ _ _) as [o3 [e|]] eqn:Hil; [discriminate|].
    unfold initLogging in Hil.
    cbn [config set_tracing set_metrics set_instruments kit_of_config] in Hil.
    destruct (createLogsExporter ext cfg) as [xl [e|]]; cbn beta iota in Hil;
      [discriminate Hil|].
    destruct (if negb _ then _ else _) as [e|]; cbn beta iota in Hil; [discriminate Hil|].
    injection Hil as <-. intros [= <-]. simpl. done.
  - destruct (initMetrics _ _ _) as [o2 [e|]] eqn:Him; [discriminate|].
    unfold initMetrics in Him. cbn [config set_tracing kit_of_config] in Him.
    destruct (createMetricsExporter ext cfg) as [xm [e|]]; cbn beta iota in Him;
      [discriminate Him|].
    destruct (initMetricsInstruments _ _ _) as [o1 [e|]] eqn:Hi; cbn beta iota in Him;
      [discriminate Him|].
    apply initMetricsInstruments_names in Hi as ->. injection Him as <-.
    intros [= <-]. simpl. done.
  - destruct (initLogging _ _ _) as [o3 [e|]] eqn:Hil; [discriminate|].
    unfold initLogging in Hil. cbn [config set_tracing kit_of_config] in Hil.
    destruct (createLogsExporter ext cfg) as [xl [e|]]; cbn beta iota in Hil;
      [discriminate Hil|].
    destruct (if negb _ then _ else _) as [e|]; cbn beta iota in Hil; [discriminate Hil|].
    injection Hil as <-. intros [= <-]. simpl. done.
  - intros [= <-]. simpl. done.
Qed.

(** X23.  The configured log level governs the local sink of the kit [New]
    builds with logs enabled: a leveled helper writes its record there
    exactly when its level is not below [LogLevel], while the log pipeline
    receives a record whatever the level. *)
Theorem New_log_level_governs_local_sink ext cfg o ctx msg attrs w :
  New ext cfg = (Some o, None) → EnableLogs cfg = true →
  let line level := if LogLevel cfg <=? level
                    then [{| sr_time := clock w; sr_level := level; sr_msg := msg;
                             sr_attrs := attrs |}]
                    else [] in
  slog_records (snd (LogDebug o ctx msg attrs w)) = slog_records w ++ line slog_LevelDebug ∧
  slog_records (snd (LogInfo o ctx msg attrs w)) = slog_records w ++ line slog_LevelInfo ∧
  slog_records (snd (LogWarn o ctx msg attrs w)) = slog_records w ++ line slog_LevelWarn ∧
  length (otel_records (snd (LogDebug o ctx msg attrs w))) = S (length (otel_records w)).
Proof.
  intros Hnew Hen line. subst line.
  apply New_handles in Hnew as (_ & _ & Hl). destruct (Hl Hen) as [Hlg Hol].
  rewrite LogDebug_world, LogInfo_world, LogWarn_world.
  cbn [snd slog_records otel_records]. unfold slog_line, otel_line.
  rewrite Hlg, Hol. cbn [lg_level].
  repeat split. rewrite length_app. simpl. lia.
Qed.

Lemma New_log_level_governs_local_sink_witness :
  slog_records (snd (LogDebug default_kit context_Background "step" [] empty_world)) = [] ∧
  slog_records (snd (LogWarn default_kit context_Background "step" [] empty_world)) =
    [{| sr_time := 0; sr_level := slog_LevelWarn; sr_msg := "step"; sr_attrs := [] |}].
Proof.
  assert (Hnew : New all_ok (DefaultConfig empty_env) = (Some default_kit, None))
    by (vm_compute; reflexivity).
  destruct (New_log_level_governs_local_sink all_ok (DefaultConfig empty_env) default_kit
              context_Background "step" [] empty_world Hnew eq_refl)
    as (Hd & _ & Hw & _).
  split; [exact Hd|exact Hw].
Defined.

(** X24.  In a kit [New] builds with metrics enabled the metric operations
    feed the four registered instruments.  [RecordMetric] adds the value to
    [otelkit_business_operations_total] with the attribute set of the
    caller's attributes and [operation_type]: its keys are in order without
    repetition, [operation_type] has the operation as its one value even
    when the caller supplied that key, and every other key has the value the
    caller gave it last.  [RecordHTTPMetrics] adds one to
    [http_requests_total] and records the seconds in
    [http_request_duration_seconds], both tagged with method and status
    code, and the two gauge operations add one and minus one to
    [otelkit_active_spans]. *)
Theorem New_metric_operations ext cfg o ctx w :
  New ext cfg = (Some o, None) → EnableMetrics cfg = true →
  (∀ operation value attrs,
     let set := metric_WithAttributes (attrs ++ [("operation_type", VString operation)]) in
     metric_points (snd (RecordMetric o ctx operation value attrs w)) =
       metric_points w ++
       [{| mp_instrument := "otelkit_business_operations_total"; mp_value := MInt64 value;
           mp_attrs := set |}] ∧
     keys_ascending set = true ∧
     get_attr "operation_type" set = [VString operation] ∧
     (∀ k, k ≠ "operation_type"%string →
           get_attr k set = option_list (last (get_attr k attrs)))) ∧
  (∀ method code duration,
     metric_points (snd (RecordHTTPMetrics o ctx method code duration w)) =
     metric_points w ++
     [{| mp_instrument := "http_requests_total"; mp_value := MInt64 1;
         mp_attrs := [("method", VString method); ("status_code", VString code)] |};
      {| mp_instrument := "http_request_duration_seconds";
         mp_value := MFloat64 (Seconds duration);
         mp_attrs := [("method", VString method); ("status_code", VString code)] |}]) ∧
  metric_points (snd (DecrementActiveSpans o ctx (snd (IncrementActiveSpans o ctx w)))) =
    metric_points w ++
    [{| mp_instrument := "otelkit_active_spans"; mp_value := MInt64 1; mp_attrs := [] |};
     {| mp_instrument := "otelkit_active_spans"; mp_value := MInt64 (-1); mp_attrs := [] |}].
Proof.
  intros Hnew Hen.
  apply New_handles in Hnew as (_ & Hm & _). destruct (Hm Hen) as (Hd & Ht & Hg & Hb).
  split; [|split].
  - intros operation value attrs set.
    destruct (attribute_NewSet_spec (attrs ++ [("operation_type", VString operation)]))
      as [Hasc Hget].
    split; [|split; [exact Hasc|split]].
    + rewrite RecordMetric_world. cbn [snd metric_points]. by rewrite Hb.
    + subst set. unfold metric_WithAttributes. rewrite Hget, get_attr_app.
      change (get_attr "operation_type" [("operation_type"%string, VString operation)])
        with [VString operation].
      by rewrite last_snoc.
    + intros k Hk. subst set. unfold metric_WithAttributes.
      rewrite Hget, get_attr_app, get_attr_cons. cbn [fst].
      destruct (String.eqb_spec "operation_type" k) as [Heq|_]; [by destruct Hk|].
      by rewrite !app_nil_r.
  - intros method code duration. rewrite metric_points_RecordHTTPMetrics.
    by rewrite Hd, Ht.
  - rewrite metric_points_DecrementActiveSpans. unfold IncrementActiveSpans.
    rewrite Hg. simpl. by rewrite <- app_assoc.
Qed.

Lemma New_metric_operations_witness :
  metric_points (snd (RecordMetric default_kit context_Background "order_processed" 3
                        [("region", VString "eu"); ("operation_type", VString "refund");
                         ("region", VString "us")] empty_world)) =
  [{| mp_instrument := "otelkit_business_operations_total"; mp_value := MInt64 3;
      mp_attrs := [("operation_type", VString "order_processed");
                   ("region", VString "us")] |}].
Proof.
  assert (Hnew : New all_ok (DefaultConfig empty_env) = (Some default_kit, None))
    by (vm_compute; reflexivity).
  destruct (New_metric_operations all_ok (DefaultConfig empty_env) default_kit
              context_Background empty_world Hnew eq_refl) as (Hrec & _).
  destruct (Hrec "order_processed"%string 3
              [("region", VString "eu"); ("operation_type", VString "refund");
               ("region", VString "us")]) as (Hpoints & _).
  exact Hpoints.
Defined.

(** X25.  The defaults are exporter names [New] accepts.  In every
    environment that leaves the three exporter variables unset, and when no
    constructor of the SDK fails, [New] builds a kit from the configuration
    [DefaultConfig] returns exactly when logs are disabled or the log file
    named by [OTEL_LOG_FILE_PATH], if any, can be opened; the kit keeps that
    configuration. *)
Theorem DefaultConfig_is_constructible ext (env : Env) :
  constructors_succeed ext →
  env "OTEL_EXPORTER_TYPE" = EmptyString →
  env "OTEL_METRICS_EXPORTER" = EmptyString →
  env "OTEL_LOGS_EXPORTER" = EmptyString →
  (∃ o, New ext (DefaultConfig env) = (Some o, None) ∧ config o = DefaultConfig env) ↔
  (EnableLogs (DefaultConfig env) = true →
   env "OTEL_LOG_FILE_PATH" = EmptyString ∨
   os_OpenFile ext (env "OTEL_LOG_FILE_PATH") = None).
Proof.
  intros Hext Ht Hm Hl.
  assert (Hpath : LogFilePath (DefaultConfig env) = env "OTEL_LOG_FILE_PATH").
  { unfold DefaultConfig. cbn [LogFilePath]. rewrite getEnvOrDefault_spec.
    by destruct (String.eqb_spec (env "OTEL_LOG_FILE_PATH") EmptyString) as [->|]. }
  split.
  - intros (o & Ho & _) Hen. pose proof (New_log_file _ _ _ Ho Hen) as Hfile.
    unfold log_file_opens in Hfile. by rewrite Hpath in Hfile.
  - intros Hfile.
    assert (Hnew : ∃ o, New ext (DefaultConfig env) = (Some o, None));
      [|destruct Hnew as [o Ho]; exists o; split; [done|by apply New_ok in Ho as [Hc _]]].
    apply New_constructible; [done|..].
    + unfold DefaultConfig. cbn [ExporterType_]. unfold getEnvOrDefault. by rewrite Ht.
    + intros _. unfold DefaultConfig. cbn [MetricsExporterType]. unfold getEnvOrDefault.
      by rewrite Hm.
    + intros Hen. split.
      * unfold DefaultConfig. cbn [LogsExporterType]. unfold getEnvOrDefault. by rewrite Hl.
      * unfold log_file_opens. rewrite Hpath. by apply Hfile.
Qed.

Lemma DefaultConfig_is_constructible_witness :
  (∃ o, New all_ok (DefaultConfig log_file_env) = (Some o, None) ∧
        config o = DefaultConfig log_file_env) ∧
  ¬ (∃ o, New read_only_file_system (DefaultConfig log_file_env) = (Some o, None) ∧
          config o = DefaultConfig log_file_env).
Proof.
  pose proof (DefaultConfig_is_constructible all_ok log_file_env
                all_ok_constructors_succeed eq_refl eq_refl eq_refl) as Hok.
  pose proof (DefaultConfig_is_constructible read_only_file_system log_file_env
                read_only_constructors_succeed eq_refl eq_refl eq_refl) as Hro.
  split.
  - apply Hok. intros _. by right.
  - intros Hnew. destruct (proj1 Hro Hnew eq_refl) as [Hp|Hp]; discriminate Hp.
Defined.

(** ** The completion log and the logger *)

(** What the local sink holds after a request a kit with a logger has
    served. *)
Lemma HTTPMiddleware_local_records o t lg next rw r w :
  tracer o = Some t → logger o = Some lg →
  let run := middleware_run o next r w in
  h_result run = Normal tt →
  let sc := last_written (h_response run) in
  let wh := middleware_handled o next r w in
  let d := clock wh - clock w in
  slog_records (snd (HTTPMiddleware o next rw r w)) =
    slog_records wh ++
    (if lg_level lg <=? completion_level sc
     then [{| sr_time := clock wh; sr_level := completion_level sc;
              sr_msg := "HTTP request completed";
              sr_attrs := [("method", VString (Method r));
                           ("path", VString (URL_Path r));
                           ("status_code", VInt64 sc);
                           ("status_text", VString (http_StatusText sc));
                           ("duration_ms", VFloat64 (duration_ms d))] |}]
     else []) ++
    (if (400 <=? sc) && (lg_level lg <=? slog_LevelError)
     then [{| sr_time := clock wh; sr_level := slog_LevelError;
              sr_msg := "HTTP request failed";
              sr_attrs := [("status_code", VInt64 sc); ("path", VString (URL_Path r));
                           ("error", VAny None)] |}]
     else []).
Proof.
  intros Ht Hl run Hres sc wh d.
  rewrite (HTTPMiddleware_normal _ _ _ _ _ _ _ Ht Hl Hres).
  cbn zeta. fold run sc wh d. cbn [snd span_End].
  unfold advance_clock at 1. cbn [slog_records].
  destruct (400 <=? sc); cbn [andb]; autorewrite with frame.
  - rewrite (slog_records_LogError _ _ _ _ _ _ _ Hl). autorewrite with frame.
    by rewrite <- ?app_assoc.
  - by rewrite app_nil_r.
Qed.

(** What the log pipeline holds after such a request: the completion log
    is not among it. *)
Lemma HTTPMiddleware_pipeline_records o t lg next rw r w :
  tracer o = Some t → logger o = Some lg →
  let run := middleware_run o next r w in
  h_result run = Normal tt →
  let sc := last_written (h_response run) in
  let wh := middleware_handled o next r w in
  otel_records (snd (HTTPMiddleware o next rw r w)) =
    otel_records wh ++
    if 400 <=? sc
    then otel_line o (middleware_context w) SeverityError "HTTP request failed"
           [("status_code", VInt64 sc); ("path", VString (URL_Path r));
            ("error", VAny None)] wh
    else [].
Proof.
  intros Ht Hl run Hres sc wh.
  rewrite (HTTPMiddleware_normal _ _ _ _ _ _ _ Ht Hl Hres).
  cbn zeta. fold run sc wh. cbn [snd span_End].
  pose proof (middleware_entry_lookup o r w) as Hentry.
  apply (lookup_apply_effects (h_effects run)) in Hentry.
  fold (middleware_handled o next r w) in Hentry. fold wh in Hentry.
  pose proof Hentry as Hwh.
  eapply lookup_span_call_eq in Hentry.
  unfold advance_clock at 1. cbn [otel_records].
  rewrite otel_records_span_call, otel_records_DecrementActiveSpans.
  destruct (400 <=? sc).
  - eapply lookup_span_call_eq in Hentry.
    rewrite LogError_world. cbn [snd otel_records clock].
    rewrite otel_records_Logger_LogAttrs, otel_records_RecordHTTPMetrics,
      !otel_records_span_call.
    f_equal. unfold otel_line. destruct (otelLogger o); [|done].
    autorewrite with frame. do 3 f_equal.
    unfold middleware_context.
    erewrite (correlation_of_lookup _ _ wh) by exact Hwh.
    erewrite correlation_of_lookup by (autorewrite with frame; exact Hentry).
    reflexivity.
  - rewrite otel_records_Logger_LogAttrs, otel_records_RecordHTTPMetrics,
      !otel_records_span_call. by rewrite app_nil_r.
Qed.

(** What the sinks hold when the panic of the nil logger ends the request. *)
Lemma HTTPMiddleware_nil_logger_sinks o t next rw r w :
  tracer o = Some t → logger o = None →
  let run := middleware_run o next r w in
  h_result run = Normal tt →
  let sc := last_written (h_response run) in
  let wh := middleware_handled o next r w in
  let d := clock wh - clock w in
  let w' := snd (HTTPMiddleware o next rw r w) in
  metric_points w' =
    metric_points wh ++
    match httpRequestsTotal o with
    | Some c => [{| mp_instrument := inst_name c; mp_value := MInt64 1;
                    mp_attrs := [("method", VString (Method r));
                                 ("status_code", VString (strconv_Itoa sc))] |}]
    | None => []
    end ++
    match httpRequestDuration o with
    | Some h => [{| mp_instrument := inst_name h; mp_value := MFloat64 (Seconds d);
                    mp_attrs := [("method", VString (Method r));
                                 ("status_code", VString (strconv_Itoa sc))] |}]
    | None => []
    end ++
    gauge_point o (-1) ∧
  slog_records w' = slog_records wh ∧
  otel_records w' = otel_records wh.
Proof.
  intros Ht Hl run Hres sc wh d w'.
  subst w'. rewrite (HTTPMiddleware_nil_logger_exact _ _ _ _ _ _ Ht Hl Hres).
  cbn zeta. fold run sc wh d. cbn [fst snd span_End].
  split; [|split].
  - unfold advance_clock at 1. cbn [metric_points]. unfold gauge_point.
    destruct (400 <=? sc); autorewrite with frame; by rewrite <- ?app_assoc.
  - unfold advance_clock at 1. cbn [slog_records].
    destruct (400 <=? sc); by autorewrite with frame.
  - unfold advance_clock at 1. cbn [otel_records].
    rewrite otel_records_span_call, otel_records_DecrementActiveSpans,
      otel_records_RecordHTTPMetrics.
    destruct (400 <=? sc); by rewrite ?otel_records_span_call.
Qed.

(** C10.  The leveled helpers guard the logger: without one they return
    normally and write nothing to the local sink.  [HTTPMiddleware] writes
    its completion log by calling the logger itself, without a guard.  A
    request is therefore served without panic only by a kit whose logger is
    not nil, and a kit [New] built has a logger exactly when it was given
    [EnableLogs].  For a kit with a tracer and a handler that returns:
    with a logger the request is served, the response writer has received
    the calls of the handler, and the local sink holds, after the records of
    the handler, the completion record at the level of the status code
    (when the logger admits that level), which the log pipeline does not
    receive; without a logger the handler has run and both HTTP metrics are
    recorded, no record is written after the handler, and the call ends in
    the panic of the nil dereference. *)
Theorem HTTPMiddleware_requires_logger o next rw r w :
  let run := middleware_run o next r w in
  let sc := last_written (h_response run) in
  let wh := middleware_handled o next r w in
  let d := clock wh - clock w in
  let result := HTTPMiddleware o next rw r w in
  let completed :=
    {| sr_time := clock wh; sr_level := completion_level sc;
       sr_msg := "HTTP request completed";
       sr_attrs := [("method", VString (Method r));
                    ("path", VString (URL_Path r));
                    ("status_code", VInt64 sc);
                    ("status_text", VString (http_StatusText sc));
                    ("duration_ms", VFloat64 (duration_ms d))] |} in
  let failed :=
    {| sr_time := clock wh; sr_level := slog_LevelError;
       sr_msg := "HTTP request failed";
       sr_attrs := [("status_code", VInt64 sc); ("path", VString (URL_Path r));
                    ("error", VAny None)] |} in
  (is_Normal (fst result) = true → is_Some (logger o)) ∧
  (∀ ext cfg, New ext cfg = (Some o, None) →
     (is_Some (logger o) ↔ EnableLogs cfg = true)) ∧
  (is_Some (tracer o) → h_result run = Normal tt →
   match logger o with
   | Some lg =>
       fst result = Normal (rw ++ h_response run) ∧
       slog_records (snd result) =
         slog_records wh ++
         (if lg_level lg <=? completion_level sc then [completed] else []) ++
         (if (400 <=? sc) && (lg_level lg <=? slog_LevelError) then [failed] else []) ∧
       otel_records (snd result) =
         otel_records wh ++
         (if 400 <=? sc
          then otel_line o (middleware_context w) SeverityError "HTTP request failed"
                 [("status_code", VInt64 sc); ("path", VString (URL_Path r));
                  ("error", VAny None)] wh
          else [])
   | None =>
       fst result = Panicked nil_dereference ∧
       slog_records (snd result) = slog_records wh ∧
       otel_records (snd result) = otel_records wh ∧
       metric_points (snd result) =
         metric_points wh ++
         match httpRequestsTotal o with
         | Some c => [{| mp_instrument := inst_name c; mp_value := MInt64 1;
                         mp_attrs := [("method", VString (Method r));
                                      ("status_code", VString (strconv_Itoa sc))] |}]
         | None => []
         end ++
         match httpRequestDuration o with
         | Some h => [{| mp_instrument := inst_name h; mp_value := MFloat64 (Seconds d);
                         mp_attrs := [("method", VString (Method r));
                                      ("status_code", VString (strconv_Itoa sc))] |}]
         | None => []
         end ++
         gauge_point o (-1)
   end) ∧
  (logger o = None →
   ∀ ctx msg err attrs w0,
     let quiet (res : Result unit * World) :=
       fst res = Normal tt ∧ slog_records (snd res) = slog_records w0 in
     quiet (LogDebug o ctx msg attrs w0) ∧ quiet (LogInfo o ctx msg attrs w0) ∧
     quiet (LogWarn o ctx msg attrs w0) ∧ quiet (LogError o ctx msg err attrs w0)).
Proof.
  intros run sc wh d result completed failed.
  assert (Hneed : is_Normal (fst result) = true → is_Some (logger o)).
  { intros Hok. destruct (logger o) as [lg|] eqn:Hl; [eauto|].
    subst result. rewrite (HTTPMiddleware_nil_logger _ _ _ _ _ Hl) in Hok. discriminate. }
  split; [exact Hneed|]. split; [|split].
  - intros ext cfg Hnew. apply New_ok in Hnew as (_ & _ & _ & _ & _ & Hl).
    destruct (EnableLogs cfg).
    + destruct Hl as (_ & Hlg & _). done.
    + destruct Hl as [Hnone _]. rewrite Hnone. split; [by intros [? ?]|done].
  - intros [t Ht] Hres. destruct (logger o) as [lg|] eqn:Hl.
    + split; [|split].
      * subst result. by rewrite (HTTPMiddleware_normal _ _ _ _ _ _ _ Ht Hl Hres).
      * exact (HTTPMiddleware_local_records o t lg next rw r w Ht Hl Hres).
      * exact (HTTPMiddleware_pipeline_records o t lg next rw r w Ht Hl Hres).
    + destruct (HTTPMiddleware_nil_logger_sinks o t next rw r w Ht Hl Hres)
        as (Hm & Hs & Ho).
      split; [|split; [exact Hs|split; [exact Ho|exact Hm]]].
      subst result. by rewrite (HTTPMiddleware_nil_logger_exact _ _ _ _ _ _ Ht Hl Hres).
  - intros Hl ctx msg err attrs w0. cbn zeta.
    rewrite LogDebug_world, LogInfo_world, LogWarn_world, LogError_world.
    cbn [fst snd slog_records]. unfold slog_line. rewrite Hl.
    by rewrite app_nil_r.
Qed.

Lemma HTTPMiddleware_requires_logger_witness :
  is_Some (logger default_kit) ∧
  fst (HTTPMiddleware default_kit logging_handler [] sample_request empty_world) =
    Normal [RWriteHeader 404; RWrite "no such user"] ∧
  map sr_msg (slog_records (snd (HTTPMiddleware default_kit logging_handler []
                                   sample_request empty_world))) =
    ["HTTP request started"; "looking up user"; "HTTP request completed";
     "HTTP request failed"]%string ∧
  fst (HTTPMiddleware custom_kit logging_handler [] sample_request empty_world) =
    Panicked nil_dereference ∧
  map sr_msg (slog_records (snd (HTTPMiddleware custom_kit logging_handler []
                                   sample_request empty_world))) =
    ["looking up user"]%string.
Proof.
  assert (Hn : is_Normal (fst (HTTPMiddleware default_kit logging_handler [] sample_request
                                 empty_world)) = true) by (vm_compute; reflexivity).
  assert (Ht : is_Some (tracer default_kit)) by (eexists; vm_compute; reflexivity).
  assert (Ht' : is_Some (tracer custom_kit)) by (eexists; vm_compute; reflexivity).
  assert (Hr : h_result (middleware_run default_kit logging_handler sample_request
                           empty_world) = Normal tt) by (vm_compute; reflexivity).
  assert (Hr' : h_result (middleware_run custom_kit logging_handler sample_request
                            empty_world) = Normal tt) by (vm_compute; reflexivity).
  assert (Hlg : logger default_kit = Some {| lg_level := 0; lg_path := EmptyString |})
    by (vm_compute; reflexivity).
  assert (Hlg' : logger custom_kit = None) by (vm_compute; reflexivity).
  destruct (HTTPMiddleware_requires_logger default_kit logging_handler [] sample_request
              empty_world) as (Hneed & _ & Hserved & _).
  destruct (HTTPMiddleware_requires_logger custom_kit logging_handler [] sample_request
              empty_world) as (_ & _ & Hlost & _).
  specialize (Hserved Ht Hr). rewrite Hlg in Hserved.
  specialize (Hlost Ht' Hr'). rewrite Hlg' in Hlost.
  destruct Hserved as (Hres & Hlocal & _). destruct Hlost as (Hpanic & Hlocal' & _).
  split; [exact (Hneed Hn)|].
  split; [exact Hres|].
  split; [rewrite Hlocal; vm_compute; reflexivity|].
  split; [exact Hpanic|].
  rewrite Hlocal'. vm_compute; reflexivity.
Defined.
